(** * Camera-Database: the bundle rebuilder ([rebuild_camera_bundles.py])

    A shallow embedding of [rebuild_bundles] and of the script's entry point,
    with the properties of the bundles it writes.

    Python values are modelled as follows.
    - A [str] is the list of its code points ([pystr]); comparison, search
      and slicing work on code points, as in CPython.
    - The value returned by [json.load] is a [json] tree; a [dict] is an
      association list in insertion order (the order [json.dump] and
      iteration follow).
    - An exception is a value of [exn]; code that can raise returns
      [exn + A], and code that also prints or touches files runs in the
      monad [M], whose state (files and console) survives an exception.
    - What the standard library computes from tables or from the operating
      system is a parameter of the development: [str.upper] (the Unicode
      case mapping), [json.load] on the bytes of a file, writing a
      document with [json.dump], and the console: [print] writes its line
      or raises (a text that standard output cannot encode, a pipe that
      was closed), as the console decides.
    - The two lists the function builds, [all_cameras] and
      [regions_processed], are objects that [extend] and [append] change
      in place: they are part of the state, so that what was appended
      before an exception is still there after it. *)

From Stdlib Require Import List NArith ZArith Bool Arith Lia.
From Stdlib Require Import String Ascii.
From Stdlib Require Import Permutation Sorted.
From Stdlib Require Import Floats.SpecFloat.
Import ListNotations.

Set Implicit Arguments.
Set Warnings "-register-all".

(** ** Strings *)

Module Str.

(** A Python [str]: its code points in order. *)
Definition pystr : Type := list N.

(** A literal of the source. *)
Definition lit (s : string) : pystr :=
  List.map N_of_ascii (list_ascii_of_string s).

(** [a == b] on [str]. *)
Fixpoint eqb (a b : pystr) : bool :=
  match a, b with
  | [], [] => true
  | x :: a', y :: b' => N.eqb x y && eqb a' b'
  | _, _ => false
  end.

(** Three-way comparison of two [str]: code point by code point, a proper
    prefix being smaller. *)
Fixpoint compare (a b : pystr) : comparison :=
  match a, b with
  | [], [] => Eq
  | [], _ :: _ => Lt
  | _ :: _, [] => Gt
  | x :: a', y :: b' =>
      match N.compare x y with
      | Eq => compare a' b'
      | c => c
      end
  end.

(** [a < b] on [str]. *)
Definition ltb (a b : pystr) : bool :=
  match compare a b with Lt => true | _ => false end.

(** [s.startswith(p)]. *)
Fixpoint startswith (p s : pystr) : bool :=
  match p, s with
  | [], _ => true
  | _ :: _, [] => false
  | x :: p', y :: s' => N.eqb x y && startswith p' s'
  end.

(** [sub in s] on [str]: [sub] occurs in [s] as a contiguous run. *)
Fixpoint contains (sub s : pystr) : bool :=
  startswith sub s ||
  match s with
  | [] => false
  | _ :: s' => contains sub s'
  end.

(** [s.replace(old, new)] for a non-empty [old]: occurrences are replaced
    from the left and do not overlap.  [skip] counts the code points of
    the occurrence just replaced that are still to be passed over. *)
Fixpoint replace_from (old new : pystr) (skip : nat) (s : pystr) : pystr :=
  match s with
  | [] => []
  | c :: s' =>
      match skip with
      | S k => replace_from old new k s'
      | O =>
          if startswith old s
          then new ++ replace_from old new (List.length old - 1) s'
          else c :: replace_from old new 0 s'
      end
  end.

Definition replace (old new s : pystr) : pystr := replace_from old new 0 s.

(** [s.rfind('.')]: the index of the last full stop, if there is one. *)
Fixpoint rfind_dot (s : pystr) : option nat :=
  match s with
  | [] => None
  | c :: s' =>
      match rfind_dot s' with
      | Some i => Some (S i)
      | None => if N.eqb c 46 then Some 0 else None
      end
  end.

(** [fnmatch] for a pattern made of literal code points and [*] (code
    point 42), which stands for any run of code points.  The pattern of
    the source has no [?] and no bracket expression.  Matching is by code
    point, as on a POSIX system, where [os.path.normcase] changes
    nothing. *)
Fixpoint fnmatch (pat name : pystr) : bool :=
  match pat with
  | [] => match name with [] => true | _ :: _ => false end
  | c :: pat' =>
      if N.eqb c 42
      then (fix star (n : pystr) : bool :=
              fnmatch pat' n ||
              match n with
              | [] => false
              | _ :: n' => star n'
              end) name
      else match name with
           | [] => false
           | d :: name' => N.eqb c d && fnmatch pat' name'
           end
  end.

End Str.

Abbreviation pystr := Str.pystr.

(** ** Values and exceptions *)

(** The exception classes the script can meet.  All derive from
    [Exception], so both [except Exception] clauses of the source catch
    every one of them. *)
Inductive exn : Type :=
| OSError              (* open() failed, or the read did *)
| UnicodeDecodeError   (* the file is not UTF-8 *)
| JSONDecodeError      (* the text is not a JSON document *)
| RecursionError       (* nesting deeper than the interpreter allows *)
| UnicodeEncodeError   (* a str that cannot be encoded, on output *)
| TypeError
| KeyError
| IndexError
| AttributeError.

(** What [json.load] returns: [None], [bool], [int], [float], [str], [list]
    and [dict].  The keys of a dict are [str]; they are distinct in a value
    that [json.load] returns, which nothing below relies on. *)
Inductive json : Type :=
| JNull
| JBool (b : bool)
| JInt (z : Z)
| JFloat (f : spec_float)
| JStr (s : pystr)
| JArr (items : list json)
| JObj (members : list (pystr * json)).

(** Results of code that can raise. *)
Module Exc.

Definition ret {A : Type} (a : A) : exn + A := inr a.

Definition bind {A B : Type} (m : exn + A) (k : A -> exn + B) : exn + B :=
  match m with
  | inl e => inl e
  | inr a => k a
  end.

(** Apply [f] to the elements from left to right; the first exception
    ends the traversal. *)
Fixpoint mapM {A B : Type} (f : A -> exn + B) (l : list A) : exn + list B :=
  match l with
  | [] => inr []
  | x :: l' =>
      match f x with
      | inl e => inl e
      | inr y =>
          match mapM f l' with
          | inl e => inl e
          | inr ys => inr (y :: ys)
          end
      end
  end.

End Exc.

Declare Scope exc_scope.
Delimit Scope exc_scope with exc.
Notation "x <- m ;; k" := (Exc.bind m (fun x => k))
  (at level 61, m at next level, right associativity) : exc_scope.

(** ** The operations of Python the script applies to loaded values *)

Module Py.

(** [d[key]] on the members of a dict. *)
Fixpoint lookup (key : pystr) (members : list (pystr * json)) : option json :=
  match members with
  | [] => None
  | (k, v) :: rest => if Str.eqb key k then Some v else lookup key rest
  end.

(** [key == x] for a [str] [key]: only an equal [str] is equal to it. *)
Definition str_eq (key : pystr) (x : json) : bool :=
  match x with
  | JStr s => Str.eqb key s
  | _ => false
  end.

(** [key in x] for a [str] [key]. *)
Definition contains (key : pystr) (x : json) : exn + bool :=
  match x with
  | JObj members =>
      inr (match lookup key members with Some _ => true | None => false end)
  | JArr items => inr (existsb (str_eq key) items)
  | JStr s => inr (Str.contains key s)
  | JNull | JBool _ | JInt _ | JFloat _ => inl TypeError
  end.

(** [x[key]] for a [str] [key]. *)
Definition getitem (x : json) (key : pystr) : exn + json :=
  match x with
  | JObj members =>
      match lookup key members with
      | Some v => inr v
      | None => inl KeyError
      end
  | _ => inl TypeError
  end.

(** [len(x)]. *)
Definition len (x : json) : exn + nat :=
  match x with
  | JObj members => inr (List.length members)
  | JArr items => inr (List.length items)
  | JStr s => inr (List.length s)
  | JNull | JBool _ | JInt _ | JFloat _ => inl TypeError
  end.

(** [x[0]].  No key of a loaded dict is the integer 0. *)
Definition getitem0 (x : json) : exn + json :=
  match x with
  | JArr (first :: _) => inr first
  | JArr [] => inl IndexError
  | JStr (c :: _) => inr (JStr [c])
  | JStr [] => inl IndexError
  | JObj _ => inl KeyError
  | JNull | JBool _ | JInt _ | JFloat _ => inl TypeError
  end.

(** The elements [list.extend(x)] appends: the items of a list, the
    characters of a str (each a str of length one), the keys of a dict.
    For any other value [extend] raises before it appends anything. *)
Definition iter (x : json) : exn + list json :=
  match x with
  | JArr items => inr items
  | JStr s => inr (List.map (fun c => JStr [c]) s)
  | JObj members => inr (List.map (fun kv => JStr (fst kv)) members)
  | JNull | JBool _ | JInt _ | JFloat _ => inl TypeError
  end.

(** [x.get(key, default)]: a method of dict only. *)
Definition get (x : json) (key : pystr) (default : json) : exn + json :=
  match x with
  | JObj members =>
      inr (match lookup key members with Some v => v | None => default end)
  | _ => inl AttributeError
  end.

(** [Path(name).stem] for a bare file name (pathlib, [PurePath.stem]): the
    name up to its last full stop, unless that full stop is the first or
    the last character. *)
Definition stem (name : pystr) : pystr :=
  match Str.rfind_dot name with
  | Some i =>
      if (0 <? i) && (i <? List.length name - 1) then firstn i name else name
  | None => name
  end.

End Py.

(** ** Sorting

    [sorted(xs, key=f)] decorates every element with its key (calling [f]
    on the elements in order, so the first exception of a key ends the
    call), orders the decorated elements with a stable comparison sort that
    only ever asks [k1 < k2] of two keys, and returns the elements.  The
    stable sort is written here as an insertion sort; [py_sort_unique]
    below shows that every stable sort returns the same list. *)

Section Sorting.

Variables A K : Type.
Variable ltb : K -> K -> bool.
Variable key : A -> K.

(** [x] goes in front of the first element whose key is not smaller than
    its own: an element put in passes only strictly smaller keys. *)
Fixpoint insert (x : A) (l : list A) : list A :=
  match l with
  | [] => [x]
  | y :: l' =>
      if ltb (key y) (key x) then y :: insert x l' else x :: y :: l'
  end.

Definition py_sort (l : list A) : list A := fold_right insert [] l.

End Sorting.

(** [sorted(xs, key=f)] for a key function that can raise. *)
Definition py_sorted {A K : Type} (ltb : K -> K -> bool)
    (f : A -> exn + K) (xs : list A) : exn + list A :=
  (keys <- Exc.mapM f xs ;;
   Exc.ret (List.map snd (py_sort ltb fst (combine keys xs))))%exc.

(** The key of the source: a tuple of three [str]. *)
Definition sortkey : Type := pystr * pystr * pystr.

(** [a == b] on such tuples. *)
Definition sortkey_eqb (a b : sortkey) : bool :=
  let '(a1, a2, a3) := a in
  let '(b1, b2, b3) := b in
  Str.eqb a1 b1 && Str.eqb a2 b2 && Str.eqb a3 b3.

(** [a < b] on such tuples, as CPython compares tuples: the first position
    where the items are not equal decides; tuples that are equal
    throughout are not smaller. *)
Definition sortkey_ltb (a b : sortkey) : bool :=
  let '(a1, a2, a3) := a in
  let '(b1, b2, b3) := b in
  if negb (Str.eqb a1 b1) then Str.ltb a1 b1
  else if negb (Str.eqb a2 b2) then Str.ltb a2 b2
  else if negb (Str.eqb a3 b3) then Str.ltb a3 b3
  else false.

(** ** Files, console and the monad of the script *)

(** The working directory: its entries in the order the operating system
    enumerates them, each with the bytes it holds. *)
Definition world (content : Type) : Type := list (pystr * content).

Module Fs.

Fixpoint lookup {content : Type} (name : pystr) (w : world content)
    : option content :=
  match w with
  | [] => None
  | (n, c) :: w' => if Str.eqb name n then Some c else lookup name w'
  end.

(** The directory once [name] holds [c]: an existing entry is overwritten
    in place, a new one is listed last (where a new entry is enumerated
    depends on the file system; the script sorts the names it uses). *)
Fixpoint write {content : Type} (name : pystr) (c : content)
    (w : world content) : world content :=
  match w with
  | [] => [(name, c)]
  | (n, c') :: w' =>
      if Str.eqb name n then (n, c) :: w' else (n, c') :: write name c w'
  end.

End Fs.

(** What [with open(path, 'w', encoding='utf-8') as f: json.dump(doc, f,
    indent=2, ensure_ascii=False)] does to the file. *)
Inductive write_result (content : Type) : Type :=
| Written (c : content)              (* the file holds the document *)
| Broken (c : content) (e : exn)     (* opened, then [e] raised; [c] is left *)
| Refused (e : exn).                 (* [open] raised [e]; file untouched *)

Arguments Refused {content} e.

(** The lines the script prints, named after what they report; the
    comment gives the line of the source. *)
Inductive line : Type :=
| FoundFiles (n : nat)                        (* 24 *)
| Loading (region : pystr)                    (* 32 *)
| AddedCameras (n : nat) (region : pystr)     (* 45 *)
| NoStaticAlerts (region : pystr)             (* 47 *)
| NoFeeds (region : pystr)                    (* 49 *)
| ErrorLoading (region : pystr) (e : exn)     (* 52 *)
| TotalCollected (n : nat)                    (* 55 *)
| RegionsProcessed (regions : list pystr)     (* 56 *)
| WritingFile (path : pystr)                  (* 74, 105 *)
| SavedBundle (n : nat)                       (* 77 *)
| SortingCameras                              (* 80 *)
| SavedSorted (n : nat)                       (* 108 *)
| RebuildComplete                             (* 110 *)
| Success (n : nat)                           (* 116 *)
| ErrorRebuilding (e : exn).                  (* 118 *)

(** What a run does, in the order it happens: a call of [print] that
    writes its line, a call of [print] that raises (the text is encoded
    before any of it is written, so nothing reaches the console), reaching
    the [with] statement that reads [path] (line 35), and reaching a
    [with] statement that writes [doc] to [path] (lines 75 and 106). *)
Inductive event : Type :=
| Print (l : line)
| PrintRaised (l : line) (e : exn)
| ReadJson (path : pystr)
| WriteJson (path : pystr) (doc : json).

(** The working directory, what has happened so far, and the two list
    objects of lines 27 and 28. *)
Record state (content : Type) : Type := mkState {
  files : world content;
  events : list event;
  cameras : list json;      (* the list bound to [all_cameras] *)
  regions : list pystr      (* the list bound to [regions_processed] *)
}.

(** A computation of the script: from a state to the state it leaves and
    either the exception it raised or its value. *)
Definition M (content A : Type) : Type :=
  state content -> state content * (exn + A).

Module Run.

Section Ops.

Variable content : Type.

(** The console: given what has happened so far and a line, whether
    [print] writes the line ([None]) or raises. *)
Variable stdout : list event -> line -> option exn.

Definition ret {A : Type} (a : A) : M content A := fun s => (s, inr a).

Definition bind {A B : Type} (m : M content A) (k : A -> M content B)
    : M content B :=
  fun s =>
    match m s with
    | (s', inl e) => (s', inl e)
    | (s', inr a) => k a s'
    end.

(** A computation without effects. *)
Definition lift {A : Type} (r : exn + A) : M content A := fun s => (s, r).

(** The state once [ev] has happened. *)
Definition log (ev : event) (s : state content) : state content :=
  mkState (files s) (events s ++ [ev]) (cameras s) (regions s).

(** [print(l)]. *)
Definition print (l : line) : M content unit :=
  fun s =>
    match stdout (events s) l with
    | None => (log (Print l) s, inr tt)
    | Some e => (log (PrintRaised l e) s, inl e)
    end.

(** Lines 27-28: two new empty lists. *)
Definition new_lists : M content unit :=
  fun s => (mkState (files s) (events s) [] [], inr tt).

(** [all_cameras.extend(...)], given the elements to append. *)
Definition extend (items : list json) : M content unit :=
  fun s =>
    (mkState (files s) (events s) (cameras s ++ items) (regions s), inr tt).

(** [regions_processed.append(region)]. *)
Definition append (region : pystr) : M content unit :=
  fun s =>
    (mkState (files s) (events s) (cameras s) (regions s ++ [region]),
     inr tt).

(** The lists as they are now. *)
Definition all_cameras : M content (list json) :=
  fun s => (s, inr (cameras s)).

Definition regions_processed : M content (list pystr) :=
  fun s => (s, inr (regions s)).

(** [try: body / except Exception as e: handler e]. *)
Definition try_except {A : Type} (body : M content A)
    (handler : exn -> M content A) : M content A :=
  fun s =>
    match body s with
    | (s', inl e) => handler e s'
    | (s', inr a) => (s', inr a)
    end.

(** [for x in xs: body x]. *)
Fixpoint for_each {X : Type} (xs : list X) (body : X -> M content unit)
    : M content unit :=
  match xs with
  | [] => ret tt
  | x :: xs' => bind (body x) (fun _ => for_each xs' body)
  end.

(** [glob.glob(pattern)] for a pattern without directory part: the names
    in the working directory that match, in enumeration order. *)
Definition glob (pattern : pystr) : M content (list pystr) :=
  fun s => (s, inr (filter (Str.fnmatch pattern) (List.map fst (files s)))).

End Ops.

Arguments new_lists {content}.
Arguments all_cameras {content}.
Arguments regions_processed {content}.

End Run.

Declare Scope run_scope.
Delimit Scope run_scope with run.
Notation "x <- m ;; k" := (Run.bind m (fun x => k))
  (at level 61, m at next level, right associativity) : run_scope.
Notation "' pat <- m ;; k" := (Run.bind m (fun x => match x with pat => k end))
  (at level 61, pat pattern, m at next level, right associativity) : run_scope.
Notation "m ;; k" := (Run.bind m (fun _ => k))
  (at level 61, right associativity) : run_scope.

(** ** The script *)

Definition bundle_path : pystr := Str.lit "Camera_Database_Bundle.json".

Definition sorted_bundle_path : pystr :=
  Str.lit "Camera_Database_Bundle_Sorted.json".

(** The dict literal of lines 59-70. *)
Definition bundle (all_cameras : list json) : json :=
  JObj [(Str.lit "feeds", JArr [JObj
    [(Str.lit "id", JStr (Str.lit "dukes-r8-camera-database"));
     (Str.lit "name", JStr (Str.lit "Dukes R8 Camera Database"));
     (Str.lit "description",
       JStr (Str.lit "Community-sourced camera locations for Dukes R8 app"));
     (Str.lit "type", JStr (Str.lit "camera"));
     (Str.lit "refreshIntervalMinutes", JInt 1440);
     (Str.lit "staticAlerts", JArr all_cameras)]])].

(** The dict literal of lines 90-101. *)
Definition bundle_sorted (sorted_cameras : list json) : json :=
  JObj [(Str.lit "feeds", JArr [JObj
    [(Str.lit "id", JStr (Str.lit "dukes-r8-camera-database"));
     (Str.lit "name", JStr (Str.lit "Dukes R8 Camera Database"));
     (Str.lit "description",
       JStr (Str.lit
         "Community-sourced camera locations for Dukes R8 app (sorted)"));
     (Str.lit "type", JStr (Str.lit "camera"));
     (Str.lit "refreshIntervalMinutes", JInt 1440);
     (Str.lit "staticAlerts", JArr sorted_cameras)]])].

(** Line 31: [Path(regional_file).stem.replace('Camera_Database_', '')]. *)
Definition region_name_of (regional_file : pystr) : pystr :=
  Str.replace (Str.lit "Camera_Database_") [] (Py.stem regional_file).

(** What lines 39-49 find in a loaded document. *)
Inductive extraction : Type :=
| Extracted (items : list json) (n : nat)
    (* the elements [extend] appends, and [len(cameras)] *)
| MissingStaticAlerts
| MissingFeeds.

(** Lines 39-43, the tests and look-ups of the [try] block, each of which
    can raise, up to the elements that [extend] is about to append; they
    have no effect, so the appends of lines 43-44 and the prints of lines
    45-49 are left to [load_region]. *)
Definition extract (data : json) : exn + extraction :=
  (has_feeds <- Py.contains (Str.lit "feeds") data ;;
   nonempty <-
     (if has_feeds : bool
      then feeds <- Py.getitem data (Str.lit "feeds") ;;
           n <- Py.len feeds ;;
           Exc.ret (0 <? n)
      else Exc.ret false) ;;
   if nonempty : bool
   then
     feeds <- Py.getitem data (Str.lit "feeds") ;;
     feed <- Py.getitem0 feeds ;;
     has_alerts <- Py.contains (Str.lit "staticAlerts") feed ;;
     if has_alerts : bool
     then
       cameras <- Py.getitem feed (Str.lit "staticAlerts") ;;
       items <- Py.iter cameras ;;
       n <- Py.len cameras ;;
       Exc.ret (Extracted items n)
     else Exc.ret MissingStaticAlerts
   else Exc.ret MissingFeeds)%exc.

(** [data['feeds'][0]['staticAlerts']], the path the specification names
    [feeds[0].staticAlerts]. *)
Definition alerts_of (data : json) : exn + json :=
  (feeds <- Py.getitem data (Str.lit "feeds") ;;
   feed <- Py.getitem0 feeds ;;
   Py.getitem feed (Str.lit "staticAlerts"))%exc.

(** The records a value found there holds: the items of a list, which is
    what the specification expects there; for a value that is not a list,
    what iterating over it gives, and nothing when it cannot be iterated. *)
Definition records_of (v : json) : list json :=
  match v with
  | JArr items => items
  | _ => match Py.iter v with
         | inr items => items
         | inl _ => []
         end
  end.

Section Rebuild.

(** The bytes of a file. *)
Variable content : Type.

(** The console, see [Run.print]. *)
Variable stdout : list event -> line -> option exn.

(** [open(name, 'r', encoding='utf-8')] followed by [json.load]: the
    document, or the exception raised by [open], by the decoder or by the
    parser. *)
Variable json_load : content -> exn + json.

(** Writing a document with [json.dump], see [write_result]. *)
Variable json_dump : pystr -> json -> write_result content.

(** [str.upper]. *)
Variable upper : pystr -> pystr.

(** [v.upper()]: a method of str only. *)
Definition py_upper (v : json) : exn + pystr :=
  match v with
  | JStr s => inr (upper s)
  | _ => inl AttributeError
  end.

(** The [key] of lines 83-87. *)
Definition sort_key (x : json) : exn + sortkey :=
  (state <- Py.get x (Str.lit "state") (JStr []) ;;
   state <- py_upper state ;;
   city <- Py.get x (Str.lit "city") (JStr []) ;;
   city <- py_upper city ;;
   street <- Py.get x (Str.lit "street") (JStr []) ;;
   street <- py_upper street ;;
   Exc.ret (state, city, street))%exc.

(** Lines 35-36. *)
Definition read_json (name : pystr) : M content json :=
  fun s =>
    (Run.log (ReadJson name) s,
     match Fs.lookup name (files s) with
     | Some c => json_load c
     | None => inl OSError
     end).

(** Lines 75-76 and 106-107. *)
Definition write_json (path : pystr) (doc : json) : M content unit :=
  fun s =>
    let evs := events s ++ [WriteJson path doc] in
    match json_dump path doc with
    | Written c =>
        (mkState (Fs.write path c (files s)) evs (cameras s) (regions s),
         inr tt)
    | Broken c e =>
        (mkState (Fs.write path c (files s)) evs (cameras s) (regions s),
         inl e)
    | Refused e => (mkState (files s) evs (cameras s) (regions s), inl e)
    end.

(** Lines 35-49, the body of the [try]. *)
Definition load_region (regional_file region_name : pystr)
    : M content unit :=
  (data <- read_json regional_file ;;
   found <- Run.lift (extract data) ;;
   match found with
   | Extracted items n =>
       Run.extend items ;;
       Run.append region_name ;;
       Run.print stdout (AddedCameras n region_name)
   | MissingStaticAlerts => Run.print stdout (NoStaticAlerts region_name)
   | MissingFeeds => Run.print stdout (NoFeeds region_name)
   end)%run.

(** Lines 31-53, the body of the loop: the [print] of line 32 stands
    before the [try], that of line 52 in the handler, so an exception of
    either leaves the loop. *)
Definition loop_body (regional_file : pystr) : M content unit :=
  (let region_name := region_name_of regional_file in
   Run.print stdout (Loading region_name) ;;
   Run.try_except
     (load_region regional_file region_name)
     (fun e => Run.print stdout (ErrorLoading region_name e)))%run.

(** Lines 15-111. *)
Definition rebuild_bundles : M content nat :=
  (regional_files <- Run.glob (Str.lit "Camera_Database_*.json") ;;
   let regional_files :=
     filter (fun f => negb (Str.contains (Str.lit "Bundle") f))
            regional_files in
   Run.print stdout (FoundFiles (List.length regional_files)) ;;
   Run.new_lists ;;
   Run.for_each (py_sort Str.ltb (fun f => f) regional_files) loop_body ;;
   all_cameras <- Run.all_cameras ;;
   regions_processed <- Run.regions_processed ;;
   Run.print stdout (TotalCollected (List.length all_cameras)) ;;
   Run.print stdout (RegionsProcessed regions_processed) ;;
   Run.print stdout (WritingFile bundle_path) ;;
   write_json bundle_path (bundle all_cameras) ;;
   Run.print stdout (SavedBundle (List.length all_cameras)) ;;
   Run.print stdout SortingCameras ;;
   sorted_cameras <- Run.lift (py_sorted sortkey_ltb sort_key all_cameras) ;;
   Run.print stdout (WritingFile sorted_bundle_path) ;;
   write_json sorted_bundle_path (bundle_sorted sorted_cameras) ;;
   Run.print stdout (SavedSorted (List.length sorted_cameras)) ;;
   Run.print stdout RebuildComplete ;;
   Run.ret (List.length all_cameras))%run.

(** Lines 113-119: the exit status of the process, with the state the run
    leaves.  The [print] of line 116 stands in the [try]; when the [print]
    of line 118 raises nothing catches it, and the interpreter ends the
    process with status 1 as [exit(1)] does.  What the interpreter does
    after the script, when it shuts down, is not part of the model. *)
Definition main (s : state content) : state content * nat :=
  match (camera_count <- rebuild_bundles ;;
         Run.print stdout (Success camera_count))%run s with
  | (s', inr _) => (s', 0)
  | (s', inl e) => (fst (Run.print stdout (ErrorRebuilding e) s'), 1)
  end.

(** A run starts in a directory [w] with nothing printed yet. *)
Definition start (w : world content) : state content := mkState w [] [] [].

End Rebuild.

(** ** Regional datasets *)

(** A record that can be keyed: a dict whose 'state', 'city' and 'street',
    where present, are str. *)
Definition str_or_absent (key : pystr) (members : list (pystr * json))
    : bool :=
  match Py.lookup key members with
  | None | Some (JStr _) => true
  | Some _ => false
  end.

Definition is_record (x : json) : bool :=
  match x with
  | JObj members =>
      str_or_absent (Str.lit "state") members
      && str_or_absent (Str.lit "city") members
      && str_or_absent (Str.lit "street") members
  | _ => false
  end.

(** A regional dataset as the specification draws it:
    [{"feeds": [{..., "staticAlerts": [record, ...]}, ...]}]. *)
Definition dataset_records (data : json) : option (list json) :=
  match data with
  | JObj top =>
      match Py.lookup (Str.lit "feeds") top with
      | Some (JArr (JObj feed :: _)) =>
          match Py.lookup (Str.lit "staticAlerts") feed with
          | Some (JArr records) =>
              if forallb is_record records then Some records else None
          | _ => None
          end
      | _ => None
      end
  | _ => None
  end.

(** ** A run, read off the code

    The same run written without the monad.  Which files are read and what
    each contributes depends on the directory alone.  The calls a run
    makes, one after the other, are a list, its [script]; the run is that
    list executed until a call raises ([exec]).  [rebuild_bundles_run]
    proves that [rebuild_bundles] computes exactly [run_of]. *)

(** The calls of a run that touch the state. *)
Inductive action : Type :=
| Say (l : line)                       (* a [print] outside the [try] *)
| Guarded (l : line) (region : pystr)  (* a [print] of lines 45-49 *)
| Open (f : pystr)                     (* line 35 *)
| Extend (items : list json)           (* line 43 *)
| Append (region : pystr)              (* line 44 *)
| Dump (path : pystr) (doc : json)     (* lines 75-76 and 106-107 *)
| Raise (e : exn).                     (* [sorted] when a key raises *)

Section Reading.

Variable content : Type.
Variable stdout : list event -> line -> option exn.
Variable json_load : content -> exn + json.
Variable json_dump : pystr -> json -> write_result content.
Variable upper : pystr -> pystr.

(** Lines 19-22: the names kept, in enumeration order. *)
Definition regional_files (w : world content) : list pystr :=
  filter (fun f => negb (Str.contains (Str.lit "Bundle") f))
    (filter (Str.fnmatch (Str.lit "Camera_Database_*.json"))
       (List.map fst w)).

(** Line 30: the order in which they are processed. *)
Definition candidates (w : world content) : list pystr :=
  py_sort Str.ltb (fun f => f) (regional_files w).

(** What the [try] block finds in file [f]. *)
Definition loaded (w : world content) (f : pystr) : exn + extraction :=
  match Fs.lookup f w with
  | Some c => (data <- json_load c ;; extract data)%exc
  | None => inl OSError
  end.

(** The records file [f] adds to [all_cameras]. *)
Definition extracted (w : world content) (f : pystr) : list json :=
  match loaded w f with
  | inr (Extracted items _) => items
  | _ => []
  end.

(** Whether file [f] reaches line 44. *)
Definition processed (w : world content) (f : pystr) : bool :=
  match loaded w f with
  | inr (Extracted _ _) => true
  | _ => false
  end.

(** The line printed about file [f] after its [Loading] line. *)
Definition report (w : world content) (f : pystr) : line :=
  match loaded w f with
  | inr (Extracted _ n) => AddedCameras n (region_name_of f)
  | inr MissingStaticAlerts => NoStaticAlerts (region_name_of f)
  | inr MissingFeeds => NoFeeds (region_name_of f)
  | inl e => ErrorLoading (region_name_of f) e
  end.

Definition all_cameras (w : world content) : list json :=
  flat_map (extracted w) (candidates w).

Definition regions_processed (w : world content) : list pystr :=
  List.map region_name_of (filter (processed w) (candidates w)).

(** [print(l)] outside the [try]: the state it leaves, and what it raised. *)
Definition say (l : line) (s : state content) : state content * option exn :=
  match stdout (events s) l with
  | None => (Run.log (Print l) s, None)
  | Some e => (Run.log (PrintRaised l e) s, Some e)
  end.

(** One call.  A [print] of the [try] block that raises goes to the
    handler of line 51, which prints the exception; the lists keep what
    lines 43-44 appended. *)
Definition step (a : action) (s : state content)
    : state content * option exn :=
  match a with
  | Say l => say l s
  | Guarded l region =>
      match stdout (events s) l with
      | None => (Run.log (Print l) s, None)
      | Some e =>
          say (ErrorLoading region e) (Run.log (PrintRaised l e) s)
      end
  | Open f => (Run.log (ReadJson f) s, None)
  | Extend items =>
      (mkState (files s) (events s) (cameras s ++ items) (regions s), None)
  | Append region =>
      (mkState (files s) (events s) (cameras s) (regions s ++ [region]),
       None)
  | Dump path doc =>
      let evs := events s ++ [WriteJson path doc] in
      match json_dump path doc with
      | Written c =>
          (mkState (Fs.write path c (files s)) evs (cameras s) (regions s),
           None)
      | Broken c e =>
          (mkState (Fs.write path c (files s)) evs (cameras s) (regions s),
           Some e)
      | Refused e => (mkState (files s) evs (cameras s) (regions s), Some e)
      end
  | Raise e => (s, Some e)
  end.

(** The calls in order, up to the first that raises. *)
Fixpoint exec (acts : list action) (s : state content)
    : state content * option exn :=
  match acts with
  | [] => (s, None)
  | a :: acts' =>
      match step a s with
      | (s', None) => exec acts' s'
      | (s', Some e) => (s', Some e)
      end
  end.

(** Lines 31-53 for file [f]. *)
Definition file_script (w : world content) (f : pystr) : list action :=
  let region_name := region_name_of f in
  [Say (Loading region_name); Open f]
  ++ match loaded w f with
     | inr (Extracted items n) =>
         [Extend items; Append region_name;
          Guarded (AddedCameras n region_name) region_name]
     | inr MissingStaticAlerts =>
         [Guarded (NoStaticAlerts region_name) region_name]
     | inr MissingFeeds => [Guarded (NoFeeds region_name) region_name]
     | inl e => [Say (ErrorLoading region_name e)]
     end.

Definition loop_script (w : world content) (fs : list pystr) : list action :=
  flat_map (file_script w) fs.

(** Lines 55-110. *)
Definition tail_script (w : world content) : list action :=
  [Say (TotalCollected (List.length (all_cameras w)));
   Say (RegionsProcessed (regions_processed w));
   Say (WritingFile bundle_path);
   Dump bundle_path (bundle (all_cameras w));
   Say (SavedBundle (List.length (all_cameras w)));
   Say SortingCameras]
  ++ match py_sorted sortkey_ltb (sort_key upper) (all_cameras w) with
     | inl e => [Raise e]
     | inr sorted_cameras =>
         [Say (WritingFile sorted_bundle_path);
          Dump sorted_bundle_path (bundle_sorted sorted_cameras);
          Say (SavedSorted (List.length sorted_cameras));
          Say RebuildComplete]
     end.

(** Lines 24-110. *)
Definition script (w : world content) : list action :=
  Say (FoundFiles (List.length (regional_files w)))
  :: loop_script w (candidates w) ++ tail_script w.

Definition run_of (w : world content) : state content * (exn + nat) :=
  match exec (script w) (start w) with
  | (s, None) => (s, inr (List.length (all_cameras w)))
  | (s, Some e) => (s, inl e)
  end.

(** The process: the script, the line of line 116 and, when one of these
    raises, the line of line 118. *)
Definition main_of (w : world content) : state content * nat :=
  match exec (script w ++ [Say (Success (List.length (all_cameras w)))])
          (start w) with
  | (s, None) => (s, 0)
  | (s, Some e) => (fst (say (ErrorRebuilding e) s), 1)
  end.

(** *** A run in which no [print] raises

    Its events and the state it leaves, written out for each place where
    it can end. *)

Definition loop_events (w : world content) (fs : list pystr) : list event :=
  flat_map (fun f => [Print (Loading (region_name_of f));
                      ReadJson f;
                      Print (report w f)])
           fs.

(** Everything observable up to the [with] block of line 75. *)
Definition events_unsorted (w : world content) : list event :=
  Print (FoundFiles (List.length (regional_files w)))
  :: loop_events w (candidates w)
  ++ [Print (TotalCollected (List.length (all_cameras w)));
      Print (RegionsProcessed (regions_processed w));
      Print (WritingFile bundle_path);
      WriteJson bundle_path (bundle (all_cameras w))].

Definition events_sorting (w : world content) : list event :=
  events_unsorted w
  ++ [Print (SavedBundle (List.length (all_cameras w)));
      Print SortingCameras].

Definition events_sorted (w : world content) (sorted_cameras : list json)
    : list event :=
  events_sorting w
  ++ [Print (WritingFile sorted_bundle_path);
      WriteJson sorted_bundle_path (bundle_sorted sorted_cameras)].

(** The state of such a run: the lists are those of the whole loop. *)
Definition plain_state (w : world content) (w' : world content)
    (evs : list event) : state content :=
  mkState w' evs (all_cameras w) (regions_processed w).

Definition plain_run (w : world content) : state content * (exn + nat) :=
  match json_dump bundle_path (bundle (all_cameras w)) with
  | Refused e => (plain_state w w (events_unsorted w), inl e)
  | Broken c e =>
      (plain_state w (Fs.write bundle_path c w) (events_unsorted w), inl e)
  | Written c =>
      let w1 := Fs.write bundle_path c w in
      match py_sorted sortkey_ltb (sort_key upper) (all_cameras w) with
      | inl e => (plain_state w w1 (events_sorting w), inl e)
      | inr sorted_cameras =>
          let evs := events_sorted w sorted_cameras in
          match json_dump sorted_bundle_path
                  (bundle_sorted sorted_cameras) with
          | Refused e => (plain_state w w1 evs, inl e)
          | Broken c' e =>
              (plain_state w (Fs.write sorted_bundle_path c' w1) evs, inl e)
          | Written c' =>
              (plain_state w (Fs.write sorted_bundle_path c' w1)
                 (evs ++ [Print (SavedSorted (List.length sorted_cameras));
                          Print RebuildComplete]),
               inr (List.length (all_cameras w)))
          end
      end
  end.

(** The process when no [print] raises. *)
Definition plain_main (w : world content) : state content * nat :=
  match plain_run w with
  | (s, inr camera_count) => (Run.log (Print (Success camera_count)) s, 0)
  | (s, inl e) => (Run.log (Print (ErrorRebuilding e)) s, 1)
  end.

(** [feeds[0].staticAlerts] of file [f], when the file parses and has
    it. *)
Definition alerts_in (w : world content) (f : pystr) : option json :=
  match Fs.lookup f w with
  | Some c =>
      match (data <- json_load c ;; alerts_of data)%exc with
      | inr v => Some v
      | inl _ => None
      end
  | None => None
  end.

Definition has_alerts (w : world content) (f : pystr) : bool :=
  match alerts_in w f with Some _ => true | None => false end.

(** The records of file [f] as the specification counts them: those held
    by [feeds[0].staticAlerts] when the file parses and has it, none
    otherwise. *)
Definition contribution (w : world content) (f : pystr) : list json :=
  match alerts_in w f with
  | Some v => records_of v
  | None => []
  end.

(** The records of file [f] when it is a regional dataset as the
    specification draws it. *)
Definition valid_records (w : world content) (f : pystr)
    : option (list json) :=
  match Fs.lookup f w with
  | Some c =>
      match json_load c with
      | inr data => dataset_records data
      | inl _ => None
      end
  | None => None
  end.

(** File [f] does not parse, or parses to a document without
    [feeds[0].staticAlerts]. *)
Definition malformed (w : world content) (f : pystr) : bool :=
  match Fs.lookup f w with
  | Some c => negb (has_alerts w f)
  | None => false
  end.

(** The diagnostic printed for a file that is skipped. *)
Definition diagnostic (f : pystr) (l : line) : Prop :=
  l = NoFeeds (region_name_of f) \/
  l = NoStaticAlerts (region_name_of f) \/
  exists e, l = ErrorLoading (region_name_of f) e.

(** The error that ends a run in which no [print] raises, if there is
    one: raised by the first write, by the sort, or by the second write. *)
Definition fatal_error (w : world content) : option exn :=
  match json_dump bundle_path (bundle (all_cameras w)) with
  | Refused e | Broken _ e => Some e
  | Written _ =>
      match py_sorted sortkey_ltb (sort_key upper) (all_cameras w) with
      | inl e => Some e
      | inr sorted_cameras =>
          match json_dump sorted_bundle_path
                  (bundle_sorted sorted_cameras) with
          | Refused e | Broken _ e => Some e
          | Written _ => None
          end
      end
  end.

End Reading.

(** Two runs that cannot be told apart: the same events, the same result
    and, when the run completes, the same bytes in both bundle files. *)
Definition same_outcome {content : Type}
    (r1 r2 : state content * (exn + nat)) : Prop :=
  events (fst r1) = events (fst r2)
  /\ snd r1 = snd r2
  /\ match snd r1 with
     | inr _ =>
         Fs.lookup bundle_path (files (fst r1))
         = Fs.lookup bundle_path (files (fst r2))
         /\ Fs.lookup sorted_bundle_path (files (fst r1))
            = Fs.lookup sorted_bundle_path (files (fst r2))
     | inl _ => True
     end.

(** ** Vocabulary of the properties *)

(** The documents a run handed to [json.dump] for [path], oldest first. *)
Definition dumped (path : pystr) (evs : list event) : list json :=
  flat_map (fun ev =>
              match ev with
              | WriteJson p doc => if Str.eqb path p then [doc] else []
              | Print _ | PrintRaised _ _ | ReadJson _ => []
              end) evs.

(** The files a run opened for reading, oldest first. *)
Definition opened (evs : list event) : list pystr :=
  flat_map (fun ev =>
              match ev with
              | ReadJson p => [p]
              | Print _ | PrintRaised _ _ | WriteJson _ _ => []
              end) evs.

(** The lines whose [print] raised, oldest first. *)
Definition unprinted (evs : list event) : list line :=
  flat_map (fun ev =>
              match ev with
              | PrintRaised l _ => [l]
              | Print _ | ReadJson _ | WriteJson _ _ => []
              end) evs.

(** [ev] is the call [print(l)], whether it wrote the line or raised. *)
Definition printing (l : line) (ev : event) : Prop :=
  ev = Print l \/ exists e, ev = PrintRaised l e.

(** The run called [print(l)]. *)
Definition reached (l : line) (evs : list event) : Prop :=
  exists ev, In ev evs /\ printing l ev.

(** The run called [print(l)], and the line was written if no [print] of
    the run raised. *)
Definition logged (l : line) (evs : list event) : Prop :=
  reached l evs /\ (unprinted evs = [] -> In (Print l) evs).

(** The lines of the loop (lines 32-52). *)
Definition loop_line (l : line) : Prop :=
  match l with
  | Loading _ | AddedCameras _ _ | NoStaticAlerts _ | NoFeeds _
  | ErrorLoading _ _ => True
  | _ => False
  end.

(** The directory a run leaves when it started in [w], handed the
    documents of [evs] to [json.dump] and [json_dump] did with them what
    it does: a file is written when it was opened. *)
Definition left_by {content : Type}
    (json_dump : pystr -> json -> write_result content)
    (w : world content) (evs : list event) : world content :=
  let put path w :=
    match dumped path evs with
    | doc :: _ =>
        match json_dump path doc with
        | Written c | Broken c _ => Fs.write path c w
        | Refused _ => w
        end
    | [] => w
    end in
  put sorted_bundle_path (put bundle_path w).

(** The lines that are not printed by the [try] block of the loop. *)
Definition outside_try (l : line) : Prop :=
  match l with
  | AddedCameras _ _ | NoStaticAlerts _ | NoFeeds _ => False
  | _ => True
  end.

(** [doc['feeds'][0]['staticAlerts']] when that is a list. *)
Definition static_alerts (doc : json) : option (list json) :=
  match alerts_of doc with
  | inr (JArr records) => Some records
  | _ => None
  end.

(** In a list sorted by [key], [x] may stand before [y]: the key of [y] is
    not smaller than the key of [x]. *)
Definition key_le {A K : Type} (ltb : K -> K -> bool) (key : A -> K)
    (x y : A) : Prop :=
  ltb (key y) (key x) = false.

(** The elements whose key is [k]. *)
Definition of_key {A K : Type} (eqk : K -> K -> bool) (key : A -> K)
    (k : K) (x : A) : bool :=
  eqk k (key x).

(** The elements whose key, as [f] computes it, is [k]. *)
Definition has_key {A K : Type} (eqk : K -> K -> bool) (f : A -> exn + K)
    (k : K) (x : A) : bool :=
  match f x with
  | inr k' => eqk k k'
  | inl _ => false
  end.

(** Lexicographic order on strings, by code point. *)
Inductive lex_le : pystr -> pystr -> Prop :=
| lex_le_nil : forall b, lex_le [] b
| lex_le_lt : forall x y a b, (x < y)%N -> lex_le (x :: a) (y :: b)
| lex_le_eq : forall x a b, lex_le a b -> lex_le (x :: a) (x :: b).

Definition lex_lt (a b : pystr) : Prop := lex_le a b /\ a <> b.

(** ['state'], ['city'] or ['street'] of a record, the empty string when
    the record has no such str. *)
Definition field_or_empty (key : pystr) (x : json) : pystr :=
  match x with
  | JObj members =>
      match Py.lookup key members with
      | Some (JStr s) => s
      | _ => []
      end
  | _ => []
  end.

(** The key of the specification: (state, city, street), each defaulted
    to the empty string and upper-cased. *)
Definition upper_key (upper : pystr -> pystr) (x : json) : sortkey :=
  (upper (field_or_empty (Str.lit "state") x),
   upper (field_or_empty (Str.lit "city") x),
   upper (field_or_empty (Str.lit "street") x)).

(** Lexicographic order on (state, city, street). *)
Definition sortkey_le (a b : sortkey) : Prop :=
  let '(a1, a2, a3) := a in
  let '(b1, b2, b3) := b in
  lex_lt a1 b1 \/
  (a1 = b1 /\ (lex_lt a2 b2 \/ (a2 = b2 /\ lex_le a3 b3))).



(** ** A small working directory to run the script on *)

Module Demo.

(** [str.upper] on ASCII text. *)
Definition upper (s : pystr) : pystr :=
  List.map
    (fun c => if (97 <=? c)%N && (c <=? 122)%N then (c - 32)%N else c) s.

(** A file is what loading it gives. *)
Definition content : Type := exn + json.

Definition json_load (c : content) : exn + json := c.

(** Every write succeeds. *)
Definition json_dump (path : pystr) (doc : json) : write_result content :=
  Written (inr doc).

(** A console that prints every line. *)
Definition stdout (evs : list event) (l : line) : option exn := None.

(** No write can be opened. *)
Definition json_dump_refused (path : pystr) (doc : json)
    : write_result content :=
  Refused OSError.

Definition camera (state city street : string) : json :=
  JObj [(Str.lit "state", JStr (Str.lit state));
        (Str.lit "city", JStr (Str.lit city));
        (Str.lit "street", JStr (Str.lit street))].

Definition dataset (records : json) : json :=
  JObj [(Str.lit "feeds",
         JArr [JObj [(Str.lit "id", JStr (Str.lit "regional"));
                     (Str.lit "staticAlerts", records)]])].

Definition austin : json := camera "tx" "Austin" "6th St".
Definition dallas : json := camera "TX" "Dallas" "Elm St".
Definition fresno : json := camera "CA" "Fresno" "Olive Ave".
Definition AUSTIN : json := camera "TX" "AUSTIN" "6TH ST".

(** Two regional files, listed out of order, a file that is not JSON, and
    a bundle left by an earlier run. *)
Definition dir : world content :=
  [(Str.lit "Camera_Database_TX.json",
    inr (dataset (JArr [dallas; austin; AUSTIN])));
   (bundle_path, inr (bundle [fresno]));
   (Str.lit "Camera_Database_NV.json", inl JSONDecodeError);
   (Str.lit "Camera_Database_CA.json", inr (dataset (JArr [fresno])));
   (Str.lit "notes.txt", inl JSONDecodeError)].

(** The same with a record whose 'city' is a number. *)
Definition dir_bad_city : world content :=
  [(Str.lit "Camera_Database_TX.json",
    inr (dataset (JArr [dallas;
                        JObj [(Str.lit "state", JStr (Str.lit "TX"));
                              (Str.lit "city", JInt 7)]])));
   (sorted_bundle_path, inr (bundle_sorted [fresno]))].

(** A file whose 'staticAlerts' is a string, and one where it is a number. *)
Definition dir_text : world content :=
  [(Str.lit "Camera_Database_AB.json", inr (dataset (JStr (Str.lit "ab"))))].

Definition dir_number : world content :=
  [(Str.lit "Camera_Database_AB.json", inr (dataset (JInt 5)))].

(** [dir] enumerated the other way round. *)
Definition dir_reversed : world content := rev dir.

Definition ab_json : pystr := Str.lit "Camera_Database_AB.json".

(** A run in directory [w]. *)
Definition run (w : world content) : state content * (exn + nat) :=
  rebuild_bundles stdout json_load json_dump upper (start w).

(** The process in directory [w]. *)
Definition process (w : world content) : state content * nat :=
  main stdout json_load json_dump upper (start w).

End Demo.

(** ** Vocabulary of the console and of the directory *)

(** The counts of the lines of line 45, oldest first. *)
Definition added_counts (evs : list event) : list nat :=
  flat_map (fun ev =>
              match ev with
              | Print (AddedCameras n _) => [n]
              | _ => []
              end) evs.

(** The regions of the lines of line 45, oldest first. *)
Definition added_regions (evs : list event) : list pystr :=
  flat_map (fun ev =>
              match ev with
              | Print (AddedCameras _ region) => [region]
              | _ => []
              end) evs.

(** The names listed in a directory. *)
Definition names {content : Type} (w : world content) : list pystr :=
  List.map fst w.

(** The prefix that line 31 removes. *)
Definition region_prefix : pystr := Str.lit "Camera_Database_".

(** ** More small directories *)

Module Demo2.

Import Demo.

(** The unsorted bundle can be written, the sorted one cannot be opened. *)
Definition json_dump_sorted_refused (path : pystr) (doc : json)
    : write_result content :=
  if Str.eqb path sorted_bundle_path then Refused OSError
  else Written (inr doc).

(** A console that encodes to UTF-8.  A code point of the surrogate
    range cannot be encoded, and [glob] gives one for each byte of a file
    name that is not UTF-8 (the [surrogateescape] handler of the file
    system encoding): [print] raises on a line that shows such a name. *)
Definition surrogate (c : N) : bool := (55296 <=? c)%N && (c <=? 57343)%N.

Definition shown (l : line) : list pystr :=
  match l with
  | Loading r | AddedCameras _ r | NoStaticAlerts r | NoFeeds r
  | ErrorLoading r _ => [r]
  | RegionsProcessed rs => rs
  | WritingFile path => [path]
  | _ => []
  end.

Definition stdout_utf8 (evs : list event) (l : line) : option exn :=
  if existsb (existsb surrogate) (shown l)
  then Some UnicodeEncodeError else None.

(** [dir] with one more valid regional file, whose name holds the byte
    E9 (Latin-1 for e acute) between [Qu] and [bec]. *)
Definition quebec_json : pystr :=
  Str.lit "Camera_Database_Qu" ++ [56553%N] ++ Str.lit "bec.json".

Definition dir_bytes : world content :=
  (quebec_json, inr (dataset (JArr [dallas]))) :: dir.

(** No regional file, and the bundles of an earlier run. *)
Definition dir_no_region : world content :=
  [(bundle_path, inr (bundle [fresno; dallas]));
   (Str.lit "notes.txt", inl JSONDecodeError);
   (sorted_bundle_path, inr (bundle_sorted [fresno; dallas]))].

(** A regional file with a second feed and with fields of its own. *)
Definition two_feeds : list (pystr * json) :=
  [(Str.lit "version", JInt 3);
   (Str.lit "feeds",
    JArr [JObj [(Str.lit "name", JStr (Str.lit "first"));
                (Str.lit "staticAlerts", JArr [fresno])];
          JObj [(Str.lit "staticAlerts", JArr [dallas; austin])]])].

Definition one_feed : list (pystr * json) :=
  [(Str.lit "feeds", JArr [JObj [(Str.lit "staticAlerts", JArr [fresno])]])].

(** Documents without 'feeds', without 'staticAlerts', and a top-level
    list. *)
Definition dir_odd : world content :=
  [(Str.lit "Camera_Database_A.json", inr (JObj [(Str.lit "feeds", JArr [])]));
   (Str.lit "Camera_Database_B.json",
    inr (JObj [(Str.lit "feeds", JArr [JObj [(Str.lit "id", JInt 1)]])]));
   (Str.lit "Camera_Database_C.json", inr (JArr [JInt 1; JInt 2]));
   (Str.lit "Camera_Database_D.json", inr (dataset (JArr [austin; dallas])))].

(** Two regional files that hold the same record. *)
Definition dir_shared : world content :=
  [(Str.lit "Camera_Database_S1.json", inr (dataset (JArr [fresno])));
   (Str.lit "Camera_Database_S2.json",
    inr (dataset (JArr [austin; fresno])))].

End Demo2.

(** * Properties *)

Unset Implicit Arguments.

(** ** Strings: equality, order, search *)

Module StrFacts.

Lemma str_eqb_eq (a b : pystr) : Str.eqb a b = true <-> a = b.
Proof.
  revert b; induction a as [|x a IH]; intros [|y b]; cbn;
    try (split; [discriminate | congruence]); try tauto.
  rewrite andb_true_iff, N.eqb_eq, IH.
  split; [intros [-> ->]; reflexivity | intros H; inversion H; auto].
Qed.

Lemma str_eqb_refl (a : pystr) : Str.eqb a a = true.
Proof. apply str_eqb_eq; reflexivity. Qed.

Lemma str_eqb_neq (a b : pystr) : Str.eqb a b = false <-> a <> b.
Proof.
  rewrite <- str_eqb_eq. destruct (Str.eqb a b); split; congruence.
Qed.

Lemma compare_eq (a b : pystr) : Str.compare a b = Eq <-> a = b.
Proof.
  revert b; induction a as [|x a IH]; intros [|y b]; cbn;
    try (split; [discriminate | congruence]); try tauto.
  destruct (N.compare_spec x y) as [->|Hlt|Hgt].
  - rewrite IH. split; [intros ->; reflexivity | intros H; inversion H; auto].
  - split; [discriminate | intros H; inversion H; lia].
  - split; [discriminate | intros H; inversion H; lia].
Qed.

Lemma compare_antisym (a b : pystr) :
  Str.compare b a = CompOpp (Str.compare a b).
Proof.
  revert b; induction a as [|x a IH]; intros [|y b]; cbn; try reflexivity.
  rewrite (N.compare_antisym x y).
  destruct (N.compare x y); cbn; auto.
Qed.

Lemma compare_lt_trans (a b c : pystr) :
  Str.compare a b = Lt -> Str.compare b c = Lt -> Str.compare a c = Lt.
Proof.
  revert b c; induction a as [|x a IH]; intros [|y b] [|z c]; cbn;
    try discriminate; auto.
  destruct (N.compare_spec x y) as [->|Hxy|Hxy]; try discriminate.
  - destruct (N.compare_spec y z) as [->|Hyz|Hyz]; try discriminate; auto.
    apply IH.
  - intros _.
    destruct (N.compare_spec y z) as [->|Hyz|Hyz]; try discriminate; intros _.
    + apply N.compare_lt_iff in Hxy. rewrite Hxy. reflexivity.
    + assert (H : (x < z)%N) by lia.
      apply N.compare_lt_iff in H. rewrite H. reflexivity.
Qed.

Lemma str_ltb_irrefl (a : pystr) : Str.ltb a a = false.
Proof.
  unfold Str.ltb. now rewrite (proj2 (compare_eq a a) eq_refl).
Qed.

Lemma str_ltb_asym (a b : pystr) : Str.ltb a b = true -> Str.ltb b a = false.
Proof.
  unfold Str.ltb. rewrite (compare_antisym a b).
  destruct (Str.compare a b); cbn; congruence.
Qed.

Lemma str_ltb_trans (a b c : pystr) :
  Str.ltb a b = true -> Str.ltb b c = true -> Str.ltb a c = true.
Proof.
  unfold Str.ltb.
  destruct (Str.compare a b) eqn:Hab; try discriminate.
  destruct (Str.compare b c) eqn:Hbc; try discriminate.
  now rewrite (compare_lt_trans _ _ _ Hab Hbc).
Qed.

(** Two strings neither of which is smaller are the same string. *)
Lemma str_ltb_total (a b : pystr) :
  Str.ltb a b = false -> Str.ltb b a = false -> a = b.
Proof.
  unfold Str.ltb. rewrite (compare_antisym a b).
  destruct (Str.compare a b) eqn:H; cbn; try discriminate.
  intros _ _. now apply compare_eq.
Qed.

Lemma compare_lex_le (a b : pystr) :
  Str.compare a b <> Gt -> lex_le a b.
Proof.
  revert b; induction a as [|x a IH]; intros [|y b]; cbn; intros H.
  - apply lex_le_nil.
  - apply lex_le_nil.
  - congruence.
  - destruct (N.compare_spec x y) as [->|Hxy|Hxy]; try congruence.
    + apply lex_le_eq, IH, H.
    + now apply lex_le_lt.
Qed.

(** The comparison of the code against the order of the specification. *)
Lemma not_ltb_lex_le (a b : pystr) : Str.ltb b a = false -> lex_le a b.
Proof.
  unfold Str.ltb. rewrite (compare_antisym a b). intros H.
  apply compare_lex_le. destruct (Str.compare a b); cbn in *; congruence.
Qed.


Lemma startswith_iff (p s : pystr) :
  Str.startswith p s = true <-> exists r, s = p ++ r.
Proof.
  revert s; induction p as [|x p IH]; intros s; cbn.
  - split; [intros _; now exists s | reflexivity].
  - destruct s as [|y s].
    + split; [discriminate | intros [r H]; discriminate].
    + rewrite andb_true_iff, N.eqb_eq, IH. split.
      * intros [-> [r ->]]. now exists r.
      * intros [r H]. inversion H; subst. split; [reflexivity | now exists r].
Qed.






End StrFacts.

(** ** Sorting: permutation, order, stability, uniqueness *)

Section SortingFacts.

Variables A K : Type.
Variable ltb : K -> K -> bool.
Variable key : A -> K.

Lemma insert_perm (x : A) (l : list A) :
  Permutation (insert ltb key x l) (x :: l).
Proof.
  induction l as [|y l IH]; cbn; [reflexivity|].
  destruct (ltb (key y) (key x)); [|reflexivity].
  rewrite IH. apply perm_swap.
Qed.

Lemma py_sort_perm (l : list A) : Permutation (py_sort ltb key l) l.
Proof.
  induction l as [|x l IH]; cbn; [reflexivity|].
  rewrite insert_perm. now apply perm_skip.
Qed.

Lemma py_sort_In (l : list A) (x : A) : In x (py_sort ltb key l) <-> In x l.
Proof.
  split; apply Permutation_in; [|symmetry]; apply py_sort_perm.
Qed.


(** *** Stability

    [p] selects the elements of one key: an element that passes a
    selected one is itself not selected. *)
Section Stable.

Variable p : A -> bool.
Hypothesis p_key :
  forall x y, p x = true -> ltb (key y) (key x) = true -> p y = false.

Lemma insert_filter (x : A) (l : list A) :
  filter p (insert ltb key x l) = filter p (x :: l).
Proof.
  induction l as [|y l IH]; [reflexivity|].
  cbn [insert]. destruct (ltb (key y) (key x)) eqn:Hlt; [|reflexivity].
  cbn [filter] in *. rewrite IH.
  destruct (p x) eqn:Hx; [|reflexivity].
  now rewrite (p_key x y Hx Hlt).
Qed.

Lemma py_sort_filter (l : list A) :
  filter p (py_sort ltb key l) = filter p l.
Proof.
  induction l as [|x l IH]; [reflexivity|].
  cbn [py_sort fold_right]. rewrite insert_filter. cbn [filter].
  fold (py_sort ltb key l). now rewrite IH.
Qed.

End Stable.

(** *** Order *)
Section Ordered.

Hypothesis ltb_asym : forall a b, ltb a b = true -> ltb b a = false.

Lemma insert_hdrel (a x : A) (l : list A) :
  key_le ltb key a x -> HdRel (key_le ltb key) a l ->
  HdRel (key_le ltb key) a (insert ltb key x l).
Proof.
  intros Hax Hal. destruct l as [|y l]; cbn.
  - now constructor.
  - destruct (ltb (key y) (key x)); constructor; auto.
    now inversion Hal.
Qed.

Lemma insert_sorted (x : A) (l : list A) :
  Sorted (key_le ltb key) l -> Sorted (key_le ltb key) (insert ltb key x l).
Proof.
  induction l as [|y l IH]; intros Hs; cbn.
  - repeat constructor.
  - inversion Hs as [|? ? Hl Hhd]; subst.
    destruct (ltb (key y) (key x)) eqn:Hlt.
    + constructor; [now apply IH|].
      apply insert_hdrel; [|assumption].
      unfold key_le. now apply ltb_asym.
    + constructor; [assumption|]. now constructor.
Qed.

Lemma py_sort_sorted (l : list A) :
  Sorted (key_le ltb key) (py_sort ltb key l).
Proof.
  induction l as [|x l IH]; cbn; [constructor|].
  now apply insert_sorted.
Qed.

End Ordered.

(** Neighbours in a sorted list are in order. *)
Lemma Sorted_adjacent (R : A -> A -> Prop) (l1 l2 : list A) (a b : A) :
  Sorted R (l1 ++ a :: b :: l2) -> R a b.
Proof.
  induction l1 as [|x l1 IH]; cbn; intros Hs.
  - inversion Hs as [|? ? _ Hhd]; subst. now inversion Hhd.
  - inversion Hs; subst. auto.
Qed.

(** *** Uniqueness

    When [ltb] is a strict total order on the keys, a list in key order
    is determined by its elements of each key, taken in order.  So
    whatever stable sort the interpreter runs, it returns [py_sort]. *)
Section Unique.

Variable eqk : K -> K -> bool.
Hypothesis eqk_eq : forall a b, eqk a b = true <-> a = b.
Hypothesis ltb_trans :
  forall a b c, ltb a b = true -> ltb b c = true -> ltb a c = true.
Hypothesis ltb_total : forall a b, ltb a b = false -> ltb b a = false -> a = b.

Lemma key_le_trans (x y z : A) :
  key_le ltb key x y -> key_le ltb key y z -> key_le ltb key x z.
Proof.
  unfold key_le. intros Hxy Hyz.
  destruct (ltb (key z) (key x)) eqn:Hzx; [|reflexivity].
  destruct (ltb (key x) (key y)) eqn:Hxy'.
  - now rewrite (ltb_trans _ _ _ Hzx Hxy') in Hyz.
  - rewrite (ltb_total _ _ Hxy' Hxy) in Hzx. congruence.
Qed.

Lemma filter_head_In (q : A -> bool) (l : list A) (a : A) (r : list A) :
  filter q l = a :: r -> In a l.
Proof.
  intros H. assert (Hin : In a (filter q l)) by (rewrite H; now left).
  now apply filter_In in Hin.
Qed.

Lemma of_key_refl (x : A) : of_key eqk key (key x) x = true.
Proof. unfold of_key. now apply eqk_eq. Qed.

Lemma sorted_by_key_unique (l1 l2 : list A) :
  Sorted (key_le ltb key) l1 -> Sorted (key_le ltb key) l2 ->
  (forall k, filter (of_key eqk key k) l1 = filter (of_key eqk key k) l2) ->
  l1 = l2.
Proof.
  intros H1 H2.
  apply Sorted_StronglySorted in H1; [|exact key_le_trans].
  apply Sorted_StronglySorted in H2; [|exact key_le_trans].
  revert l2 H2. induction H1 as [|a l1 H1 IH Ha]; intros l2 H2 Hf.
  - destruct l2 as [|b l2]; [reflexivity|].
    specialize (Hf (key b)). cbn in Hf. rewrite of_key_refl in Hf.
    discriminate.
  - destruct H2 as [|b l2 H2 Hb].
    + specialize (Hf (key a)). cbn in Hf. rewrite of_key_refl in Hf.
      discriminate.
    + assert (Hk : of_key eqk key (key a) b = true).
      { destruct (of_key eqk key (key a) b) eqn:Hab; [reflexivity|].
        assert (Hba : of_key eqk key (key b) a = false).
        { destruct (of_key eqk key (key b) a) eqn:E; [|reflexivity].
          unfold of_key in *. apply eqk_eq in E. symmetry in E.
          apply eqk_eq in E. congruence. }
        pose proof (Hf (key a)) as Fa. pose proof (Hf (key b)) as Fb.
        cbn in Fa, Fb. rewrite of_key_refl, Hab in Fa.
        rewrite of_key_refl, Hba in Fb.
        symmetry in Fa. apply filter_head_In in Fa, Fb.
        rewrite Forall_forall in Ha, Hb.
        unfold of_key in Hab.
        rewrite (ltb_total _ _ (Hb _ Fa) (Ha _ Fb)) in Hab.
        now rewrite (proj2 (eqk_eq _ _) eq_refl) in Hab. }
      assert (Hab : a = b).
      { specialize (Hf (key a)). cbn in Hf.
        rewrite of_key_refl, Hk in Hf. congruence. }
      subst b. f_equal. apply IH; [assumption|].
      intros k. specialize (Hf k). cbn in Hf.
      destruct (of_key eqk key k a); congruence.
Qed.

Hypothesis ltb_irrefl : forall a, ltb a a = false.

Lemma of_key_passed (k : K) (x y : A) :
  of_key eqk key k x = true -> ltb (key y) (key x) = true ->
  of_key eqk key k y = false.
Proof.
  unfold of_key. intros Hx Hlt. apply eqk_eq in Hx. subst k.
  destruct (eqk (key x) (key y)) eqn:E; [|reflexivity].
  apply eqk_eq in E. rewrite E, ltb_irrefl in Hlt. discriminate.
Qed.

Lemma ltb_asym_of_order (a b : K) : ltb a b = true -> ltb b a = false.
Proof.
  intros Hab. destruct (ltb b a) eqn:Hba; [|reflexivity].
  now rewrite <- (ltb_trans _ _ _ Hab Hba), ltb_irrefl.
Qed.

(** Every stable sort computes [py_sort]. *)
Lemma py_sort_unique (l l' : list A) :
  Sorted (key_le ltb key) l' ->
  (forall k, filter (of_key eqk key k) l' = filter (of_key eqk key k) l) ->
  l' = py_sort ltb key l.
Proof.
  intros Hs Hf. apply sorted_by_key_unique; [assumption| |].
  - apply py_sort_sorted, ltb_asym_of_order.
  - intros k. rewrite Hf. symmetry. apply py_sort_filter, of_key_passed.
Qed.

(** When distinct elements have distinct keys, the sorted list does not
    depend on the order of the input. *)
Lemma filter_perm_eq (q : A -> bool) (l1 l2 : list A) :
  (forall x y, q x = true -> q y = true -> x = y) ->
  Permutation l1 l2 -> filter q l1 = filter q l2.
Proof.
  intros Hq Hp. induction Hp as [|x l1 l2 _ IH|x y l|l1 l2 l3 _ IH1 _ IH2].
  - reflexivity.
  - cbn. now rewrite IH.
  - cbn. destruct (q x) eqn:Hx, (q y) eqn:Hy; try reflexivity.
    now rewrite (Hq x y Hx Hy).
  - congruence.
Qed.

Lemma py_sort_perm_eq (l1 l2 : list A) :
  (forall x y, key x = key y -> x = y) ->
  Permutation l1 l2 -> py_sort ltb key l1 = py_sort ltb key l2.
Proof.
  intros Hinj Hp. apply py_sort_unique.
  - apply py_sort_sorted, ltb_asym_of_order.
  - intros k. rewrite py_sort_filter by apply of_key_passed.
    apply filter_perm_eq; [|assumption].
    unfold of_key. intros x y Hx Hy. apply eqk_eq in Hx, Hy.
    apply Hinj. congruence.
Qed.

End Unique.

End SortingFacts.

(** ** The sort key of the script *)

Module KeyFacts.

Lemma key_eqb_eq (a b : sortkey) : sortkey_eqb a b = true <-> a = b.
Proof.
  destruct a as [[a1 a2] a3], b as [[b1 b2] b3]. cbn.
  rewrite !andb_true_iff, !StrFacts.str_eqb_eq.
  split; [intros [[-> ->] ->]; reflexivity | intros H; inversion H; auto].
Qed.

Lemma key_ltb_irrefl (a : sortkey) : sortkey_ltb a a = false.
Proof.
  destruct a as [[a1 a2] a3]. cbn. now rewrite !StrFacts.str_eqb_refl.
Qed.

Lemma str_eqb_sym (a b : pystr) : Str.eqb b a = Str.eqb a b.
Proof.
  destruct (Str.eqb a b) eqn:E.
  - apply StrFacts.str_eqb_eq in E. subst. apply StrFacts.str_eqb_refl.
  - apply StrFacts.str_eqb_neq. apply StrFacts.str_eqb_neq in E. congruence.
Qed.

Ltac by_cases a b :=
  let E := fresh "E" in
  destruct (Str.eqb a b) eqn:E;
  [apply StrFacts.str_eqb_eq in E; subst | idtac]; cbn.

Lemma key_ltb_asym (a b : sortkey) :
  sortkey_ltb a b = true -> sortkey_ltb b a = false.
Proof.
  destruct a as [[a1 a2] a3], b as [[b1 b2] b3]. cbn.
  rewrite (str_eqb_sym a1 b1), (str_eqb_sym a2 b2), (str_eqb_sym a3 b3).
  by_cases a1 b1; [|apply StrFacts.str_ltb_asym].
  by_cases a2 b2; [|apply StrFacts.str_ltb_asym].
  by_cases a3 b3; [discriminate|apply StrFacts.str_ltb_asym].
Qed.

(** The comparison of the code against the order of the specification:
    when [b < a] is false, [a] is lexicographically at most [b]. *)
Lemma key_not_ltb_le (a b : sortkey) :
  sortkey_ltb b a = false -> sortkey_le a b.
Proof.
  destruct a as [[a1 a2] a3], b as [[b1 b2] b3]. cbn.
  destruct (Str.eqb b1 a1) eqn:E1; cbn.
  - apply StrFacts.str_eqb_eq in E1. subst b1. right. split; [reflexivity|].
    destruct (Str.eqb b2 a2) eqn:E2; cbn in *.
    + apply StrFacts.str_eqb_eq in E2. subst b2. right. split; [reflexivity|].
      destruct (Str.eqb b3 a3) eqn:E3; cbn in *.
      * apply StrFacts.str_eqb_eq in E3. subst b3.
        apply StrFacts.not_ltb_lex_le, StrFacts.str_ltb_irrefl.
      * now apply StrFacts.not_ltb_lex_le.
    + left. split; [now apply StrFacts.not_ltb_lex_le|].
      intros ->. now rewrite StrFacts.str_eqb_refl in E2.
  - intros H. left. split; [now apply StrFacts.not_ltb_lex_le|].
    intros ->. now rewrite StrFacts.str_eqb_refl in E1.
Qed.

End KeyFacts.

(** ** [sorted] with a key that can raise *)

Section SortedFacts.

Variables A K : Type.
Variable ltb : K -> K -> bool.
Variable f : A -> exn + K.

Lemma mapM_keys (xs : list A) (ks : list K) :
  Exc.mapM f xs = inr ks -> Forall2 (fun x k => f x = inr k) xs ks.
Proof.
  revert ks; induction xs as [|x xs IH]; cbn; intros ks H.
  - inversion H. constructor.
  - destruct (f x) as [e|k] eqn:Hx; [discriminate|].
    destruct (Exc.mapM f xs) as [e|ks'] eqn:Hxs; [discriminate|].
    inversion H; subst. constructor; auto.
Qed.

(** [mapM] fails as soon as one element does. *)
Lemma mapM_raises (xs : list A) (x : A) (e : exn) :
  In x xs -> f x = inl e -> exists e', Exc.mapM f xs = inl e'.
Proof.
  induction xs as [|y xs IH]; cbn; [tauto|].
  intros [->|Hin] Hx.
  - rewrite Hx. now exists e.
  - destruct (f y) as [e1|k]; [now exists e1|].
    destruct (IH Hin Hx) as [e' ->]. now exists e'.
Qed.

(** The exception of [mapM] is the exception of one of the elements. *)
Lemma mapM_raised (xs : list A) (e : exn) :
  Exc.mapM f xs = inl e -> exists x, In x xs /\ f x = inl e.
Proof.
  induction xs as [|y xs IH]; cbn; [discriminate|].
  destruct (f y) as [e1|k] eqn:Hy.
  - intros H. inversion H; subst. exists y. auto.
  - destruct (Exc.mapM f xs) as [e1|ks]; [|discriminate].
    intros H. inversion H; subst. destruct (IH eq_refl) as [x [Hin Hx]].
    exists x. auto.
Qed.

Lemma mapM_total (xs : list A) :
  (forall x, In x xs -> exists k, f x = inr k) ->
  exists ks, Exc.mapM f xs = inr ks.
Proof.
  induction xs as [|x xs IH]; cbn; intros H.
  - now exists [].
  - destruct (H x (or_introl eq_refl)) as [k ->].
    destruct IH as [ks ->]; [intros y Hy; apply H; now right|].
    now exists (k :: ks).
Qed.

(** The decorated list: every element next to its key. *)
Lemma decorated_snd (xs : list A) (ks : list K) :
  Forall2 (fun x k => f x = inr k) xs ks ->
  List.map snd (combine ks xs) = xs.
Proof.
  induction 1; cbn; congruence.
Qed.

Lemma decorated_key (xs : list A) (ks : list K) :
  Forall2 (fun x k => f x = inr k) xs ks ->
  forall d, In d (combine ks xs) -> f (snd d) = inr (fst d).
Proof.
  induction 1 as [|x k xs ks Hx _ IH]; cbn; [tauto|].
  intros d [<-|Hd]; auto.
Qed.

Lemma py_sorted_inv (xs ys : list A) :
  py_sorted ltb f xs = inr ys ->
  exists ks, Forall2 (fun x k => f x = inr k) xs ks /\
             ys = List.map snd (py_sort ltb fst (combine ks xs)).
Proof.
  unfold py_sorted, Exc.bind, Exc.ret.
  destruct (Exc.mapM f xs) as [e|ks] eqn:Hks; [discriminate|].
  intros H. inversion H. exists ks. split; [now apply mapM_keys | reflexivity].
Qed.

Lemma py_sorted_perm (xs ys : list A) :
  py_sorted ltb f xs = inr ys -> Permutation xs ys.
Proof.
  intros H. apply py_sorted_inv in H as [ks [Hks ->]].
  rewrite <- (decorated_snd _ _ Hks) at 1.
  apply Permutation_map. symmetry. apply py_sort_perm.
Qed.


Lemma py_sorted_total (xs : list A) :
  (forall x, In x xs -> exists k, f x = inr k) ->
  exists ys, py_sorted ltb f xs = inr ys.
Proof.
  intros H. destruct (mapM_total _ H) as [ks Hks].
  unfold py_sorted, Exc.bind, Exc.ret. rewrite Hks. eauto.
Qed.

Lemma py_sorted_raises (xs : list A) (x : A) (e : exn) :
  In x xs -> f x = inl e -> exists e', py_sorted ltb f xs = inl e'.
Proof.
  intros Hin Hx. destruct (mapM_raises _ _ _ Hin Hx) as [e' H].
  exists e'. unfold py_sorted, Exc.bind. now rewrite H.
Qed.

Lemma py_sorted_raised (xs : list A) (e : exn) :
  py_sorted ltb f xs = inl e -> exists x, In x xs /\ f x = inl e.
Proof.
  unfold py_sorted, Exc.bind, Exc.ret.
  destruct (Exc.mapM f xs) as [e1|ks] eqn:Hks; [|discriminate].
  intros H. inversion H; subst. now apply mapM_raised.
Qed.

(** Neighbours of the result have keys, and the second key is not
    smaller than the first. *)
Lemma py_sorted_adjacent (xs l1 l2 : list A) (a b : A) :
  (forall j k, ltb j k = true -> ltb k j = false) ->
  py_sorted ltb f xs = inr (l1 ++ a :: b :: l2) ->
  exists ka kb, f a = inr ka /\ f b = inr kb /\ ltb kb ka = false.
Proof.
  intros Hasym H. apply py_sorted_inv in H as [ks [Hks Hys]].
  symmetry in Hys.
  apply map_eq_app in Hys as [d1 [d2 [Hd [_ Hd2]]]].
  destruct d2 as [|da d2]; [discriminate|].
  destruct d2 as [|db d2]; [discriminate|].
  cbn in Hd2. injection Hd2 as <- <- _.
  pose proof (py_sort_sorted _ _ ltb fst Hasym (combine ks xs)) as Hs.
  rewrite Hd in Hs. apply Sorted_adjacent in Hs.
  assert (Hin : forall d, In d (d1 ++ da :: db :: d2) ->
            f (snd d) = inr (fst d)).
  { intros d Hd'. rewrite <- Hd in Hd'. apply py_sort_In in Hd'.
    now apply (decorated_key _ _ Hks). }
  exists (fst da), (fst db). repeat split.
  - apply Hin, in_elt.
  - apply Hin. rewrite in_app_iff. right. right. now left.
  - exact Hs.
Qed.

(** The elements of any one key come out in the order they went in. *)
Lemma py_sorted_stable (eqk : K -> K -> bool) (xs ys : list A) :
  (forall j k, eqk j k = true <-> j = k) ->
  (forall k, ltb k k = false) ->
  py_sorted ltb f xs = inr ys ->
  forall k, filter (has_key eqk f k) ys = filter (has_key eqk f k) xs.
Proof.
  intros Heq Hirr H k. apply py_sorted_inv in H as [ks [Hks ->]].
  assert (Hext : forall l, (forall d, In d l -> f (snd d) = inr (fst d)) ->
            filter (has_key eqk f k) (List.map snd l)
            = List.map snd (filter (of_key eqk fst k) l)).
  { induction l as [|d l IH]; intros Hl; [reflexivity|]. cbn.
    unfold has_key at 1, of_key at 1. rewrite (Hl d (or_introl eq_refl)).
    rewrite IH by (intros d' Hd'; apply Hl; now right).
    now destruct (eqk k (fst d)). }
  rewrite Hext.
  - rewrite py_sort_filter.
    + rewrite <- Hext by apply (decorated_key _ _ Hks).
      now rewrite (decorated_snd _ _ Hks).
    + apply of_key_passed; assumption.
  - intros d Hd. apply py_sort_In in Hd. now apply (decorated_key _ _ Hks).
Qed.

End SortedFacts.


(** ** The run of [rebuild_bundles] *)

Section RunFacts.

Variable content : Type.
Variable stdout : list event -> line -> option exn.
Variable json_load : content -> exn + json.
Variable json_dump : pystr -> json -> write_result content.
Variable upper : pystr -> pystr.

Lemma exec_app (a b : list action) (s : state content) :
  exec stdout json_dump (a ++ b) s
  = match exec stdout json_dump a s with
    | (s', None) => exec stdout json_dump b s'
    | (s', Some e) => (s', Some e)
    end.
Proof.
  revert s. induction a as [|x a IH]; intros s; cbn [app exec].
  - reflexivity.
  - destruct (step stdout json_dump x s) as [s' [e|]]; [reflexivity|].
    apply IH.
Qed.

(** Only a write changes the directory. *)
Lemma step_files (a : action) (s : state content) :
  (forall path doc, a <> Dump path doc) ->
  files (fst (step stdout json_dump a s)) = files s.
Proof.
  intros Hd. destruct a as [l|l region|f|items|region|path doc|e];
    cbn [step]; unfold say; cbn [Run.log events files].
  - destruct (stdout _ _); reflexivity.
  - destruct (stdout _ _) as [e|]; [|reflexivity].
    destruct (stdout _ _); reflexivity.
  - reflexivity.
  - reflexivity.
  - reflexivity.
  - now destruct (Hd path doc).
  - reflexivity.
Qed.

Lemma exec_files (acts : list action) (s : state content) :
  (forall path doc, ~ In (Dump path doc) acts) ->
  files (fst (exec stdout json_dump acts s)) = files s.
Proof.
  revert s. induction acts as [|a acts IH]; intros s Hd; [reflexivity|].
  cbn [exec].
  assert (Ha : files (fst (step stdout json_dump a s)) = files s).
  { apply step_files. intros path doc ->. apply (Hd path doc). now left. }
  destruct (step stdout json_dump a s) as [s' [e|]]; [exact Ha|].
  cbn [fst] in Ha. rewrite <- Ha. apply IH.
  intros path doc H. apply (Hd path doc). now right.
Qed.

Lemma file_script_no_dump (w : world content) (f path : pystr) (doc : json) :
  ~ In (Dump path doc) (file_script json_load w f).
Proof.
  unfold file_script. rewrite in_app_iff. cbn [In].
  intros [[H|[H|[]]]|H]; try discriminate.
  destruct (loaded json_load w f) as [e|[items n| |]]; cbn [In] in H;
    repeat match type of H with
           | _ \/ _ => destruct H as [H|H]
           | False => destruct H
           end; discriminate.
Qed.

Lemma loop_script_no_dump (w : world content) (fs : list pystr)
    (path : pystr) (doc : json) :
  ~ In (Dump path doc) (loop_script json_load w fs).
Proof.
  unfold loop_script. intros H. apply in_flat_map in H as [f [_ H]].
  now apply file_script_no_dump in H.
Qed.

(** One turn of the loop is the script of its file. *)
Lemma loop_body_run (f : pystr) (s : state content) :
  loop_body stdout json_load f s
  = match exec stdout json_dump (file_script json_load (files s) f) s with
    | (s', None) => (s', inr tt)
    | (s', Some e) => (s', inl e)
    end.
Proof.
  unfold loop_body, file_script, load_region, read_json, loaded.
  unfold Run.bind at 1. unfold Run.print at 1.
  cbn [app exec step]. unfold say at 1.
  destruct (stdout (events s) (Loading (region_name_of f))) as [e|];
    [reflexivity|].
  unfold Run.try_except, Run.bind at 1.
  cbn [Run.log files events cameras regions].
  destruct (Fs.lookup f (files s)) as [c|]; cbn [Exc.bind].
  2: { cbn [exec step]. unfold say, Run.print.
       cbn [Run.log files events cameras regions].
       destruct (stdout _ _); reflexivity. }
  destruct (json_load c) as [e|data]; cbn [Exc.bind].
  { cbn [exec step]. unfold say, Run.print.
    cbn [Run.log files events cameras regions].
    destruct (stdout _ _); reflexivity. }
  unfold Run.bind at 1, Run.lift at 1.
  destruct (extract data) as [e|[items n| |]].
  - cbn [exec step]. unfold say, Run.print.
    cbn [Run.log files events cameras regions].
    destruct (stdout _ _); reflexivity.
  - unfold Run.bind, Run.extend, Run.append, Run.print.
    cbn [exec step Run.log files events cameras regions]. unfold say.
    cbn [Run.log files events cameras regions].
    destruct (stdout _ _) as [e|]; [|reflexivity].
    destruct (stdout _ _); reflexivity.
  - unfold Run.print.
    cbn [exec step Run.log files events cameras regions]. unfold say.
    cbn [Run.log files events cameras regions].
    destruct (stdout _ _) as [e|]; [|reflexivity].
    destruct (stdout _ _); reflexivity.
  - unfold Run.print.
    cbn [exec step Run.log files events cameras regions]. unfold say.
    cbn [Run.log files events cameras regions].
    destruct (stdout _ _) as [e|]; [|reflexivity].
    destruct (stdout _ _); reflexivity.
Qed.

Lemma for_each_run (fs : list pystr) (s : state content) :
  Run.for_each fs (loop_body stdout json_load) s
  = match exec stdout json_dump (loop_script json_load (files s) fs) s with
    | (s', None) => (s', inr tt)
    | (s', Some e) => (s', inl e)
    end.
Proof.
  revert s. induction fs as [|f fs IH]; intros s; [reflexivity|].
  cbn [Run.for_each loop_script flat_map].
  fold (loop_script json_load (files s) fs).
  unfold Run.bind at 1. rewrite loop_body_run, exec_app.
  pose proof (exec_files (file_script json_load (files s) f) s
                (file_script_no_dump (files s) f)) as Hf.
  destruct (exec stdout json_dump (file_script json_load (files s) f) s)
    as [s' [e|]]; [reflexivity|].
  cbn [fst] in Hf. rewrite IH, Hf. reflexivity.
Qed.

(** The lists when the loop is left at its end. *)
Lemma file_script_lists (w : world content) (f : pystr)
    (s s' : state content) :
  exec stdout json_dump (file_script json_load w f) s = (s', None) ->
  cameras s' = cameras s ++ extracted json_load w f
  /\ regions s'
     = regions s ++ (if processed json_load w f
                     then [region_name_of f] else []).
Proof.
  unfold file_script, extracted, processed. cbn [app exec step]. unfold say.
  destruct (stdout (events s) (Loading (region_name_of f))) as [e|];
    [discriminate|].
  destruct (loaded json_load w f) as [e|[items n| |]];
    cbn [exec step Run.log files events cameras regions]; unfold say;
    cbn [Run.log files events cameras regions];
    repeat match goal with
           | |- context [stdout ?evs ?l] => destruct (stdout evs l)
           end;
    try discriminate; intros H; inversion H; subst; cbn;
    rewrite ?app_nil_r; auto.
Qed.

Lemma loop_script_lists (w : world content) (fs : list pystr)
    (s s' : state content) :
  exec stdout json_dump (loop_script json_load w fs) s = (s', None) ->
  cameras s' = cameras s ++ flat_map (extracted json_load w) fs
  /\ regions s'
     = regions s
       ++ List.map region_name_of (filter (processed json_load w) fs).
Proof.
  revert s. induction fs as [|f fs IH]; intros s.
  - cbn. intros H. inversion H; subst. now rewrite !app_nil_r.
  - cbn [loop_script flat_map filter].
    fold (loop_script json_load w fs). rewrite exec_app.
    destruct (exec stdout json_dump (file_script json_load w f) s)
      as [s1 [e|]] eqn:Hf; [discriminate|].
    intros H. apply file_script_lists in Hf as [Hc Hr].
    apply IH in H as [Hc' Hr']. rewrite Hc', Hr', Hc, Hr.
    rewrite <- !app_assoc.
    destruct (processed json_load w f); cbn [List.map app]; auto.
Qed.

(** [rebuild_bundles] is [run_of]. *)
Lemma rebuild_bundles_run (w : world content) :
  rebuild_bundles stdout json_load json_dump upper (start w)
  = run_of stdout json_load json_dump upper w.
Proof.
  unfold rebuild_bundles, run_of, script, start.
  unfold Run.bind at 1. unfold Run.glob at 1. cbn [files events].
  fold (regional_files w). fold (candidates w).
  unfold Run.bind at 1. unfold Run.print at 1.
  cbn [exec step]. unfold say at 1.
  cbn [Run.log files events cameras regions app].
  destruct (stdout [] (FoundFiles (List.length (regional_files w))))
    as [e|]; [reflexivity|].
  unfold Run.bind at 1. unfold Run.new_lists at 1.
  cbn [Run.log files events cameras regions app].
  unfold Run.bind at 1. rewrite for_each_run.
  cbn [Run.log files events cameras regions app]. rewrite exec_app.
  pose proof (exec_files (loop_script json_load w (candidates w))
                {| files := w;
                   events := [Print (FoundFiles
                                       (List.length (regional_files w)))];
                   cameras := []; regions := [] |}
                (loop_script_no_dump w (candidates w))) as Hfiles.
  destruct (exec stdout json_dump (loop_script json_load w (candidates w)) _)
    as [s1 [e|]] eqn:Hloop; [reflexivity|].
  apply loop_script_lists in Hloop as [Hc Hr].
  cbn [cameras regions app fst files] in Hc, Hr, Hfiles.
  fold (all_cameras json_load w) in Hc.
  fold (regions_processed json_load w) in Hr.
  unfold Run.bind at 1. unfold Run.all_cameras at 1.
  unfold Run.bind at 1. unfold Run.regions_processed at 1.
  rewrite Hc, Hr. unfold tail_script.
  destruct s1 as [w1 evs1 cams1 regs1].
  cbn [files events cameras regions] in *. subst w1 cams1 regs1.
  unfold Run.bind, Run.print, Run.lift, Run.ret, write_json.
  cbn [app exec step]. unfold say.
  cbn [Run.log files events cameras regions].
  repeat match goal with
         | |- context [stdout ?evs ?l] =>
             destruct (stdout evs l); [reflexivity|];
             cbn [Run.log files events cameras regions]
         end.
  destruct (json_dump bundle_path _);
    cbn [Run.log files events cameras regions]; try reflexivity.
  repeat match goal with
         | |- context [stdout ?evs ?l] =>
             destruct (stdout evs l); [reflexivity|];
             cbn [Run.log files events cameras regions]
         end.
  destruct (py_sorted sortkey_ltb (sort_key upper) (all_cameras json_load w))
    as [e|sorted_cameras]; cbn [app exec step]; [reflexivity|].
  unfold say. cbn [Run.log files events cameras regions].
  repeat match goal with
         | |- context [stdout ?evs ?l] =>
             destruct (stdout evs l); [reflexivity|];
             cbn [Run.log files events cameras regions]
         end.
  destruct (json_dump sorted_bundle_path _);
    cbn [Run.log files events cameras regions]; try reflexivity.
  repeat match goal with
         | |- context [stdout ?evs ?l] =>
             destruct (stdout evs l); [reflexivity|];
             cbn [Run.log files events cameras regions]
         end.
  reflexivity.
Qed.

(** [main] is [main_of]. *)
Lemma main_run (w : world content) :
  main stdout json_load json_dump upper (start w)
  = main_of stdout json_load json_dump upper w.
Proof.
  unfold main, main_of. unfold Run.bind at 1.
  rewrite rebuild_bundles_run. unfold run_of. rewrite exec_app.
  destruct (exec stdout json_dump (script json_load upper w) (start w))
    as [s [e|]].
  - unfold say, Run.print. destruct (stdout (events s) _); reflexivity.
  - cbn [exec step]. unfold say, Run.print.
    destruct (stdout (events s) _) as [e|]; [|reflexivity].
    cbn [fst Run.log events]. destruct (stdout _ _); reflexivity.
Qed.

End RunFacts.
(** ** What the [try] block extracts *)

Module ExtractFacts.

(** After a successful [extend], [len(cameras)] is the number of elements
    appended. *)
Lemma iter_len (v : json) (items : list json) :
  Py.iter v = inr items -> Py.len v = inr (List.length items).
Proof.
  destruct v; cbn; intros H; inversion H; subst;
    now rewrite ?length_map.
Qed.

Lemma iter_raises (v : json) (e : exn) : Py.iter v = inl e -> e = TypeError.
Proof. destruct v; cbn; congruence. Qed.

(** With [feeds[0].staticAlerts] present, lines 42-45 are reached: the
    value is handed to [extend], whatever it is. *)
Ltac step :=
  cbn [Py.getitem Py.contains Py.len Py.getitem0 Exc.bind Exc.ret
       List.length Nat.ltb Nat.leb].

Lemma extract_alerts (data cameras : json) :
  alerts_of data = inr cameras ->
  extract data =
  match Py.iter cameras with
  | inr items => inr (Extracted items (List.length items))
  | inl e => inl e
  end.
Proof.
  unfold alerts_of, extract.
  destruct data as [| | | | |items|top]; try discriminate. step.
  destruct (Py.lookup (Str.lit "feeds") top) as [feeds|]; try discriminate.
  destruct feeds as [| | | |s|fs|m]; try discriminate; step.
  - destruct s as [|c s]; discriminate.
  - destruct fs as [|feed fs]; try discriminate. step.
    destruct feed as [| | | | | |members]; try discriminate. step.
    destruct (Py.lookup (Str.lit "staticAlerts") members) as [v|];
      try discriminate. step.
    intros H. inversion H; subst.
    destruct (Py.iter cameras) as [e|items] eqn:Hit; [reflexivity|].
    rewrite (iter_len _ _ Hit). reflexivity.
Qed.

(** Without it, nothing is extracted: a line of lines 47-52 is printed
    instead. *)
Lemma extract_no_alerts (data : json) (e : exn) :
  alerts_of data = inl e ->
  forall items n, extract data <> inr (Extracted items n).
Proof.
  intros Hno items n. revert Hno.
  unfold alerts_of, extract.
  destruct data as [| | | | s |items'|top]; try discriminate; step.
  - destruct (Str.contains _ s); discriminate.
  - destruct (existsb _ items'); discriminate.
  - destruct (Py.lookup (Str.lit "feeds") top) as [feeds|]; try discriminate.
    destruct feeds as [| | | |s|fs|m]; try discriminate; step.
    + destruct s as [|c s]; try discriminate. step.
      destruct (Str.contains _ [c]); discriminate.
    + destruct fs as [|feed fs]; try discriminate. step.
      destruct feed as [| | | |s|fs'|members]; try discriminate; step.
      * destruct (Str.contains _ s); discriminate.
      * destruct (existsb _ fs'); discriminate.
      * destruct (Py.lookup (Str.lit "staticAlerts") members) as [v|];
          discriminate.
    + destruct m; discriminate.
Qed.

End ExtractFacts.

(** ** Files and events *)

Module FsFacts.

Lemma lookup_write_same {content : Type} (p : pystr) (c : content)
    (w : world content) :
  Fs.lookup p (Fs.write p c w) = Some c.
Proof.
  induction w as [|[n c'] w IH]; cbn.
  - now rewrite StrFacts.str_eqb_refl.
  - destruct (Str.eqb p n) eqn:E; cbn; rewrite E; auto.
Qed.

Lemma lookup_write_other {content : Type} (p q : pystr) (c : content)
    (w : world content) :
  Str.eqb q p = false -> Fs.lookup q (Fs.write p c w) = Fs.lookup q w.
Proof.
  intros Hqp. induction w as [|[n c'] w IH]; cbn.
  - now rewrite Hqp.
  - destruct (Str.eqb p n) eqn:E; cbn.
    + apply StrFacts.str_eqb_eq in E. subst n. now rewrite Hqp.
    + now rewrite IH.
Qed.


(** Writing to a file the bytes it holds changes nothing. *)
Lemma write_lookup_same {content : Type} (p : pystr) (c : content)
    (w : world content) :
  Fs.lookup p w = Some c -> Fs.write p c w = w.
Proof.
  induction w as [|[n c'] w IH]; cbn; [discriminate|].
  destruct (Str.eqb p n).
  - intros H. inversion H. reflexivity.
  - intros H. now rewrite IH.
Qed.

End FsFacts.

Module EventFacts.

Lemma dumped_app (p : pystr) (a b : list event) :
  dumped p (a ++ b) = dumped p a ++ dumped p b.
Proof. apply flat_map_app. Qed.

Lemma opened_app (a b : list event) : opened (a ++ b) = opened a ++ opened b.
Proof. apply flat_map_app. Qed.

Lemma unprinted_app (a b : list event) :
  unprinted (a ++ b) = unprinted a ++ unprinted b.
Proof. apply flat_map_app. Qed.

(** A run in which no [print] raised: so it was from the start. *)
Lemma quiet_app (a b : list event) :
  unprinted (a ++ b) = [] -> unprinted a = [] /\ unprinted b = [].
Proof. rewrite unprinted_app. apply app_eq_nil. Qed.

Lemma quiet_In (evs : list event) (l : line) (e : exn) :
  unprinted evs = [] -> ~ In (PrintRaised l e) evs.
Proof.
  intros Hq Hin. apply in_split in Hin as [a [b ->]].
  apply quiet_app in Hq as [_ Hq]. discriminate.
Qed.

Lemma reached_app (l : line) (a b : list event) :
  reached l (a ++ b) <-> reached l a \/ reached l b.
Proof.
  unfold reached. split.
  - intros [ev [Hin Hp]]. apply in_app_or in Hin as [Hin|Hin]; eauto.
  - intros [[ev [Hin Hp]]|[ev [Hin Hp]]]; exists ev; split; auto;
      apply in_or_app; auto.
Qed.

(** In a run in which no [print] raised, a line that was reached was
    printed. *)
Lemma reached_quiet (l : line) (evs : list event) :
  unprinted evs = [] -> reached l evs -> In (Print l) evs.
Proof.
  intros Hq [ev [Hin [->|[e ->]]]]; [exact Hin|].
  now apply quiet_In in Hin.
Qed.

Lemma printing_quiet (l : line) (ev : event) (evs : list event) :
  unprinted evs = [] -> In ev evs -> printing l ev -> ev = Print l.
Proof.
  intros Hq Hin [->|[e ->]]; [reflexivity|].
  now apply quiet_In in Hin.
Qed.

Lemma reached_logged (l : line) (evs : list event) :
  reached l evs -> logged l evs.
Proof.
  intros H. split; [exact H|]. intros Hq. now apply reached_quiet.
Qed.

Lemma printed_reached (l : line) (evs : list event) :
  In (Print l) evs -> reached l evs.
Proof. intros H. exists (Print l). split; [exact H|now left]. Qed.

Lemma dumped_In (p : pystr) (doc : json) (evs : list event) :
  In (WriteJson p doc) evs <-> In doc (dumped p evs).
Proof.
  unfold dumped. rewrite in_flat_map. split.
  - intros H. exists (WriteJson p doc). split; [exact H|].
    rewrite StrFacts.str_eqb_refl. now left.
  - intros [ev [Hin Hd]]. destruct ev as [l|l e|f|q d]; try now destruct Hd.
    destruct (Str.eqb p q) eqn:E; [|now destruct Hd].
    apply StrFacts.str_eqb_eq in E. subst q.
    destruct Hd as [<-|[]]. exact Hin.
Qed.

End EventFacts.

(** ** Executing a script *)

Section ExecFacts.

Variable content : Type.
Variable stdout : list event -> line -> option exn.
Variable json_load : content -> exn + json.
Variable json_dump : pystr -> json -> write_result content.
Variable upper : pystr -> pystr.

(** What has happened stays so. *)
Lemma step_events (a : action) (s : state content) :
  exists evs, events (fst (step stdout json_dump a s)) = events s ++ evs.
Proof.
  destruct a as [l|l region|f|items|region|path doc|e];
    cbn [step]; unfold say; cbn [Run.log events].
  - destruct (stdout _ _); cbn [fst events Run.log]; eauto.
  - destruct (stdout _ _) as [e|]; cbn [fst events Run.log]; eauto.
    destruct (stdout _ _); cbn [fst events Run.log]; rewrite <- app_assoc;
      eauto.
  - cbn [fst events Run.log]. eauto.
  - exists []. cbn [fst events]. now rewrite app_nil_r.
  - exists []. cbn [fst events]. now rewrite app_nil_r.
  - destruct (json_dump path doc); cbn [fst events]; eauto.
  - exists []. cbn [fst events]. now rewrite app_nil_r.
Qed.

Lemma exec_events (acts : list action) (s : state content) :
  exists evs, events (fst (exec stdout json_dump acts s)) = events s ++ evs.
Proof.
  revert s. induction acts as [|a acts IH]; intros s; cbn [exec].
  - exists []. now rewrite app_nil_r.
  - destruct (step_events a s) as [evs Ha].
    destruct (step stdout json_dump a s) as [s' [e|]]; [eauto|].
    cbn [fst] in Ha. destruct (IH s') as [evs' Hs].
    exists (evs ++ evs'). now rewrite Hs, Ha, app_assoc.
Qed.

(** A call of a run in which no [print] raised went as on a console that
    prints every line. *)
Lemma step_quiet (a : action) (s : state content) :
  unprinted (events (fst (step stdout json_dump a s))) = [] ->
  step stdout json_dump a s = step (fun _ _ => None) json_dump a s.
Proof.
  destruct a as [l|l region|f|items|region|path doc|e];
    cbn [step]; unfold say; try reflexivity.
  - destruct (stdout _ _); [|reflexivity]. cbn [fst Run.log events].
    intros H. apply EventFacts.quiet_app in H as [_ H]. discriminate.
  - destruct (stdout _ _) as [e|]; [|reflexivity].
    cbn [Run.log events].
    destruct (stdout _ _); cbn [fst Run.log events]; intros H;
      apply EventFacts.quiet_app in H as [H _];
      apply EventFacts.quiet_app in H as [_ H]; discriminate.
Qed.

Lemma exec_quiet (acts : list action) (s : state content) :
  unprinted (events (fst (exec stdout json_dump acts s))) = [] ->
  exec stdout json_dump acts s = exec (fun _ _ => None) json_dump acts s.
Proof.
  revert s. induction acts as [|a acts IH]; intros s; [reflexivity|].
  cbn [exec]. intros Hq.
  assert (Ha : unprinted (events (fst (step stdout json_dump a s))) = []).
  { destruct (step stdout json_dump a s) as [s' [e|]]; [exact Hq|].
    destruct (exec_events acts s') as [evs Hs]. rewrite Hs in Hq.
    now apply EventFacts.quiet_app in Hq as [Hq _]. }
  rewrite <- (step_quiet a s Ha).
  destruct (step stdout json_dump a s) as [s' [e|]]; [reflexivity|].
  now apply IH.
Qed.

(** What is printed, read and handed over does not depend on what the
    directory holds besides. *)
Lemma step_same (a : action) (s1 s2 : state content) :
  events s1 = events s2 -> cameras s1 = cameras s2 ->
  regions s1 = regions s2 ->
  events (fst (step stdout json_dump a s1))
  = events (fst (step stdout json_dump a s2))
  /\ cameras (fst (step stdout json_dump a s1))
     = cameras (fst (step stdout json_dump a s2))
  /\ regions (fst (step stdout json_dump a s1))
     = regions (fst (step stdout json_dump a s2))
  /\ snd (step stdout json_dump a s1) = snd (step stdout json_dump a s2).
Proof.
  destruct s1 as [w1 evs1 c1 r1], s2 as [w2 evs2 c2 r2].
  cbn [events cameras regions]. intros -> -> ->.
  destruct a as [l|l region|f|items|region|path doc|e];
    cbn [step]; unfold say; cbn [Run.log events files cameras regions].
  - destruct (stdout _ _); cbn; auto.
  - destruct (stdout _ _) as [e|]; cbn; auto.
    destruct (stdout _ _); cbn; auto.
  - cbn; auto.
  - cbn; auto.
  - cbn; auto.
  - destruct (json_dump path doc); cbn; auto.
  - cbn; auto.
Qed.

Lemma exec_same (acts : list action) (s1 s2 : state content) :
  events s1 = events s2 -> cameras s1 = cameras s2 ->
  regions s1 = regions s2 ->
  events (fst (exec stdout json_dump acts s1))
  = events (fst (exec stdout json_dump acts s2))
  /\ snd (exec stdout json_dump acts s1)
     = snd (exec stdout json_dump acts s2).
Proof.
  revert s1 s2. induction acts as [|a acts IH]; intros s1 s2 He Hc Hr.
  - cbn. auto.
  - cbn [exec]. destruct (step_same a s1 s2 He Hc Hr) as [H1 [H2 [H3 H4]]].
    destruct (step stdout json_dump a s1) as [s1' [e1|]],
             (step stdout json_dump a s2) as [s2' [e2|]];
      cbn [fst snd] in *; try discriminate; auto.
Qed.

(** *** The loop *)

(** What one turn of the loop leaves: the file is read unless the line of
    line 32 raises; once it is read the line that reports on it is
    reached; nothing is written; and an exception that leaves the turn
    was raised by a [print] outside the [try]. *)
Lemma file_script_observed (w : world content) (f : pystr)
    (s : state content) :
  let r := exec stdout json_dump (file_script json_load w f) s in
  exists evs,
    events (fst r) = events s ++ evs
    /\ (forall p, dumped p evs = [])
    /\ (opened evs = [f] \/ opened evs = [] /\ snd r <> None)
    /\ (opened evs = [f] -> reached (report json_load w f) evs)
    /\ (forall l ev, In ev evs -> printing l ev -> loop_line l)
    /\ (forall e, snd r = Some e ->
        exists before l, evs = before ++ [PrintRaised l e] /\ outside_try l).
Proof.
  cbv zeta. unfold file_script, report. cbn [app exec step]. unfold say.
  destruct (stdout (events s) (Loading (region_name_of f))) as [e|].
  { exists [PrintRaised (Loading (region_name_of f)) e].
    cbn [fst snd Run.log events].
    split; [reflexivity|]. split; [reflexivity|]. split.
    { right. split; [reflexivity|discriminate]. }
    split; [discriminate|]. split.
    - intros l ev [<-|[]] [H|[e' H]]; inversion H; exact I.
    - intros e' H. inversion H; subst. exists [], (Loading (region_name_of f)).
      split; [reflexivity|exact I]. }
  cbn [Run.log files events cameras regions].
  assert (Hlines : forall (evs : list event),
            Forall (fun ev => forall l, printing l ev -> loop_line l) evs ->
            forall l ev, In ev evs -> printing l ev -> loop_line l).
  { intros evs HF l ev Hin. rewrite Forall_forall in HF. now apply HF. }
  destruct (loaded json_load w f) as [e|[items n| |]];
    cbn [exec step Run.log files events cameras regions]; unfold say;
    cbn [Run.log files events cameras regions];
    repeat match goal with
           | |- context [stdout ?evs ?l] =>
               destruct (stdout evs l);
               cbn [fst snd Run.log files events cameras regions]
           end;
    cbn [fst snd Run.log files events cameras regions];
    rewrite <- ?app_assoc; cbn [app];
    (eexists; split; [reflexivity|]);
    (split; [reflexivity|]); (split; [left; reflexivity|]);
    (split;
     [intros _; eexists; split;
      [right; right; left; reflexivity
      |first [left; reflexivity | right; eexists; reflexivity]]|]);
    (split;
     [apply Hlines;
      repeat (apply Forall_cons;
              [intros l [H|[e' H]]; inversion H; exact I|]);
      apply Forall_nil|]);
    intros e' H; inversion H; subst;
    first
      [ exists [Print (Loading (region_name_of f)); ReadJson f];
        eexists; split; [reflexivity|exact I]
      | eexists [Print (Loading (region_name_of f)); ReadJson f;
                 PrintRaised _ _];
        eexists; split; [reflexivity|exact I] ].
Qed.

(** What the loop leaves: the files read are the first candidates, all of
    them when the loop is left at its end. *)
Lemma loop_script_observed (w : world content) (fs : list pystr)
    (s : state content) :
  let r := exec stdout json_dump (loop_script json_load w fs) s in
  exists evs fs1 fs2,
    events (fst r) = events s ++ evs
    /\ fs = fs1 ++ fs2
    /\ opened evs = fs1
    /\ (forall p, dumped p evs = [])
    /\ (snd r = None -> fs2 = [])
    /\ (forall f, In f fs1 -> reached (report json_load w f) evs)
    /\ (forall l ev, In ev evs -> printing l ev -> loop_line l)
    /\ (forall e, snd r = Some e ->
        exists before l, evs = before ++ [PrintRaised l e] /\ outside_try l).
Proof.
  cbv zeta. revert s. induction fs as [|f fs IH]; intros s.
  - exists [], [], []. cbn [loop_script flat_map exec fst snd].
    rewrite app_nil_r. repeat split; auto; try discriminate.
    + intros f [].
    + intros l ev [].
  - cbn [loop_script flat_map]. fold (loop_script json_load w fs).
    rewrite exec_app.
    destruct (file_script_observed w f s)
      as [evs [He [Hd [Ho [Hr [Hl Hx]]]]]].
    destruct (exec stdout json_dump (file_script json_load w f) s)
      as [s1 [e|]]; cbn [fst snd] in *.
    + exists evs, (opened evs), (skipn (List.length (opened evs)) (f :: fs)).
      split; [exact He|]. split.
      { destruct Ho as [->|[-> _]]; reflexivity. }
      split; [reflexivity|]. split; [exact Hd|]. split; [discriminate|].
      split; [|split; [exact Hl|exact Hx]].
      intros g Hg. destruct Ho as [Ho|[Ho _]]; rewrite Ho in Hg.
      * destruct Hg as [<-|[]]. now apply Hr.
      * destruct Hg.
    + destruct Ho as [Ho|[_ Ho]]; [|now destruct Ho].
      destruct (IH s1)
        as [evs' [fs1 [fs2 [He' [Hf [Ho' [Hd' [Hn [Hr' [Hl' Hx']]]]]]]]]].
      exists (evs ++ evs'), (f :: fs1), fs2.
      split; [now rewrite He', He, app_assoc|].
      split; [now rewrite Hf|].
      split; [now rewrite EventFacts.opened_app, Ho, Ho'|].
      split; [intros p; now rewrite EventFacts.dumped_app, Hd, Hd'|].
      split; [exact Hn|]. split; [|split].
      * intros g [<-|Hg]; apply EventFacts.reached_app; auto.
      * intros l ev Hin. apply in_app_or in Hin as [Hin|Hin]; eauto.
      * intros e Hs. destruct (Hx' e Hs) as [before [l [-> Hout]]].
        exists (evs ++ before), l. now rewrite app_assoc.
Qed.

(** *** A console that prints every line *)

Lemma plain_file (w : world content) (f : pystr) (s : state content) :
  exec (fun _ _ => None) json_dump (file_script json_load w f) s
  = (mkState (files s)
       (events s ++ [Print (Loading (region_name_of f)); ReadJson f;
                     Print (report json_load w f)])
       (cameras s ++ extracted json_load w f)
       (regions s ++ (if processed json_load w f
                      then [region_name_of f] else [])),
     None).
Proof.
  unfold file_script, report, extracted, processed.
  destruct s as [w0 evs cams regs].
  destruct (loaded json_load w f) as [e|[items n| |]];
    cbn [app exec step say fst snd Run.log files events cameras regions];
    unfold Run.log; cbn [files events cameras regions app];
    rewrite <- ?app_assoc, ?app_nil_r; reflexivity.
Qed.

Lemma plain_loop (w : world content) (fs : list pystr) (s : state content) :
  exec (fun _ _ => None) json_dump (loop_script json_load w fs) s
  = (mkState (files s) (events s ++ loop_events json_load w fs)
       (cameras s ++ flat_map (extracted json_load w) fs)
       (regions s
        ++ List.map region_name_of (filter (processed json_load w) fs)),
     None).
Proof.
  revert s. induction fs as [|f fs IH]; intros s.
  - destruct s. cbn. now rewrite !app_nil_r.
  - cbn [loop_script flat_map loop_events filter].
    fold (loop_script json_load w fs). fold (loop_events json_load w fs).
    rewrite exec_app, plain_file, IH.
    cbn [files events cameras regions]. rewrite <- !app_assoc.
    destruct (processed json_load w f); reflexivity.
Qed.

(** On such a console the script runs as [plain_run] says. *)
Lemma plain_script (w : world content) :
  exec (fun _ _ => None) json_dump (script json_load upper w) (start w)
  = match plain_run json_load json_dump upper w with
    | (s, inr _) => (s, None)
    | (s, inl e) => (s, Some e)
    end.
Proof.
  unfold script, plain_run. cbn [exec step say]. rewrite exec_app, plain_loop.
  unfold start, Run.log. cbn [files events cameras regions app].
  fold (all_cameras json_load w). fold (regions_processed json_load w).
  unfold tail_script, plain_state, events_sorted, events_sorting,
    events_unsorted.
  cbn [app exec step say Run.log files events cameras regions].
  unfold Run.log. cbn [files events cameras regions].
  rewrite <- ?app_assoc. cbn [app].
  destruct (json_dump bundle_path (bundle (all_cameras json_load w)));
    try reflexivity.
  destruct (py_sorted sortkey_ltb (sort_key upper) (all_cameras json_load w))
    as [e|sorted_cameras];
    cbn [app exec step say Run.log files events cameras regions];
    unfold Run.log; cbn [files events cameras regions];
    rewrite <- ?app_assoc; cbn [app]; [reflexivity|].
  destruct (json_dump sorted_bundle_path (bundle_sorted sorted_cameras));
    cbn [app exec step say Run.log files events cameras regions];
    unfold Run.log; cbn [files events cameras regions];
    rewrite <- ?app_assoc; cbn [app]; reflexivity.
Qed.

(** A run in which no [print] raised is [plain_run]. *)
Lemma quiet_run (w : world content) :
  unprinted (events (fst (run_of stdout json_load json_dump upper w))) = [] ->
  run_of stdout json_load json_dump upper w
  = plain_run json_load json_dump upper w.
Proof.
  unfold run_of. intros Hq.
  assert (He : exec stdout json_dump (script json_load upper w) (start w)
               = exec (fun _ _ => None) json_dump (script json_load upper w)
                   (start w)).
  { apply exec_quiet.
    destruct (exec stdout json_dump (script json_load upper w) (start w))
      as [s [e|]]; exact Hq. }
  rewrite He, plain_script. unfold plain_run.
  destruct (json_dump bundle_path _); try reflexivity.
  destruct (py_sorted _ _ _); try reflexivity.
  destruct (json_dump sorted_bundle_path _); reflexivity.
Qed.

Lemma main_of_run (w : world content) :
  main_of stdout json_load json_dump upper w
  = match run_of stdout json_load json_dump upper w with
    | (s, inr camera_count) =>
        match say stdout (Success camera_count) s with
        | (s', None) => (s', 0)
        | (s', Some e) => (fst (say stdout (ErrorRebuilding e) s'), 1)
        end
    | (s, inl e) => (fst (say stdout (ErrorRebuilding e) s), 1)
    end.
Proof.
  unfold main_of, run_of. rewrite exec_app.
  destruct (exec stdout json_dump (script json_load upper w) (start w))
    as [s [e|]]; [reflexivity|].
  cbn [exec step]. destruct (say stdout _ s) as [s' [e|]]; reflexivity.
Qed.

(** The events of the process: those of [rebuild_bundles], then the line
    of line 116 or of line 118, or both. *)
Lemma main_events (w : world content) :
  let r := run_of stdout json_load json_dump upper w in
  let m := main_of stdout json_load json_dump upper w in
  files (fst m) = files (fst r)
  /\ exists tl,
       events (fst m) = events (fst r) ++ tl
       /\ opened tl = []
       /\ (forall p, dumped p tl = [])
       /\ (forall l ev, In ev tl -> printing l ev ->
           (exists n, l = Success n) \/ exists e, l = ErrorRebuilding e).
Proof.
  cbv zeta. rewrite main_of_run.
  destruct (run_of stdout json_load json_dump upper w) as [s [e|n]];
    unfold say; cbn [fst];
    repeat match goal with
           | |- context [stdout ?evs ?l] =>
               destruct (stdout evs l);
               cbn [fst snd Run.log files events cameras regions]
           end;
    cbn [fst snd Run.log files events cameras regions];
    rewrite <- ?app_assoc; cbn [app];
    (split; [reflexivity|]); eexists; (split; [reflexivity|]);
    (split; [reflexivity|]); (split; [reflexivity|]);
    intros l ev Hin Hp; cbn [In] in Hin;
    repeat match type of Hin with
           | _ \/ _ => destruct Hin as [Hin|Hin]
           | False => destruct Hin
           end;
    subst ev; destruct Hp as [Hp|[e' Hp]]; inversion Hp; eauto.
Qed.

(** A process in which no [print] raised is [plain_main]. *)
Lemma quiet_main (w : world content) :
  unprinted (events (fst (main_of stdout json_load json_dump upper w))) = [] ->
  main_of stdout json_load json_dump upper w
  = plain_main json_load json_dump upper w.
Proof.
  intros Hq. destruct (main_events w) as [_ [tl [He _]]].
  assert (Hr : unprinted
                 (events (fst (run_of stdout json_load json_dump upper w)))
               = []).
  { rewrite He in Hq. now apply EventFacts.quiet_app in Hq as [Hq _]. }
  revert Hq. rewrite main_of_run, (quiet_run w Hr). unfold plain_main.
  destruct (plain_run json_load json_dump upper w) as [s [e|n]];
    unfold say; cbn [fst];
    repeat match goal with
           | |- context [stdout ?evs ?l] =>
               destruct (stdout evs l);
               cbn [fst snd Run.log files events cameras regions]
           end;
    cbn [fst snd Run.log files events cameras regions];
    try reflexivity; intros Hq;
    repeat (apply EventFacts.quiet_app in Hq as [Hq ?]); discriminate.
Qed.

End ExecFacts.

(** ** What a run reads and writes *)

Module TraceFacts.

Lemma paths_differ : Str.eqb bundle_path sorted_bundle_path = false
                     /\ Str.eqb sorted_bundle_path bundle_path = false.
Proof. split; reflexivity. Qed.

Lemma dumped_print (p : pystr) (l : line) (evs : list event) :
  dumped p (Print l :: evs) = dumped p evs.
Proof. reflexivity. Qed.

Lemma dumped_raised (p : pystr) (l : line) (e : exn) (evs : list event) :
  dumped p (PrintRaised l e :: evs) = dumped p evs.
Proof. reflexivity. Qed.

Lemma dumped_read (p f : pystr) (evs : list event) :
  dumped p (ReadJson f :: evs) = dumped p evs.
Proof. reflexivity. Qed.

Lemma dumped_write (p : pystr) (doc : json) (evs : list event) :
  dumped p (WriteJson p doc :: evs) = doc :: dumped p evs.
Proof.
  unfold dumped. cbn [flat_map]. now rewrite StrFacts.str_eqb_refl.
Qed.

Lemma dumped_bundle_sorted (doc : json) (evs : list event) :
  dumped bundle_path (WriteJson sorted_bundle_path doc :: evs)
  = dumped bundle_path evs.
Proof. reflexivity. Qed.

Lemma dumped_sorted_bundle (doc : json) (evs : list event) :
  dumped sorted_bundle_path (WriteJson bundle_path doc :: evs)
  = dumped sorted_bundle_path evs.
Proof. reflexivity. Qed.

Lemma dumped_nil (p : pystr) : dumped p [] = [].
Proof. reflexivity. Qed.

Lemma opened_print (l : line) (evs : list event) :
  opened (Print l :: evs) = opened evs.
Proof. reflexivity. Qed.

Lemma opened_raised (l : line) (e : exn) (evs : list event) :
  opened (PrintRaised l e :: evs) = opened evs.
Proof. reflexivity. Qed.

Lemma opened_write (p : pystr) (doc : json) (evs : list event) :
  opened (WriteJson p doc :: evs) = opened evs.
Proof. reflexivity. Qed.

Lemma opened_nil : opened [] = [].
Proof. reflexivity. Qed.

Lemma log_state {content : Type} (ev : event) (w : world content)
    (evs : list event) (cams : list json) (regs : list pystr) :
  Run.log ev (mkState w evs cams regs) = mkState w (evs ++ [ev]) cams regs.
Proof. reflexivity. Qed.

End TraceFacts.

Create Rewrite HintDb trace.

#[export] Hint Rewrite EventFacts.dumped_app EventFacts.opened_app
  TraceFacts.dumped_print TraceFacts.dumped_raised TraceFacts.dumped_read
  TraceFacts.dumped_write TraceFacts.dumped_bundle_sorted
  TraceFacts.dumped_sorted_bundle TraceFacts.dumped_nil
  TraceFacts.opened_print TraceFacts.opened_raised TraceFacts.opened_write
  TraceFacts.opened_nil app_nil_r : trace.

(** The state reached by a chain of calls, written out. *)
Ltac simpl_state :=
  rewrite ?TraceFacts.log_state;
  cbn [fst snd files events cameras regions];
  rewrite <- ?app_assoc; cbn [app].

(** Follow the rest of a script call by call, from a state that is
    written out: every [print] writes its line or raises, every write is
    made, breaks or is refused. *)
Ltac follow stdout json_dump :=
  cbn [app exec step]; unfold say; cbn [files events cameras regions];
  repeat match goal with
         | |- context [match stdout ?evs ?l with _ => _ end] =>
             let E := fresh "Hout" in
             destruct (stdout evs l) eqn:E;
             rewrite ?TraceFacts.log_state; cbn [app exec step];
             unfold say; cbn [files events cameras regions]
         | |- context [match json_dump ?p ?d with _ => _ end] =>
             let E := fresh "Hdump" in
             destruct (json_dump p d) eqn:E;
             rewrite ?TraceFacts.log_state; cbn [app exec step];
             unfold say; cbn [files events cameras regions]
         end.

Section ObservedFacts.

Variable content : Type.
Variable stdout : list event -> line -> option exn.
Variable json_load : content -> exn + json.
Variable json_dump : pystr -> json -> write_result content.
Variable upper : pystr -> pystr.

(** The run in two parts: up to the end of the loop, where nothing has
    been written, and from line 55 on. *)
Lemma run_stages (w : world content) :
  exists s1 r1,
    files s1 = w
    /\ (forall p, dumped p (events s1) = [])
    /\ (exists rest, candidates w = opened (events s1) ++ rest
                     /\ (r1 = None -> rest = []))
    /\ (forall f, In f (opened (events s1)) ->
                  reached (report json_load w f) (events s1))
    /\ (forall l ev, In ev (events s1) -> printing l ev ->
                     l = FoundFiles (List.length (regional_files w))
                     \/ loop_line l)
    /\ (forall e, r1 = Some e ->
        exists before l,
          events s1 = before ++ [PrintRaised l e] /\ outside_try l)
    /\ run_of stdout json_load json_dump upper w
       = match r1 with
         | Some e => (s1, inl e)
         | None =>
             match exec stdout json_dump (tail_script json_load upper w) s1
             with
             | (s2, None) =>
                 (s2, inr (List.length (all_cameras json_load w)))
             | (s2, Some e) => (s2, inl e)
             end
         end.
Proof.
  unfold run_of, script. cbn [exec step]. unfold say, start.
  cbn [events].
  destruct (stdout [] (FoundFiles (List.length (regional_files w))))
    as [e|].
  { exists (Run.log (PrintRaised
                       (FoundFiles (List.length (regional_files w))) e)
              {| files := w; events := []; cameras := []; regions := [] |}),
      (Some e).
    simpl_state. split; [reflexivity|]. split; [reflexivity|]. split.
    { exists (candidates w). split; [reflexivity|discriminate]. }
    split; [intros f []|]. split.
    - intros l ev [<-|[]] [H|[e' H]]; inversion H; eauto.
    - split; [|reflexivity]. intros e' H. inversion H; subst.
      exists [], (FoundFiles (List.length (regional_files w))).
      split; [reflexivity|exact I]. }
  rewrite exec_app.
  destruct (loop_script_observed _ stdout json_load json_dump w (candidates w)
              (Run.log (Print (FoundFiles (List.length (regional_files w))))
                 {| files := w; events := []; cameras := [];
                    regions := [] |}))
    as [evs [fs1 [fs2 [He [Hf [Ho [Hd [Hn [Hr [Hl Hx]]]]]]]]]].
  pose proof (exec_files _ stdout json_dump
                (loop_script json_load w (candidates w))
                (Run.log (Print (FoundFiles (List.length (regional_files w))))
                   {| files := w; events := []; cameras := [];
                      regions := [] |})
                (loop_script_no_dump _ json_load w (candidates w))) as Hw.
  destruct (exec stdout json_dump (loop_script json_load w (candidates w)) _)
    as [s1 r1]. cbn [fst snd Run.log files events app] in *.
  exists s1, r1. split; [exact Hw|]. rewrite He.
  split. { intros p. autorewrite with trace. apply Hd. }
  split. { exists fs2. autorewrite with trace. rewrite Ho. auto. }
  split. { intros f. autorewrite with trace. rewrite Ho. intros Hin.
           apply (EventFacts.reached_app _ [_] evs). right. now apply Hr. }
  split. { intros l ev [<-|Hin] Hp.
           - destruct Hp as [Hp|[e Hp]]; inversion Hp; eauto.
           - right. now apply (Hl l ev). }
  split. { intros e ->. destruct (Hx e eq_refl) as [before [l [-> Hout]]].
           now exists (Print (FoundFiles (List.length (regional_files w)))
                       :: before), l. }
  destruct r1 as [e|]; reflexivity.
Qed.

(** What a run reads and hands over, whichever way it ends. *)
Lemma run_observed (w : world content) :
  let r := run_of stdout json_load json_dump upper w in
  let evs := events (fst r) in
  (exists rest, candidates w = opened evs ++ rest)
  /\ (forall doc, In doc (dumped bundle_path evs) ->
      dumped bundle_path evs = [bundle (all_cameras json_load w)]
      /\ opened evs = candidates w)
  /\ (forall doc', In doc' (dumped sorted_bundle_path evs) ->
      exists c sorted_cameras,
        json_dump bundle_path (bundle (all_cameras json_load w)) = Written c
        /\ py_sorted sortkey_ltb (sort_key upper) (all_cameras json_load w)
           = inr sorted_cameras
        /\ dumped bundle_path evs = [bundle (all_cameras json_load w)]
        /\ dumped sorted_bundle_path evs = [bundle_sorted sorted_cameras])
  /\ (forall f, In f (opened evs) -> reached (report json_load w f) evs)
  /\ files (fst r) = left_by json_dump w evs.
Proof.
  cbv zeta.
  destruct (run_stages w)
    as [s1 [r1 [Hw [Hd [[rest [Ho Hn]] [Hr [_ [_ ->]]]]]]]].
  destruct r1 as [e|].
  { cbn [fst events]. unfold left_by. rewrite !Hd.
    split; [eauto|]. split; [intros doc []|]. split; [intros doc []|].
    split; [exact Hr|]. exact Hw. }
  rewrite (Hn eq_refl), app_nil_r in Ho. clear Hn rest.
  destruct s1 as [w1 evs1 c1 r1]. cbn [files events] in *. subst w1.
  unfold tail_script, left_by.
  destruct (py_sorted sortkey_ltb (sort_key upper) (all_cameras json_load w))
    as [e|sorted_cameras] eqn:Hsort;
    follow stdout json_dump; simpl_state; autorewrite with trace;
    rewrite ?Hd; cbn [app];
    repeat match goal with
           | H : json_dump _ _ = _ |- _ => rewrite H; clear H
           end;
    (split; [exists []; rewrite app_nil_r; exact Ho|]);
    (split;
     [match goal with
      | |- forall doc, In doc [] -> _ => intros ? []
      | |- _ => intros ? _; split; [reflexivity|now symmetry]
      end|]);
    (split;
     [match goal with
      | |- forall doc, In doc [] -> _ => intros ? []
      | |- _ => intros ? _; eauto 6
      end|]);
    (split; [intros f Hin; apply EventFacts.reached_app; left; auto|]);
    reflexivity.
Qed.

(** A run that returns has written both bundles. *)
Lemma run_returns (w : world content) (n : nat) :
  let r := run_of stdout json_load json_dump upper w in
  snd r = inr n ->
  n = List.length (all_cameras json_load w)
  /\ exists c sorted_cameras c',
       json_dump bundle_path (bundle (all_cameras json_load w)) = Written c
       /\ py_sorted sortkey_ltb (sort_key upper) (all_cameras json_load w)
          = inr sorted_cameras
       /\ json_dump sorted_bundle_path (bundle_sorted sorted_cameras)
          = Written c'
       /\ files (fst r)
          = Fs.write sorted_bundle_path c' (Fs.write bundle_path c w).
Proof.
  cbv zeta.
  destruct (run_stages w) as [s1 [r1 [Hw [_ [_ [_ [_ [_ ->]]]]]]]].
  destruct r1 as [e|]; [discriminate|].
  destruct s1 as [w1 evs1 c1 r1]. cbn [files events] in *. subst w1.
  unfold tail_script.
  destruct (py_sorted sortkey_ltb (sort_key upper) (all_cameras json_load w))
    as [e|sorted_cameras] eqn:Hsort;
    follow stdout json_dump; simpl_state; try discriminate.
  intros H. inversion H. split; [reflexivity|]. eauto 8.
Qed.

(** An exception that leaves [rebuild_bundles] was raised by a [print]
    outside the [try], by a write, or by the sort. *)
Lemma run_raises (w : world content) (e : exn) :
  let r := run_of stdout json_load json_dump upper w in
  snd r = inl e ->
  (exists before l,
     events (fst r) = before ++ [PrintRaised l e] /\ outside_try l)
  \/ (exists before path doc,
        events (fst r) = before ++ [WriteJson path doc]
        /\ (json_dump path doc = Refused e
            \/ exists c, json_dump path doc = Broken c e))
  \/ (exists before,
        events (fst r) = before ++ [Print SortingCameras]
        /\ dumped bundle_path (events (fst r))
           = [bundle (all_cameras json_load w)]
        /\ py_sorted sortkey_ltb (sort_key upper) (all_cameras json_load w)
           = inl e).
Proof.
  cbv zeta.
  destruct (run_stages w) as [s1 [r1 [Hw [Hd [_ [_ [_ [Hx ->]]]]]]]].
  destruct r1 as [e1|].
  { cbn [fst snd]. intros H. inversion H; subst. left. now apply Hx. }
  destruct s1 as [w1 evs1 c1 r1]. cbn [files events] in *. subst w1.
  unfold tail_script.
  destruct (py_sorted sortkey_ltb (sort_key upper) (all_cameras json_load w))
    as [e1|sorted_cameras] eqn:Hsort;
    follow stdout json_dump; simpl_state; try discriminate;
    intros H; inversion H; subst;
    match goal with
    | |- context [?pre ++ ?L] =>
        first
          [ left; exists (pre ++ removelast L); eexists;
            split; [rewrite <- app_assoc; reflexivity|exact I]
          | right; left; exists (pre ++ removelast L); do 2 eexists;
            split; [rewrite <- app_assoc; reflexivity|eauto]
          | right; right; exists (pre ++ removelast L);
            split; [rewrite <- app_assoc; reflexivity|];
            split; [|reflexivity];
            autorewrite with trace; rewrite Hd; reflexivity ]
    end.
Qed.

(** A write that fails ends the run, with the exception it raised. *)
Lemma run_write_fails (w : world content) (path : pystr) (doc : json)
    (e : exn) :
  let r := run_of stdout json_load json_dump upper w in
  In (WriteJson path doc) (events (fst r)) ->
  (json_dump path doc = Refused e
   \/ exists c, json_dump path doc = Broken c e) ->
  snd r = inl e
  /\ exists before, events (fst r) = before ++ [WriteJson path doc].
Proof.
  cbv zeta.
  destruct (run_stages w) as [s1 [r1 [Hw [Hd [_ [_ [_ [_ ->]]]]]]]].
  assert (Hno : ~ In (WriteJson path doc) (events s1)).
  { intros H. apply EventFacts.dumped_In in H. now rewrite Hd in H. }
  destruct r1 as [e1|]; [intros H; now destruct Hno|].
  destruct s1 as [w1 evs1 c1 r1]. cbn [files events] in *. subst w1.
  unfold tail_script.
  destruct (py_sorted sortkey_ltb (sort_key upper) (all_cameras json_load w))
    as [e1|sorted_cameras] eqn:Hsort;
    follow stdout json_dump; simpl_state;
    intros Hin Hf; apply in_app_or in Hin as [Hin|Hin];
    try (now destruct Hno); cbn [In] in Hin;
    repeat match type of Hin with
           | _ \/ _ => destruct Hin as [Hin|Hin]
           | False => destruct Hin
           end;
    try discriminate; inversion Hin; subst path doc;
    (destruct Hf as [Hf|[? Hf]]; try congruence);
    (split; [congruence|]);
    match goal with
    | |- exists before, ?pre ++ ?L = _ =>
        exists (pre ++ removelast L); rewrite <- app_assoc; reflexivity
    end.
Qed.

End ObservedFacts.

(** ** The directory a run leaves *)

Module LeftFacts.

Lemma bundle_names :
  Str.contains (Str.lit "Bundle") bundle_path = true
  /\ Str.contains (Str.lit "Bundle") sorted_bundle_path = true.
Proof. split; reflexivity. Qed.

(** One of three directories. *)
Lemma left_by_cases {content : Type}
    (json_dump : pystr -> json -> write_result content)
    (w : world content) (evs : list event) :
  left_by json_dump w evs = w
  \/ (exists c, left_by json_dump w evs = Fs.write bundle_path c w)
  \/ (exists c', left_by json_dump w evs = Fs.write sorted_bundle_path c' w)
  \/ (exists c c',
        left_by json_dump w evs
        = Fs.write sorted_bundle_path c' (Fs.write bundle_path c w)).
Proof.
  unfold left_by.
  destruct (dumped bundle_path evs) as [|doc ?];
    destruct (dumped sorted_bundle_path evs) as [|doc' ?];
    repeat match goal with
           | |- context [json_dump ?p ?d] => destruct (json_dump p d)
           end; eauto 6.
Qed.

(** A second run that hands over the same documents leaves the directory
    as it finds it. *)
Lemma left_by_idem {content : Type}
    (json_dump : pystr -> json -> write_result content)
    (w : world content) (evs : list event) :
  left_by json_dump (left_by json_dump w evs) evs = left_by json_dump w evs.
Proof.
  assert (Hb : forall c (v : world content),
            Fs.write bundle_path c (Fs.write bundle_path c v)
            = Fs.write bundle_path c v).
  { intros c v. apply FsFacts.write_lookup_same, FsFacts.lookup_write_same. }
  assert (Hs : forall c (v : world content),
            Fs.write sorted_bundle_path c (Fs.write sorted_bundle_path c v)
            = Fs.write sorted_bundle_path c v).
  { intros c v. apply FsFacts.write_lookup_same, FsFacts.lookup_write_same. }
  assert (Hbs : forall c c' (v : world content),
            Fs.write bundle_path c
              (Fs.write sorted_bundle_path c' (Fs.write bundle_path c v))
            = Fs.write sorted_bundle_path c' (Fs.write bundle_path c v)).
  { intros c c' v. apply FsFacts.write_lookup_same.
    rewrite FsFacts.lookup_write_other by reflexivity.
    apply FsFacts.lookup_write_same. }
  unfold left_by.
  destruct (dumped bundle_path evs) as [|doc ?];
    destruct (dumped sorted_bundle_path evs) as [|doc' ?];
    repeat match goal with
           | |- context [json_dump ?p ?d] => destruct (json_dump p d)
           end;
    rewrite ?Hbs, ?Hb, ?Hs; reflexivity.
Qed.

End LeftFacts.

(** ** A run in which no [print] raises *)

Section PlainFacts.

Variable content : Type.
Variable json_load : content -> exn + json.
Variable json_dump : pystr -> json -> write_result content.
Variable upper : pystr -> pystr.

Lemma dumped_loop_events (p : pystr) (w : world content) (fs : list pystr) :
  dumped p (loop_events json_load w fs) = [].
Proof. induction fs as [|f fs IH]; cbn; auto. Qed.

Lemma opened_loop_events (w : world content) (fs : list pystr) :
  opened (loop_events json_load w fs) = fs.
Proof. induction fs as [|f fs IH]; cbn; [reflexivity|]. now f_equal. Qed.

Lemma dumped_events_unsorted (w : world content) :
  dumped bundle_path (events_unsorted json_load w)
  = [bundle (all_cameras json_load w)]
  /\ dumped sorted_bundle_path (events_unsorted json_load w) = []
  /\ opened (events_unsorted json_load w) = candidates w.
Proof.
  unfold events_unsorted. repeat split.
  - change (dumped bundle_path (?a :: ?l)) with (dumped bundle_path l).
    rewrite EventFacts.dumped_app, dumped_loop_events. reflexivity.
  - change (dumped sorted_bundle_path (?a :: ?l))
      with (dumped sorted_bundle_path l).
    rewrite EventFacts.dumped_app, dumped_loop_events. reflexivity.
  - change (opened (?a :: ?l)) with (opened l).
    rewrite EventFacts.opened_app, opened_loop_events. cbn.
    apply app_nil_r.
Qed.

Lemma dumped_events_sorting (w : world content) :
  dumped bundle_path (events_sorting json_load w)
  = [bundle (all_cameras json_load w)]
  /\ dumped sorted_bundle_path (events_sorting json_load w) = []
  /\ opened (events_sorting json_load w) = candidates w.
Proof.
  destruct (dumped_events_unsorted w) as [H1 [H2 H3]].
  unfold events_sorting.
  rewrite !EventFacts.dumped_app, EventFacts.opened_app, H1, H2, H3.
  cbn. now rewrite app_nil_r.
Qed.

Lemma dumped_events_sorted (w : world content) (sorted_cameras : list json) :
  dumped bundle_path (events_sorted json_load w sorted_cameras)
  = [bundle (all_cameras json_load w)]
  /\ dumped sorted_bundle_path (events_sorted json_load w sorted_cameras)
     = [bundle_sorted sorted_cameras]
  /\ opened (events_sorted json_load w sorted_cameras) = candidates w.
Proof.
  destruct (dumped_events_sorting w) as [H1 [H2 H3]].
  unfold events_sorted.
  rewrite !EventFacts.dumped_app, EventFacts.opened_app, H1, H2, H3.
  cbn. now rewrite app_nil_r.
Qed.

Lemma static_alerts_bundle (records : list json) :
  static_alerts (bundle records) = Some records.
Proof. reflexivity. Qed.

Lemma static_alerts_bundle_sorted (records : list json) :
  static_alerts (bundle_sorted records) = Some records.
Proof. reflexivity. Qed.

End PlainFacts.

(** ** The records of the bundles *)

Section BundleFacts.

Variable content : Type.
Variable json_load : content -> exn + json.
Variable json_dump : pystr -> json -> write_result content.
Variable upper : pystr -> pystr.

(** A file without [feeds[0].staticAlerts] adds no record. *)
Lemma no_alerts_no_records (w : world content) (f : pystr) :
  has_alerts json_load w f = false ->
  extracted json_load w f = [] /\ processed json_load w f = false.
Proof.
  unfold has_alerts, alerts_in, extracted, processed, loaded, Exc.bind.
  destruct (Fs.lookup f w) as [c|]; [|auto].
  destruct (json_load c) as [e|data]; [auto|].
  destruct (alerts_of data) as [e|v] eqn:Ha; [|discriminate].
  intros _. pose proof (ExtractFacts.extract_no_alerts _ _ Ha) as Hno.
  destruct (extract data) as [e'|[items n| |]]; auto.
  now destruct (Hno items n).
Qed.

Lemma length_flat_map_filter {X Y : Type} (g : X -> list Y) (q : X -> bool)
    (l : list X) :
  (forall x, q x = false -> g x = []) ->
  List.length (flat_map g l)
  = list_sum (List.map (fun x => List.length (g x)) (filter q l)).
Proof.
  intros Hq. induction l as [|x l IH]; cbn; [reflexivity|].
  rewrite length_app, IH. destruct (q x) eqn:E; cbn; [reflexivity|].
  now rewrite (Hq x E).
Qed.

(** When the key of a record can be computed, it is the key of the
    specification. *)
Lemma sort_key_upper_key (x : json) (k : sortkey) :
  sort_key upper x = inr k -> k = upper_key upper x.
Proof.
  unfold sort_key, upper_key, field_or_empty, Py.get, py_upper, Exc.bind,
    Exc.ret.
  destruct x as [| | | | | |members]; try discriminate.
  destruct (Py.lookup (Str.lit "state") members) as [[| | | |s1| |]|];
    try discriminate;
  destruct (Py.lookup (Str.lit "city") members) as [[| | | |s2| |]|];
    try discriminate;
  destruct (Py.lookup (Str.lit "street") members) as [[| | | |s3| |]|];
    try discriminate;
  intros H; inversion H; reflexivity.
Qed.

(** A key that cannot be computed raises [AttributeError]. *)
Lemma sort_key_raises (x : json) (e : exn) :
  sort_key upper x = inl e -> e = AttributeError.
Proof.
  unfold sort_key, Py.get, py_upper, Exc.bind, Exc.ret.
  destruct x as [| | | | | |members]; try congruence.
  destruct (Py.lookup (Str.lit "state") members) as [[| | | |s1| |]|];
    try congruence;
  destruct (Py.lookup (Str.lit "city") members) as [[| | | |s2| |]|];
    try congruence;
  destruct (Py.lookup (Str.lit "street") members) as [[| | | |s3| |]|];
    congruence.
Qed.

(** The key of a record as the specification draws it. *)
Lemma sort_key_record (x : json) :
  is_record x = true -> sort_key upper x = inr (upper_key upper x).
Proof.
  unfold is_record, str_or_absent, sort_key, upper_key, field_or_empty,
    Py.get, py_upper, Exc.bind, Exc.ret.
  destruct x as [| | | | | |members]; try discriminate.
  destruct (Py.lookup (Str.lit "state") members) as [[| | | |s1| |]|];
    try discriminate;
  destruct (Py.lookup (Str.lit "city") members) as [[| | | |s2| |]|];
    try discriminate;
  destruct (Py.lookup (Str.lit "street") members) as [[| | | |s3| |]|];
    try discriminate; reflexivity.
Qed.

(** Selecting one key of the specification among records that were
    keyed. *)
Lemma has_key_upper_key (xs ys : list json) (k : sortkey) :
  py_sorted sortkey_ltb (sort_key upper) xs = inr ys ->
  filter (has_key sortkey_eqb (sort_key upper) k) xs
  = filter (fun x => sortkey_eqb k (upper_key upper x)) xs.
Proof.
  intros H. apply filter_ext_in. intros x Hx. unfold has_key.
  destruct (sort_key upper x) as [e|k'] eqn:Hk.
  - destruct (py_sorted_raises _ _ sortkey_ltb _ _ _ _ Hx Hk) as [e' He'].
    congruence.
  - now rewrite (sort_key_upper_key _ _ Hk).
Qed.

(** An element of a filtered list sits in the list, between what was
    filtered before it and what was filtered after it. *)
Lemma filter_eq_elt {X : Type} (q : X -> bool) (l u v : list X) (a : X) :
  filter q l = u ++ a :: v ->
  exists m1 m2, l = m1 ++ a :: m2 /\ filter q m1 = u /\ filter q m2 = v.
Proof.
  revert u. induction l as [|x l IH]; intros u H; cbn in H.
  - destruct u; discriminate.
  - destruct (q x) eqn:Hx.
    + destruct u as [|y u]; cbn in H.
      * inversion H; subst. exists [], l. auto.
      * inversion H; subst. destruct (IH _ H2) as [m1 [m2 [-> [H3 H4]]]].
        exists (y :: m1), m2. cbn. rewrite Hx, H3. auto.
    + destruct (IH _ H) as [m1 [m2 [-> [H3 H4]]]].
      exists (x :: m1), m2. cbn. rewrite Hx. auto.
Qed.

(** Two elements in order in every selection are in order in the list. *)
Lemma filter_eq_pair {X : Type} (q : X -> bool) (l l1 l2 l3 : list X)
    (a b : X) :
  q a = true -> q b = true ->
  filter q l = filter q (l1 ++ a :: l2 ++ b :: l3) ->
  exists m1 m2 m3, l = m1 ++ a :: m2 ++ b :: m3.
Proof.
  intros Ha Hb H.
  rewrite filter_app in H. cbn in H. rewrite Ha, filter_app in H.
  cbn in H. rewrite Hb in H.
  apply filter_eq_elt in H as [m1 [m [-> [_ H]]]].
  apply filter_eq_elt in H as [m2 [m3 [-> _]]].
  now exists m1, m2, m3.
Qed.

(** What a file adds to the list is what its [feeds[0].staticAlerts]
    holds. *)
Lemma extracted_contribution (w : world content) (f : pystr) :
  extracted json_load w f = contribution json_load w f.
Proof.
  unfold extracted, contribution, alerts_in, loaded, Exc.bind.
  destruct (Fs.lookup f w) as [c|]; [|reflexivity].
  destruct (json_load c) as [e|data]; [reflexivity|].
  destruct (alerts_of data) as [e|cameras] eqn:Ha.
  - pose proof (ExtractFacts.extract_no_alerts _ _ Ha) as Hno.
    destruct (extract data) as [e'|[items n| |]]; auto.
    now destruct (Hno items n).
  - rewrite (ExtractFacts.extract_alerts _ _ Ha). unfold records_of.
    destruct cameras; reflexivity.
Qed.

End BundleFacts.

(** * The bundles a run writes *)

Section Bundles.

Variable content : Type.
Variable stdout : list event -> line -> option exn.
Variable json_load : content -> exn + json.
Variable json_dump : pystr -> json -> write_result content.
Variable upper : pystr -> pystr.

(** The document handed over for the sorted bundle, and the one handed
    over before it. *)
Lemma sorted_bundle_records (w : world content) (doc' : json) :
  let r := rebuild_bundles stdout json_load json_dump upper (start w) in
  In doc' (dumped sorted_bundle_path (events (fst r))) ->
  exists sorted_cameras,
    doc' = bundle_sorted sorted_cameras
    /\ dumped bundle_path (events (fst r))
       = [bundle (all_cameras json_load w)]
    /\ py_sorted sortkey_ltb (sort_key upper) (all_cameras json_load w)
       = inr sorted_cameras.
Proof.
  cbv zeta. rewrite rebuild_bundles_run. intros Hdoc.
  destruct (run_observed _ stdout json_load json_dump upper w)
    as [_ [_ [Hs _]]].
  destruct (Hs _ Hdoc) as [c [sorted [_ [Hsorted [Hd Hd']]]]].
  rewrite Hd' in Hdoc. destruct Hdoc as [<-|[]]. eauto.
Qed.

(** C1 (conservation).  Whenever a run hands a document to [json.dump]
    for [Camera_Database_Bundle.json], it is the only one, and the run
    has read every candidate file.  Its [staticAlerts] is the
    concatenation, over the files read and in the order they were read,
    of the records that [feeds[0].staticAlerts] of each file holds (none
    for a file that does not parse or does not have it), so nothing is
    added, dropped or duplicated; its length is the sum of the numbers of
    these records over the files that parsed and had
    [feeds[0].staticAlerts]; and that length is the count a completed run
    returns. *)
Theorem unsorted_bundle_conservation (w : world content) (doc : json) :
  let r := rebuild_bundles stdout json_load json_dump upper (start w) in
  let read := opened (events (fst r)) in
  In doc (dumped bundle_path (events (fst r))) ->
  exists records,
    dumped bundle_path (events (fst r)) = [doc]
    /\ static_alerts doc = Some records
    /\ records = List.concat (List.map (contribution json_load w) read)
    /\ List.length records
       = list_sum (List.map (fun f => List.length (contribution json_load w f))
                     (filter (has_alerts json_load w) read))
    /\ match snd r with
       | inr camera_count => camera_count = List.length records
       | inl _ => True
       end
    /\ read = candidates w.
Proof.
  cbv zeta. rewrite rebuild_bundles_run. intros Hdoc.
  destruct (run_observed _ stdout json_load json_dump upper w)
    as [_ [Hb _]].
  destruct (Hb _ Hdoc) as [Hd Ho]. rewrite Hd in Hdoc.
  destruct Hdoc as [<-|[]]. rewrite Ho.
  assert (Hcams : all_cameras json_load w
                  = flat_map (contribution json_load w) (candidates w)).
  { unfold all_cameras. apply flat_map_ext. intros f.
    apply extracted_contribution. }
  exists (all_cameras json_load w).
  split; [exact Hd|]. split; [reflexivity|].
  split; [|split; [|split; [|reflexivity]]].
  - rewrite Hcams. apply flat_map_concat_map.
  - rewrite Hcams. apply length_flat_map_filter.
    intros f Hf. unfold contribution, has_alerts in *.
    now destruct (alerts_in json_load w f).
  - destruct (snd (run_of stdout json_load json_dump upper w))
      as [e|n] eqn:Hr; [exact I|].
    now apply run_returns in Hr as [-> _].
Qed.

(** C2 (permutation).  Whenever a run writes the sorted bundle, the
    records of its [staticAlerts] are a permutation of the records of the
    unsorted bundle written by the same run. *)
Theorem sorted_bundle_permutation (w : world content) (doc' : json) :
  let r := rebuild_bundles stdout json_load json_dump upper (start w) in
  In doc' (dumped sorted_bundle_path (events (fst r))) ->
  exists doc unsorted sorted,
    dumped bundle_path (events (fst r)) = [doc]
    /\ static_alerts doc = Some unsorted
    /\ static_alerts doc' = Some sorted
    /\ Permutation unsorted sorted.
Proof.
  cbv zeta. intros Hdoc.
  destruct (sorted_bundle_records w doc' Hdoc) as [sorted [-> [Hd Hsorted]]].
  exists (bundle (all_cameras json_load w)), (all_cameras json_load w), sorted.
  repeat split; auto.
  eapply py_sorted_perm, Hsorted.
Qed.

(** C3 (sort order).  In the [staticAlerts] of the sorted bundle, for any
    two neighbours [a] then [b], the tuple (state, city, street) of [a],
    each component defaulted to the empty string and upper-cased, is
    lexicographically at most that of [b]. *)
Theorem sorted_bundle_ordered (w : world content) (doc' : json)
    (l1 l2 : list json) (a b : json) :
  let r := rebuild_bundles stdout json_load json_dump upper (start w) in
  In doc' (dumped sorted_bundle_path (events (fst r))) ->
  static_alerts doc' = Some (l1 ++ a :: b :: l2) ->
  sortkey_le (upper_key upper a) (upper_key upper b).
Proof.
  cbv zeta. intros Hdoc Hrec.
  destruct (sorted_bundle_records w doc' Hdoc) as [sorted [-> [_ Hsorted]]].
  rewrite static_alerts_bundle_sorted in Hrec. inversion Hrec; subst sorted.
  apply py_sorted_adjacent in Hsorted as [ka [kb [Ha [Hb Hle]]]];
    [|exact KeyFacts.key_ltb_asym].
  apply sort_key_upper_key in Ha, Hb. subst ka kb.
  now apply KeyFacts.key_not_ltb_le.
Qed.

(** C4 (stability).  For every key, the records of that key stand in the
    sorted bundle in the order they have in the unsorted bundle; so of two
    records of equal key, one stands before the other in the sorted bundle
    when, and only when, it does in the unsorted bundle. *)
Theorem sorted_bundle_stable (w : world content) (doc' : json)
    (sorted : list json) :
  let r := rebuild_bundles stdout json_load json_dump upper (start w) in
  In doc' (dumped sorted_bundle_path (events (fst r))) ->
  static_alerts doc' = Some sorted ->
  exists doc unsorted,
    dumped bundle_path (events (fst r)) = [doc]
    /\ static_alerts doc = Some unsorted
    /\ (forall k,
          filter (fun x => sortkey_eqb k (upper_key upper x)) sorted
          = filter (fun x => sortkey_eqb k (upper_key upper x)) unsorted)
    /\ (forall l1 l2 l3 a b,
          sorted = l1 ++ a :: l2 ++ b :: l3 ->
          upper_key upper a = upper_key upper b ->
          exists m1 m2 m3, unsorted = m1 ++ a :: m2 ++ b :: m3)
    /\ (forall m1 m2 m3 a b,
          unsorted = m1 ++ a :: m2 ++ b :: m3 ->
          upper_key upper a = upper_key upper b ->
          exists l1 l2 l3, sorted = l1 ++ a :: l2 ++ b :: l3).
Proof.
  cbv zeta. intros Hdoc Hrec.
  destruct (sorted_bundle_records w doc' Hdoc) as [sorted' [-> [Hd Hsorted]]].
  rewrite static_alerts_bundle_sorted in Hrec. inversion Hrec; subst sorted'.
  exists (bundle (all_cameras json_load w)), (all_cameras json_load w).
  assert (Hst : forall k,
            filter (fun x => sortkey_eqb k (upper_key upper x)) sorted
            = filter (fun x => sortkey_eqb k (upper_key upper x))
                (all_cameras json_load w)).
  { intros k.
    rewrite <- (has_key_upper_key upper _ _ k Hsorted).
    rewrite <- (py_sorted_stable _ _ sortkey_ltb (sort_key upper) sortkey_eqb
                  _ _ KeyFacts.key_eqb_eq KeyFacts.key_ltb_irrefl Hsorted k).
    apply filter_ext_in. intros x Hx. unfold has_key.
    destruct (sort_key upper x) as [e|k'] eqn:Hk.
    - pose proof (py_sorted_perm _ _ _ _ _ _ Hsorted) as Hperm.
      apply (Permutation_in _ (Permutation_sym Hperm)) in Hx.
      destruct (py_sorted_raises _ _ sortkey_ltb _ _ _ _ Hx Hk) as [e' He'].
      congruence.
    - now rewrite (sort_key_upper_key _ _ _ Hk). }
  split; [exact Hd|]. split; [reflexivity|]. split; [exact Hst|]. split.
  - intros l1 l2 l3 a b -> Hab.
    apply (filter_eq_pair (fun x => sortkey_eqb (upper_key upper a)
                                      (upper_key upper x)) _ l1 l2 l3 a b).
    + now apply KeyFacts.key_eqb_eq.
    + now apply KeyFacts.key_eqb_eq.
    + symmetry. apply Hst.
  - intros m1 m2 m3 a b Hu Hab.
    apply (filter_eq_pair (fun x => sortkey_eqb (upper_key upper a)
                                      (upper_key upper x)) _ m1 m2 m3 a b).
    + now apply KeyFacts.key_eqb_eq.
    + now apply KeyFacts.key_eqb_eq.
    + rewrite <- Hu. apply Hst.
Qed.

End Bundles.

(** ** Candidates and re-runs *)

Section CandidateFacts.

Variable content : Type.
Variable stdout : list event -> line -> option exn.
Variable json_load : content -> exn + json.
Variable json_dump : pystr -> json -> write_result content.
Variable upper : pystr -> pystr.


Lemma candidates_In (w : world content) (f : pystr) :
  In f (candidates w) <-> In f (regional_files w).
Proof. apply py_sort_In. Qed.

Lemma candidate_not_bundle (w : world content) (f : pystr) :
  In f (candidates w) -> Str.contains (Str.lit "Bundle") f = false.
Proof.
  intros H. apply candidates_In in H. unfold regional_files in H.
  apply filter_In in H as [_ H]. now apply negb_true_iff.
Qed.

(** Writing a file whose name contains [Bundle] leaves lines 19-22 with
    the same list. *)
Lemma regional_files_write (w : world content) (p : pystr) (c : content) :
  Str.contains (Str.lit "Bundle") p = true ->
  regional_files (Fs.write p c w) = regional_files w.
Proof.
  intros Hp. unfold regional_files.
  induction w as [|[n c'] w IH]; cbn [Fs.write List.map fst filter].
  - destruct (Str.fnmatch _ p); cbn [filter]; [now rewrite Hp | reflexivity].
  - destruct (Str.eqb p n); cbn [List.map fst filter]; [reflexivity|].
    destruct (Str.fnmatch _ n); cbn [filter]; [|exact IH].
    destruct (negb _); [now rewrite IH | exact IH].
Qed.

(** The processing order does not depend on the enumeration order. *)
Lemma candidates_perm (w1 w2 : world content) :
  Permutation (regional_files w1) (regional_files w2) ->
  candidates w1 = candidates w2.
Proof.
  intros Hp. unfold candidates.
  apply (py_sort_perm_eq pystr pystr Str.ltb (fun f => f) Str.eqb).
  - exact StrFacts.str_eqb_eq.
  - exact StrFacts.str_ltb_trans.
  - exact StrFacts.str_ltb_total.
  - exact StrFacts.str_ltb_irrefl.
  - auto.
  - exact Hp.
Qed.

Lemma Sorted_weaken {X : Type} (R R' : X -> X -> Prop) (l : list X) :
  (forall a b, R a b -> R' a b) -> Sorted R l -> Sorted R' l.
Proof.
  intros HR. induction 1 as [|a l Hl IH Hhd]; constructor; auto.
  destruct Hhd; constructor; auto.
Qed.

(** Line 30: ascending file names. *)
Lemma candidates_ascending (w : world content) : Sorted lex_le (candidates w).
Proof.
  apply (Sorted_weaken (key_le Str.ltb (fun f : pystr => f))).
  - intros a b. apply StrFacts.not_ltb_lex_le.
  - apply py_sort_sorted. exact StrFacts.str_ltb_asym.
Qed.

Lemma flat_map_ext_in {X Y : Type} (g h : X -> list Y) (l : list X) :
  (forall x, In x l -> g x = h x) -> flat_map g l = flat_map h l.
Proof.
  intros H. rewrite !flat_map_concat_map. f_equal. now apply map_ext_in.
Qed.

(** Two directories with the same regional files collect the same
    records. *)
Lemma same_inputs_same_cameras (w1 w2 : world content) :
  Permutation (regional_files w1) (regional_files w2) ->
  (forall f, In f (regional_files w1) -> Fs.lookup f w1 = Fs.lookup f w2) ->
  all_cameras json_load w1 = all_cameras json_load w2.
Proof.
  intros Hp Hc. pose proof (candidates_perm _ _ Hp) as Hcand.
  unfold all_cameras. rewrite <- Hcand. apply flat_map_ext_in.
  intros f Hf. unfold extracted, loaded.
  now rewrite Hc by now apply candidates_In.
Qed.

(** The directory a run leaves has the same regional files with the same
    bytes. *)
Lemma left_by_inputs (w : world content) (evs : list event) :
  regional_files (left_by json_dump w evs) = regional_files w
  /\ forall f, In f (regional_files w) ->
               Fs.lookup f (left_by json_dump w evs) = Fs.lookup f w.
Proof.
  destruct LeftFacts.bundle_names as [Hb Hs].
  assert (Hne : forall f p, In f (regional_files w) ->
            Str.contains (Str.lit "Bundle") p = true -> Str.eqb f p = false).
  { intros f p Hf Hp. apply StrFacts.str_eqb_neq. intros ->.
    apply candidates_In, candidate_not_bundle in Hf. congruence. }
  destruct (LeftFacts.left_by_cases json_dump w evs)
    as [->|[[c ->]|[[c' ->]|[c [c' ->]]]]].
  - split; reflexivity.
  - split; [now apply regional_files_write|].
    intros f Hf. apply FsFacts.lookup_write_other; auto.
  - split; [now apply regional_files_write|].
    intros f Hf. apply FsFacts.lookup_write_other; auto.
  - split; [now rewrite !regional_files_write|].
    intros f Hf. rewrite !FsFacts.lookup_write_other; auto.
Qed.

Lemma run_keeps_inputs (w : world content) :
  let w' := files (fst (run_of stdout json_load json_dump upper w)) in
  regional_files w' = regional_files w
  /\ forall f, In f (regional_files w) -> Fs.lookup f w' = Fs.lookup f w.
Proof.
  cbv zeta.
  destruct (run_observed _ stdout json_load json_dump upper w)
    as [_ [_ [_ [_ ->]]]].
  apply left_by_inputs.
Qed.

(** Two directories with the same regional files have the same script. *)
Lemma same_inputs_same_script (w1 w2 : world content) :
  Permutation (regional_files w1) (regional_files w2) ->
  (forall f, In f (regional_files w1) -> Fs.lookup f w1 = Fs.lookup f w2) ->
  script json_load upper w1 = script json_load upper w2
  /\ all_cameras json_load w1 = all_cameras json_load w2.
Proof.
  intros Hp Hc.
  pose proof (candidates_perm _ _ Hp) as Hcand.
  pose proof (same_inputs_same_cameras _ _ Hp Hc) as Hcams.
  assert (Hl : forall f, In f (candidates w1) ->
            loaded json_load w1 f = loaded json_load w2 f).
  { intros f Hf. unfold loaded. now rewrite Hc by now apply candidates_In. }
  assert (Hregs : regions_processed json_load w1
                  = regions_processed json_load w2).
  { unfold regions_processed. rewrite <- Hcand. f_equal.
    apply filter_ext_in. intros f Hf. unfold processed. now rewrite Hl. }
  split; [|exact Hcams].
  unfold script, tail_script.
  rewrite <- Hcand, <- Hcams, <- Hregs, (Permutation_length Hp).
  f_equal. f_equal. unfold loop_script. apply flat_map_ext_in.
  intros f Hf. unfold file_script. now rewrite Hl.
Qed.

(** Two directories with the same regional files give the same run. *)
Lemma same_inputs_same_outcome (w1 w2 : world content) :
  Permutation (regional_files w1) (regional_files w2) ->
  (forall f, In f (regional_files w1) -> Fs.lookup f w1 = Fs.lookup f w2) ->
  same_outcome (run_of stdout json_load json_dump upper w1)
               (run_of stdout json_load json_dump upper w2).
Proof.
  intros Hp Hc.
  destruct (same_inputs_same_script w1 w2 Hp Hc) as [Hs Hcams].
  assert (He : events (fst (run_of stdout json_load json_dump upper w1))
               = events (fst (run_of stdout json_load json_dump upper w2))
               /\ snd (run_of stdout json_load json_dump upper w1)
                  = snd (run_of stdout json_load json_dump upper w2)).
  { unfold run_of. rewrite <- Hs, <- Hcams.
    destruct (exec_same _ stdout json_dump (script json_load upper w1)
                (start w1) (start w2) eq_refl eq_refl eq_refl) as [H1 H2].
    destruct (exec stdout json_dump (script json_load upper w1) (start w1))
      as [s1 [e1|]],
      (exec stdout json_dump (script json_load upper w1) (start w2))
      as [s2 [e2|]]; cbn [fst snd] in *; try discriminate; split; congruence. }
  destruct He as [He Hr]. unfold same_outcome.
  split; [exact He|]. split; [exact Hr|].
  destruct (snd (run_of stdout json_load json_dump upper w1))
    as [e|n] eqn:Hr1; [exact I|].
  symmetry in Hr.
  apply run_returns in Hr1 as [_ [c1 [sorted1 [c1' [B1 [S1 [D1 F1]]]]]]].
  apply run_returns in Hr as [_ [c2 [sorted2 [c2' [B2 [S2 [D2 F2]]]]]]].
  rewrite <- Hcams in B2, S2.
  assert (sorted2 = sorted1) by congruence. subst sorted2.
  assert (c2 = c1) by congruence. assert (c2' = c1') by congruence.
  subst c2 c2'. rewrite F1, F2.
  rewrite !(FsFacts.lookup_write_other sorted_bundle_path bundle_path)
    by reflexivity.
  now rewrite !FsFacts.lookup_write_same.
Qed.

(** A second run leaves the directory as the first run left it. *)
Lemma rerun_same_files (w : world content) :
  let w' := files (fst (run_of stdout json_load json_dump upper w)) in
  files (fst (run_of stdout json_load json_dump upper w')) = w'.
Proof.
  cbv zeta.
  destruct (run_keeps_inputs w) as [Hr Hl].
  assert (Hsame : same_outcome
                    (run_of stdout json_load json_dump upper w)
                    (run_of stdout json_load json_dump upper
                       (files (fst (run_of stdout json_load json_dump
                                      upper w))))).
  { apply same_inputs_same_outcome.
    - now rewrite Hr.
    - intros f Hf. symmetry. now apply Hl. }
  destruct Hsame as [He _].
  destruct (run_observed _ stdout json_load json_dump upper
              (files (fst (run_of stdout json_load json_dump upper w))))
    as [_ [_ [_ [_ Hf]]]].
  rewrite Hf, <- He.
  destruct (run_observed _ stdout json_load json_dump upper w)
    as [_ [_ [_ [_ Hf0]]]].
  rewrite Hf0. apply LeftFacts.left_by_idem.
Qed.

End CandidateFacts.

(** * Inputs, determinism and exit status *)

Section Runs.

Variable content : Type.
Variable stdout : list event -> line -> option exn.
Variable json_load : content -> exn + json.
Variable json_dump : pystr -> json -> write_result content.
Variable upper : pystr -> pystr.

Lemma Sorted_app_l {X : Type} (R : X -> X -> Prop) (a b : list X) :
  Sorted R (a ++ b) -> Sorted R a.
Proof.
  induction a as [|x a IH]; cbn; intros H; [constructor|].
  inversion H as [|? ? Hs Hh]; subst. constructor; [now apply IH|].
  destruct a; [constructor|]. inversion Hh; subst. now constructor.
Qed.


(** C7 (determinism).  Two directories that hold the same regional files
    with the same bytes, enumerated in any order, give runs that cannot be
    told apart: the same files read in the same ascending order of names,
    the same lines printed, the same documents written, the same result
    and, for completed runs, the same bytes in both bundle files.  The
    directory a run leaves is such a directory, so running the rebuild
    again reproduces the outcome, and it leaves every file of the
    directory, the two bundles among them, byte for byte as the first run
    left it. *)
Theorem rebuild_deterministic (w1 w2 : world content) :
  let r1 := rebuild_bundles stdout json_load json_dump upper (start w1) in
  let r2 := rebuild_bundles stdout json_load json_dump upper (start w2) in
  let again :=
    rebuild_bundles stdout json_load json_dump upper
      (start (files (fst r1))) in
  Permutation (regional_files w1) (regional_files w2) ->
  (forall f, In f (regional_files w1) -> Fs.lookup f w1 = Fs.lookup f w2) ->
  same_outcome r1 r2
  /\ same_outcome r1 again
  /\ files (fst again) = files (fst r1)
  /\ Sorted lex_le (opened (events (fst r1)))
  /\ opened (events (fst r1)) = opened (events (fst r2)).
Proof.
  cbv zeta. intros Hp Hc. rewrite !rebuild_bundles_run.
  destruct (run_observed _ stdout json_load json_dump upper w1)
    as [[rest Ho] _].
  destruct (run_keeps_inputs _ stdout json_load json_dump upper w1)
    as [Hr Hl].
  pose proof (same_inputs_same_outcome _ stdout json_load json_dump upper
                w1 w2 Hp Hc) as Hsame.
  split; [exact Hsame|]. split; [|split; [|split]].
  - apply (same_inputs_same_outcome _ stdout json_load json_dump upper).
    + now rewrite Hr.
    + intros f Hf. symmetry. now apply Hl.
  - apply (rerun_same_files _ stdout json_load json_dump upper w1).
  - apply (Sorted_app_l _ _ rest). rewrite <- Ho.
    apply candidates_ascending.
  - destruct Hsame as [He _]. now rewrite He.
Qed.

(** C8 (exit status).  The process ends with status 0 or 1.  It ends
    with 0 exactly when [rebuild_bundles] returns and the success line
    with its count is printed, last.  When an exception leaves
    [rebuild_bundles] the process ends with status 1 after calling [print]
    on that exception, and the exception was raised by a [print] outside
    the [try] of the loop, by one of the two writes, or by the sort; when
    [rebuild_bundles] returns and the [print] of the success line raises,
    the process ends with status 1 after calling [print] on that
    exception.  What [open], [json.load] or the extraction of a file
    raise goes to the handler of that file, which calls [print] on it,
    and the line is printed if no [print] of the run raises.  In a
    process in which no [print] raises, the status is 1 exactly when the
    first write, the sort or the second write raises, whatever the files
    hold. *)
Theorem exit_status (w : world content) :
  let r := rebuild_bundles stdout json_load json_dump upper (start w) in
  let m := main stdout json_load json_dump upper (start w) in
  (snd m = 0 \/ snd m = 1)
  /\ (snd m = 0 <->
      exists n, snd r = inr n
                /\ events (fst m) = events (fst r) ++ [Print (Success n)])
  /\ (forall e, snd r = inl e ->
      snd m = 1
      /\ (exists last,
            events (fst m) = events (fst r) ++ [last]
            /\ printing (ErrorRebuilding e) last)
      /\ ((exists before l,
             events (fst r) = before ++ [PrintRaised l e] /\ outside_try l)
          \/ (exists before path doc,
                events (fst r) = before ++ [WriteJson path doc]
                /\ (json_dump path doc = Refused e
                    \/ exists c, json_dump path doc = Broken c e))
          \/ (exists before doc records,
                events (fst r) = before ++ [Print SortingCameras]
                /\ dumped bundle_path (events (fst r)) = [doc]
                /\ static_alerts doc = Some records
                /\ py_sorted sortkey_ltb (sort_key upper) records = inl e)))
  /\ (forall n, snd r = inr n -> snd m = 1 ->
      exists e last,
        events (fst m)
        = events (fst r) ++ [PrintRaised (Success n) e; last]
        /\ printing (ErrorRebuilding e) last)
  /\ (forall f c e,
        In f (opened (events (fst r))) -> Fs.lookup f w = Some c ->
        (json_load c = inl e
         \/ exists data, json_load c = inr data /\ extract data = inl e) ->
        logged (ErrorLoading (region_name_of f) e) (events (fst r)))
  /\ (unprinted (events (fst m)) = [] ->
      match fatal_error json_load json_dump upper w with
      | None => snd m = 0
      | Some e => snd r = inl e /\ snd m = 1
      end).
Proof.
  cbv zeta. rewrite main_run, rebuild_bundles_run.
  split; [|split; [|split; [|split; [|split]]]].
  - rewrite main_of_run.
    destruct (run_of stdout json_load json_dump upper w) as [s [e|n]];
      [now right|].
    destruct (say stdout (Success n) s) as [s' [e|]]; auto.
  - rewrite main_of_run.
    destruct (run_of stdout json_load json_dump upper w) as [s [e|n]];
      cbn [fst snd].
    + split; [discriminate|]. intros [n [H _]]. discriminate.
    + unfold say.
      destruct (stdout (events s) (Success n)) as [e|];
        cbn [fst snd Run.log events].
      * split; [discriminate|]. intros [n' [_ H]]. exfalso. revert H.
        destruct (stdout _ _); cbn [fst Run.log events];
          rewrite <- app_assoc; intros H; apply app_inv_head in H;
          discriminate.
      * split; [|reflexivity]. intros _. now exists n.
  - intros e Hr.
    pose proof (run_raises _ stdout json_load json_dump upper w e Hr) as Hc.
    rewrite main_of_run.
    destruct (run_of stdout json_load json_dump upper w) as [s [e'|n]];
      cbn [fst snd] in *; [|discriminate].
    inversion Hr; subst e'. split; [reflexivity|]. split.
    + unfold say. destruct (stdout (events s) (ErrorRebuilding e)) as [e'|];
        cbn [fst Run.log events]; eexists; (split; [reflexivity|]);
        [right; now exists e' | now left].
    + destruct Hc as [Hc|[Hc|[before [Hev [Hd Hs]]]]]; auto.
      right. right.
      exists before, (bundle (all_cameras json_load w)),
        (all_cameras json_load w). auto.
  - intros n Hr. rewrite main_of_run.
    destruct (run_of stdout json_load json_dump upper w) as [s [e|n']];
      cbn [fst snd] in *; [discriminate|].
    inversion Hr; subst n'. unfold say.
    destruct (stdout (events s) (Success n)) as [e|];
      cbn [fst snd Run.log events]; [|discriminate].
    intros _. exists e.
    destruct (stdout _ (ErrorRebuilding e)) as [e'|];
      cbn [fst Run.log events]; eexists;
      (split; [now rewrite <- app_assoc|]);
      [right; now exists e' | now left].
  - intros f c e Hf Hl He. apply EventFacts.reached_logged.
    destruct (run_observed _ stdout json_load json_dump upper w)
      as [_ [_ [_ [Hrep _]]]].
    apply Hrep in Hf. revert Hf. unfold report, loaded, Exc.bind.
    rewrite Hl. destruct He as [->|[data [-> ->]]]; auto.
  - intros Hq.
    rewrite (quiet_main _ stdout json_load json_dump upper w Hq).
    destruct (main_events _ stdout json_load json_dump upper w)
      as [_ [tl [He _]]].
    rewrite He in Hq. apply EventFacts.quiet_app in Hq as [Hq _].
    rewrite (quiet_run _ stdout json_load json_dump upper w Hq).
    unfold plain_main, plain_run, fatal_error.
    destruct (json_dump bundle_path _); cbn [fst snd]; auto.
    destruct (py_sorted _ _ _); cbn [fst snd]; auto.
    destruct (json_dump sorted_bundle_path _); cbn [fst snd]; auto.
Qed.

End Runs.
(** ** Records that can and cannot be keyed, files that are skipped *)

Section SkipFacts.

Variable content : Type.
Variable json_load : content -> exn + json.
Variable json_dump : pystr -> json -> write_result content.
Variable upper : pystr -> pystr.

(** The key is computed only for a dict whose three fields are str or
    absent. *)
Lemma sort_key_is_record (x : json) (k : sortkey) :
  sort_key upper x = inr k -> is_record x = true.
Proof.
  unfold is_record, str_or_absent, sort_key, Py.get, py_upper, Exc.bind,
    Exc.ret.
  destruct x as [| | | | | |members]; try discriminate.
  destruct (Py.lookup (Str.lit "state") members) as [[| | | |s1| |]|];
    try discriminate;
  destruct (Py.lookup (Str.lit "city") members) as [[| | | |s2| |]|];
    try discriminate;
  destruct (Py.lookup (Str.lit "street") members) as [[| | | |s3| |]|];
    try discriminate; reflexivity.
Qed.

(** A present field that is not a str is not defaulted: the key raises. *)
Lemma sort_key_bad_field (members : list (pystr * json)) (key : pystr)
    (v : json) :
  In key [Str.lit "state"; Str.lit "city"; Str.lit "street"] ->
  Py.lookup key members = Some v ->
  (forall s, v <> JStr s) ->
  sort_key upper (JObj members) = inl AttributeError.
Proof.
  intros Hkey Hv Hns.
  destruct (sort_key upper (JObj members)) as [e|k] eqn:Hk.
  - now rewrite (sort_key_raises _ _ _ Hk).
  - exfalso. apply sort_key_is_record in Hk. cbn [is_record] in Hk.
    apply andb_true_iff in Hk as [Hk H3].
    apply andb_true_iff in Hk as [H1 H2].
    unfold str_or_absent in H1, H2, H3.
    destruct Hkey as [<-|[<-|[<-|[]]]]; rewrite Hv in *;
      destruct v; try discriminate; now eapply Hns.
Qed.

(** Sorting a list that holds such a record raises [AttributeError]. *)
Lemma py_sorted_bad_record (records : list json) (x : json) :
  In x records -> sort_key upper x = inl AttributeError ->
  py_sorted sortkey_ltb (sort_key upper) records = inl AttributeError.
Proof.
  intros Hin Hx.
  destruct (py_sorted_raises _ _ sortkey_ltb _ _ _ _ Hin Hx) as [e He].
  rewrite He. f_equal.
  apply py_sorted_raised in He as [y [_ Hy]].
  now apply sort_key_raises in Hy.
Qed.

(** A regional dataset as the specification draws it is extracted whole. *)
Lemma dataset_alerts (data : json) (records : list json) :
  dataset_records data = Some records ->
  alerts_of data = inr (JArr records) /\ forallb is_record records = true.
Proof.
  unfold dataset_records, alerts_of, Exc.bind.
  destruct data as [| | | | | |top]; try discriminate.
  cbn [Py.getitem].
  destruct (Py.lookup (Str.lit "feeds") top) as [[| | | | |[|feed fs]|]|];
    try discriminate.
  destruct feed as [| | | | | |members]; try discriminate.
  cbn [Py.getitem0 Py.getitem].
  destruct (Py.lookup (Str.lit "staticAlerts") members)
    as [[| | | | |items|]|]; try discriminate.
  destruct (forallb is_record items) eqn:Hr; [|discriminate].
  intros H. inversion H; subst. auto.
Qed.

Lemma valid_extracted (w : world content) (f : pystr) (records : list json) :
  valid_records json_load w f = Some records ->
  extracted json_load w f = records
  /\ has_alerts json_load w f = true
  /\ forallb is_record records = true.
Proof.
  unfold valid_records, extracted, has_alerts, alerts_in, loaded, Exc.bind.
  destruct (Fs.lookup f w) as [c|]; [|discriminate].
  destruct (json_load c) as [e|data]; [discriminate|].
  intros H. apply dataset_alerts in H as [Ha Hr].
  rewrite (ExtractFacts.extract_alerts _ _ Ha), Ha. cbn. auto.
Qed.

Lemma malformed_skipped (w : world content) (f : pystr) :
  malformed json_load w f = true ->
  extracted json_load w f = []
  /\ valid_records json_load w f = None
  /\ diagnostic f (report json_load w f).
Proof.
  unfold malformed. destruct (Fs.lookup f w) as [c|] eqn:Hl; [|discriminate].
  intros H. apply negb_true_iff in H.
  destruct (no_alerts_no_records _ json_load w f H) as [He Hp].
  repeat split; [assumption| |].
  - destruct (valid_records json_load w f) as [records|] eqn:Hv;
      [|reflexivity].
    apply valid_extracted in Hv as [_ [Hv _]]. congruence.
  - unfold processed in Hp. unfold report, diagnostic.
    destruct (loaded json_load w f) as [e|[items n| |]]; try discriminate;
      eauto.
Qed.

(** The events of the loop around one file. *)
Lemma loop_events_at (w : world content) (fs1 fs2 : list pystr) (f : pystr) :
  loop_events json_load w (fs1 ++ f :: fs2)
  = loop_events json_load w fs1
    ++ [Print (Loading (region_name_of f)); ReadJson f;
        Print (report json_load w f)]
    ++ loop_events json_load w fs2.
Proof.
  unfold loop_events. rewrite flat_map_app. reflexivity.
Qed.

(** A run in which no [print] raises prints, for each candidate in turn,
    its [Loading] line and then, the file read, the line that reports on
    it. *)
Lemma run_reports (w : world content) (f : pystr) :
  In f (candidates w) ->
  exists before after,
    events (fst (plain_run json_load json_dump upper w))
    = before
      ++ [Print (Loading (region_name_of f)); ReadJson f;
          Print (report json_load w f)]
      ++ after.
Proof.
  intros Hf. apply in_split in Hf as [fs1 [fs2 Hf]].
  assert (Hu : exists after,
            events_unsorted json_load w
            = (Print (FoundFiles (List.length (regional_files w)))
               :: loop_events json_load w fs1)
              ++ [Print (Loading (region_name_of f)); ReadJson f;
                  Print (report json_load w f)]
              ++ after).
  { unfold events_unsorted. rewrite Hf, loop_events_at.
    eexists. cbn [app]. rewrite <- !app_assoc. reflexivity. }
  destruct Hu as [after Hu].
  exists (Print (FoundFiles (List.length (regional_files w)))
          :: loop_events json_load w fs1).
  unfold plain_run, plain_state.
  destruct (json_dump bundle_path _) as [c|c e|e]; cbn [fst events].
  2,3: exists after; exact Hu.
  destruct (py_sorted _ _ _) as [e|sorted_cameras]; cbn [fst events].
  - unfold events_sorting. rewrite Hu. eexists.
    rewrite <- !app_assoc. reflexivity.
  - destruct (json_dump sorted_bundle_path _) as [c'|c' e|e];
      cbn [fst events]; unfold events_sorted, events_sorting; rewrite Hu;
      eexists; rewrite <- !app_assoc; reflexivity.
Qed.

(** When every candidate is malformed or valid, the records collected
    are those of the valid files, and every one of them can be keyed. *)
Lemma valid_inputs_cameras (w : world content) :
  (forall f, In f (candidates w) ->
             malformed json_load w f = true
             \/ valid_records json_load w f <> None) ->
  all_cameras json_load w
  = flat_map (fun f => match valid_records json_load w f with
                       | Some rs => rs
                       | None => []
                       end) (candidates w)
  /\ exists sorted_cameras,
       py_sorted sortkey_ltb (sort_key upper) (all_cameras json_load w)
       = inr sorted_cameras.
Proof.
  intros Hfiles. split.
  - unfold all_cameras. apply flat_map_ext_in. intros f Hf.
    destruct (Hfiles f Hf) as [Hm|Hv].
    + destruct (malformed_skipped w f Hm) as [-> [-> _]]. reflexivity.
    + destruct (valid_records json_load w f) as [rs|] eqn:E; [|congruence].
      now apply valid_extracted in E as [-> _].
  - apply py_sorted_total. intros x Hx. unfold all_cameras in Hx.
    apply in_flat_map in Hx as [f [Hf Hx]].
    destruct (Hfiles f Hf) as [Hm|Hv].
    + destruct (malformed_skipped w f Hm) as [E _].
      rewrite E in Hx. destruct Hx.
    + destruct (valid_records json_load w f) as [rs|] eqn:E; [|congruence].
      apply valid_extracted in E as [E1 [_ E2]]. rewrite E1 in Hx.
      rewrite forallb_forall in E2.
      exists (upper_key upper x). apply sort_key_record. now apply E2.
Qed.

(** With such inputs, and when no [print] raises, only a write can end
    the run with an error. *)
Lemma valid_inputs_fail_on_write_only (w : world content) (e : exn) :
  (forall f, In f (candidates w) ->
             malformed json_load w f = true
             \/ valid_records json_load w f <> None) ->
  fatal_error json_load json_dump upper w = Some e ->
  exists path doc,
    (json_dump path doc = Refused e
     \/ exists c, json_dump path doc = Broken c e)
    /\ (path = bundle_path \/ path = sorted_bundle_path).
Proof.
  intros Hfiles. destruct (valid_inputs_cameras w Hfiles) as [_ [sorted Hs]].
  unfold fatal_error. rewrite Hs.
  destruct (json_dump bundle_path _) as [c|c e'|e'] eqn:Hw.
  - destruct (json_dump sorted_bundle_path _) as [c'|c' e'|e'] eqn:Hw';
      intros H; inversion H; subst; eauto 8.
  - intros H; inversion H; subst; eauto 8.
  - intros H; inversion H; subst; eauto 8.
Qed.

(** What such a run hands over. *)
Lemma plain_main_writes (w : world content) :
  let evs := events (fst (plain_main json_load json_dump upper w)) in
  In (WriteJson bundle_path (bundle (all_cameras json_load w))) evs
  /\ forall c sorted_cameras,
       json_dump bundle_path (bundle (all_cameras json_load w)) = Written c ->
       py_sorted sortkey_ltb (sort_key upper) (all_cameras json_load w)
       = inr sorted_cameras ->
       In (WriteJson sorted_bundle_path (bundle_sorted sorted_cameras)) evs.
Proof.
  cbv zeta.
  assert (Hu : In (WriteJson bundle_path (bundle (all_cameras json_load w)))
                  (events_unsorted json_load w)).
  { unfold events_unsorted. right. apply in_or_app. right.
    do 3 right. now left. }
  split.
  - unfold plain_main, plain_run, plain_state, events_sorted, events_sorting.
    destruct (json_dump bundle_path _) as [c|c e|e];
      [destruct (py_sorted _ _ _) as [e|sorted_cameras];
       [|destruct (json_dump sorted_bundle_path _) as [c'|c' e|e]]|..];
      unfold Run.log; cbn [fst events]; rewrite ?in_app_iff; auto 6.
  - intros c sorted_cameras Hc Hs.
    unfold plain_main, plain_run, plain_state, events_sorted, events_sorting.
    rewrite Hc, Hs.
    destruct (json_dump sorted_bundle_path _) as [c'|c' e|e];
      unfold Run.log; cbn [fst events]; rewrite ?in_app_iff; cbn [In];
      auto 8.
Qed.

End SkipFacts.

(** * Faults: skipped files, records that cannot be keyed, odd values *)

Section Faults.

Variable content : Type.
Variable stdout : list event -> line -> option exn.
Variable json_load : content -> exn + json.
Variable json_dump : pystr -> json -> write_result content.
Variable upper : pystr -> pystr.

(** C5 (fault isolation).  Let every candidate file be either malformed
    (it does not parse, or it parses to a document without
    [feeds[0].staticAlerts]) or a valid regional dataset, and let nothing
    go wrong around the run: no [print] of the process raises, and every
    document it hands to [json.dump] is written.  Then the run completes
    and the process ends with status 0; each malformed file has its
    [Loading] line followed, the file read, by a diagnostic line, and adds
    nothing; the unsorted bundle holds exactly the records of the valid
    files, in processing order, the sorted bundle a permutation of them;
    and both files hold what was written. *)
Theorem fault_isolation (w : world content) :
  let r := rebuild_bundles stdout json_load json_dump upper (start w) in
  let m := main stdout json_load json_dump upper (start w) in
  let records :=
    flat_map (fun f => match valid_records json_load w f with
                       | Some rs => rs
                       | None => []
                       end) (candidates w) in
  (forall f, In f (candidates w) ->
             malformed json_load w f = true
             \/ valid_records json_load w f <> None) ->
  unprinted (events (fst m)) = [] ->
  (forall path doc, In (WriteJson path doc) (events (fst m)) ->
                    exists c, json_dump path doc = Written c) ->
  snd r = inr (List.length records)
  /\ snd m = 0
  /\ (forall f, In f (candidates w) -> malformed json_load w f = true ->
      valid_records json_load w f = None
      /\ exists before l after,
           diagnostic f l
           /\ events (fst r)
              = before
                ++ [Print (Loading (region_name_of f)); ReadJson f; Print l]
                ++ after)
  /\ exists doc doc' sorted,
       dumped bundle_path (events (fst r)) = [doc]
       /\ static_alerts doc = Some records
       /\ dumped sorted_bundle_path (events (fst r)) = [doc']
       /\ static_alerts doc' = Some sorted
       /\ Permutation records sorted
       /\ (exists c, json_dump bundle_path doc = Written c
                     /\ Fs.lookup bundle_path (files (fst m)) = Some c)
       /\ (exists c', json_dump sorted_bundle_path doc' = Written c'
                      /\ Fs.lookup sorted_bundle_path (files (fst m))
                         = Some c').
Proof.
  cbv zeta. rewrite main_run, rebuild_bundles_run. intros Hfiles Hq Hw.
  assert (Hqr : unprinted
                  (events (fst (run_of stdout json_load json_dump upper w)))
                = []).
  { destruct (main_events _ stdout json_load json_dump upper w)
      as [_ [tl [He _]]].
    rewrite He in Hq. now apply EventFacts.quiet_app in Hq as [Hq _]. }
  rewrite (quiet_main _ stdout json_load json_dump upper w Hq) in Hw |- *.
  rewrite (quiet_run _ stdout json_load json_dump upper w Hqr).
  destruct (valid_inputs_cameras _ json_load upper w Hfiles)
    as [Hcams [sorted Hsorted]].
  destruct (plain_main_writes _ json_load json_dump upper w) as [W1 W2].
  destruct (Hw _ _ W1) as [c Hc].
  destruct (Hw _ _ (W2 c sorted Hc Hsorted)) as [c' Hc'].
  assert (Hreports : forall f, In f (candidates w) ->
            malformed json_load w f = true ->
            valid_records json_load w f = None
            /\ exists before l after,
                 diagnostic f l
                 /\ events (fst (plain_run json_load json_dump upper w))
                    = before
                      ++ [Print (Loading (region_name_of f)); ReadJson f;
                          Print l]
                      ++ after).
  { intros f Hf Hm.
    destruct (malformed_skipped _ json_load w f Hm) as [_ [Hv Hd]].
    split; [exact Hv|].
    destruct (run_reports _ json_load json_dump upper w f Hf)
      as [before [after Hev]].
    now exists before, (report json_load w f), after. }
  destruct (dumped_events_sorted _ json_load w sorted) as [D1 [D2 _]].
  revert Hreports. unfold plain_main, plain_run, plain_state.
  rewrite Hc, Hsorted, Hc'. unfold Run.log. cbn [fst snd events files].
  intros Hreports. rewrite <- Hcams.
  split; [reflexivity|]. split; [reflexivity|]. split; [exact Hreports|].
  exists (bundle (all_cameras json_load w)), (bundle_sorted sorted), sorted.
  rewrite !EventFacts.dumped_app, D1, D2. cbn [dumped flat_map app].
  repeat split.
  - eapply py_sorted_perm, Hsorted.
  - exists c. split; [exact Hc|].
    rewrite FsFacts.lookup_write_other by reflexivity.
    apply FsFacts.lookup_write_same.
  - exists c'. split; [exact Hc'|]. apply FsFacts.lookup_write_same.
Qed.

(** What the bundle holds once it has been handed over. *)
Lemma handed_over (w : world content) (doc : json) :
  let r := run_of stdout json_load json_dump upper w in
  In doc (dumped bundle_path (events (fst r))) ->
  doc = bundle (all_cameras json_load w)
  /\ dumped bundle_path (events (fst r)) = [doc]
  /\ opened (events (fst r)) = candidates w.
Proof.
  cbv zeta. intros Hdoc.
  destruct (run_observed _ stdout json_load json_dump upper w)
    as [_ [Hb _]].
  destruct (Hb _ Hdoc) as [Hd Ho]. rewrite Hd in Hdoc.
  destruct Hdoc as [<-|[]]. auto.
Qed.

(** A run in which no [print] raises reads every candidate and hands the
    unsorted bundle over. *)
Lemma quiet_hands_over (w : world content) :
  let r := run_of stdout json_load json_dump upper w in
  unprinted (events (fst r)) = [] ->
  dumped bundle_path (events (fst r)) = [bundle (all_cameras json_load w)]
  /\ opened (events (fst r)) = candidates w.
Proof.
  cbv zeta. intros Hq.
  assert (Hin : In (bundle (all_cameras json_load w))
                   (dumped bundle_path
                      (events (fst (run_of stdout json_load json_dump
                                      upper w))))).
  { apply EventFacts.dumped_In.
    rewrite (quiet_run _ stdout json_load json_dump upper w Hq).
    assert (Hu : In (WriteJson bundle_path
                       (bundle (all_cameras json_load w)))
                    (events_unsorted json_load w)).
    { unfold events_unsorted. right. apply in_or_app. right.
      do 3 right. now left. }
    unfold plain_run, plain_state, events_sorted, events_sorting.
    destruct (json_dump bundle_path _) as [c|c e|e];
      [destruct (py_sorted _ _ _) as [e|sorted_cameras];
       [|destruct (json_dump sorted_bundle_path _) as [c'|c' e|e]]|..];
      unfold Run.log; cbn [fst events]; rewrite ?in_app_iff; auto 6. }
  destruct (handed_over w _ Hin) as [_ [Hd Ho]]. auto.
Qed.

(** C9 (a field that is not a str).  Let a record of the unsorted bundle
    be a dict that maps 'state', 'city' or 'street' to a value that is not
    a str.  Its key is not defaulted but raises [AttributeError], while a
    record without the three fields gets the key of three upper-cased
    empty strings.  The run does not return and the process ends with
    status 1; nothing is handed over for the sorted bundle, and the sorted
    file is as it was before the run.  When the unsorted bundle has been
    written, the unsorted file holds the bundle of this run; and unless a
    [print] raises, the error is that [AttributeError], raised after the
    write and printed last.  When the write of the unsorted bundle fails,
    that failure ends the run. *)
Theorem unkeyed_record_aborts (w : world content) (doc : json)
    (records : list json) (members : list (pystr * json)) (key : pystr)
    (v : json) :
  let r := rebuild_bundles stdout json_load json_dump upper (start w) in
  let m := main stdout json_load json_dump upper (start w) in
  In doc (dumped bundle_path (events (fst r))) ->
  static_alerts doc = Some records ->
  In (JObj members) records ->
  In key [Str.lit "state"; Str.lit "city"; Str.lit "street"] ->
  Py.lookup key members = Some v ->
  (forall s, v <> JStr s) ->
  sort_key upper (JObj members) = inl AttributeError
  /\ sort_key upper (JObj []) = inr (upper [], upper [], upper [])
  /\ snd m = 1
  /\ (exists e, snd r = inl e)
  /\ dumped sorted_bundle_path (events (fst m)) = []
  /\ Fs.lookup sorted_bundle_path (files (fst m))
     = Fs.lookup sorted_bundle_path w
  /\ match json_dump bundle_path doc with
     | Written c =>
         Fs.lookup bundle_path (files (fst m)) = Some c
         /\ (unprinted (events (fst m)) = [] ->
             snd r = inl AttributeError
             /\ exists before,
                  events (fst m)
                  = before
                    ++ [WriteJson bundle_path doc;
                        Print (SavedBundle (List.length records));
                        Print SortingCameras;
                        Print (ErrorRebuilding AttributeError)])
     | Broken _ e | Refused e => snd r = inl e
     end.
Proof.
  cbv zeta. rewrite main_run, rebuild_bundles_run.
  intros Hdoc Hrec Hx Hkey Hv Hns.
  destruct (handed_over w doc Hdoc) as [-> [Hd _]].
  rewrite static_alerts_bundle in Hrec. inversion Hrec; subst records.
  pose proof (sort_key_bad_field upper members key v Hkey Hv Hns) as Hbad.
  pose proof (py_sorted_bad_record upper _ _ Hx Hbad) as Hsort.
  destruct (run_observed _ stdout json_load json_dump upper w)
    as [_ [_ [Hs [_ Hf]]]].
  assert (Hnone : dumped sorted_bundle_path
                    (events (fst (run_of stdout json_load json_dump upper w)))
                  = []).
  { destruct (dumped sorted_bundle_path _) as [|d l]; [reflexivity|].
    destruct (Hs d (or_introl eq_refl)) as [c [s' [_ [Hs' _]]]]. congruence. }
  assert (Hraised : exists e,
            snd (run_of stdout json_load json_dump upper w) = inl e).
  { destruct (snd (run_of stdout json_load json_dump upper w))
      as [e|n] eqn:Hr; [eauto|].
    apply run_returns in Hr as [_ [c [s' [c' [_ [Hs' _]]]]]]. congruence. }
  destruct (main_events _ stdout json_load json_dump upper w)
    as [Hmf [tl [Hme [_ [Hmd _]]]]].
  split; [exact Hbad|]. split; [reflexivity|]. split.
  { destruct Hraised as [e He]. rewrite main_of_run.
    destruct (run_of stdout json_load json_dump upper w) as [s [e'|n]];
      [reflexivity|discriminate]. }
  split; [exact Hraised|]. split.
  { now rewrite Hme, EventFacts.dumped_app, Hnone, Hmd. }
  rewrite Hmf, Hf. unfold left_by. rewrite Hd, Hnone. split.
  { destruct (json_dump bundle_path _); auto.
    all: now apply FsFacts.lookup_write_other. }
  destruct (json_dump bundle_path (bundle (all_cameras json_load w)))
    as [c|c e|e] eqn:Hw.
  - split; [apply FsFacts.lookup_write_same|]. intros Hq.
    assert (Hqr : unprinted
                    (events (fst (run_of stdout json_load json_dump upper w)))
                  = []).
    { rewrite Hme in Hq. now apply EventFacts.quiet_app in Hq as [Hq _]. }
    rewrite (quiet_main _ stdout json_load json_dump upper w Hq).
    rewrite (quiet_run _ stdout json_load json_dump upper w Hqr).
    unfold plain_main, plain_run, plain_state. rewrite Hw, Hsort.
    unfold Run.log. cbn [fst snd events files].
    split; [reflexivity|].
    unfold events_sorting, events_unsorted.
    exists (Print (FoundFiles (List.length (regional_files w)))
            :: loop_events json_load w (candidates w)
            ++ [Print (TotalCollected
                         (List.length (all_cameras json_load w)));
                Print (RegionsProcessed (regions_processed json_load w));
                Print (WritingFile bundle_path)]).
    cbn [app]. rewrite <- !app_assoc. reflexivity.
  - apply (run_write_fails _ stdout json_load json_dump upper w
             bundle_path (bundle (all_cameras json_load w)) e).
    + apply EventFacts.dumped_In. rewrite Hd. now left.
    + right. now exists c.
  - apply (run_write_fails _ stdout json_load json_dump upper w
             bundle_path (bundle (all_cameras json_load w)) e).
    + apply EventFacts.dumped_In. rewrite Hd. now left.
    + now left.
Qed.

(** C10, as the code has it.  When a candidate file parses and has
    [feeds[0].staticAlerts], that value is handed to [extend] without
    being checked to be a list.  If it can be iterated (a list, a str or
    a dict) each of its elements becomes a record of the unsorted bundle
    -- for a str, each character as a str of length one -- the region is
    recorded as processed and, the file read, line 45 is reached.  If it
    cannot (a number, a boolean, null) [extend] raises [TypeError], the
    handler of the file calls [print] on it, nothing is appended and the
    region is not recorded.  In a run in which no [print] raises the file
    is read, its line is printed and the bundle is handed over. *)
Theorem alerts_extended_unchecked (w : world content) (f : pystr)
    (c : content) (data cameras : json) :
  let r := rebuild_bundles stdout json_load json_dump upper (start w) in
  let evs := events (fst r) in
  In f (candidates w) ->
  Fs.lookup f w = Some c ->
  json_load c = inr data ->
  alerts_of data = inr cameras ->
  (forall s, cameras = JStr s ->
             Py.iter cameras = inr (List.map (fun ch => JStr [ch]) s))
  /\ match Py.iter cameras with
     | inr items =>
         extracted json_load w f = items
         /\ In (region_name_of f) (regions_processed json_load w)
         /\ (In f (opened evs) ->
             reached (AddedCameras (List.length items) (region_name_of f))
                     evs)
         /\ (forall doc, In doc (dumped bundle_path evs) ->
             exists before after,
               dumped bundle_path evs = [doc]
               /\ static_alerts doc = Some (before ++ items ++ after))
         /\ (unprinted evs = [] ->
             In (Print (AddedCameras (List.length items) (region_name_of f)))
                evs
             /\ exists doc before after,
                  dumped bundle_path evs = [doc]
                  /\ static_alerts doc = Some (before ++ items ++ after))
     | inl e =>
         e = TypeError
         /\ extracted json_load w f = []
         /\ processed json_load w f = false
         /\ (In f (opened evs) ->
             reached (ErrorLoading (region_name_of f) TypeError) evs)
         /\ (unprinted evs = [] ->
             In (Print (ErrorLoading (region_name_of f) TypeError)) evs)
     end.
Proof.
  cbv zeta. rewrite rebuild_bundles_run. intros Hf Hl Hload Ha.
  split; [intros s ->; reflexivity|].
  destruct (run_observed _ stdout json_load json_dump upper w)
    as [_ [_ [_ [Hrep _]]]].
  pose proof (quiet_hands_over w) as Hquiet. cbv zeta in Hquiet.
  assert (Hr : In f (opened (events (fst (run_of stdout json_load json_dump
                                            upper w)))) ->
               reached (report json_load w f)
                 (events (fst (run_of stdout json_load json_dump upper w))))
    by apply Hrep.
  revert Hr.
  unfold report, extracted, processed, regions_processed, loaded, Exc.bind.
  rewrite Hl, Hload, (ExtractFacts.extract_alerts _ _ Ha).
  destruct (Py.iter cameras) as [e|items] eqn:Hit.
  - rewrite (ExtractFacts.iter_raises _ _ Hit). intros Hr.
    repeat split; auto.
    intros Hq. apply (EventFacts.reached_quiet _ _ Hq), Hr.
    destruct (Hquiet Hq) as [_ ->]. exact Hf.
  - intros Hr.
    assert (Hdocs : forall doc,
              In doc (dumped bundle_path
                        (events (fst (run_of stdout json_load json_dump
                                        upper w)))) ->
              exists before after,
                dumped bundle_path
                  (events (fst (run_of stdout json_load json_dump upper w)))
                = [doc]
                /\ static_alerts doc = Some (before ++ items ++ after)).
    { intros doc Hdoc. destruct (handed_over w doc Hdoc) as [-> [Hd _]].
      pose proof Hf as Hsplit. apply in_split in Hsplit as [fs1 [fs2 Hs]].
      exists (flat_map (extracted json_load w) fs1),
        (flat_map (extracted json_load w) fs2).
      split; [exact Hd|]. rewrite static_alerts_bundle. f_equal.
      unfold all_cameras. rewrite Hs, flat_map_app. cbn [flat_map].
      f_equal. f_equal. unfold extracted, loaded, Exc.bind.
      now rewrite Hl, Hload, (ExtractFacts.extract_alerts _ _ Ha), Hit. }
    split; [reflexivity|]. split; [|split; [exact Hr|split; [exact Hdocs|]]].
    + apply in_map, filter_In. split; [assumption|].
      unfold processed, loaded, Exc.bind.
      now rewrite Hl, Hload, (ExtractFacts.extract_alerts _ _ Ha), Hit.
    + intros Hq. destruct (Hquiet Hq) as [Hd Ho]. split.
      * apply (EventFacts.reached_quiet _ _ Hq), Hr. now rewrite Ho.
      * destruct (Hdocs (bundle (all_cameras json_load w)))
          as [before [after H]]; [rewrite Hd; now left|].
        now exists (bundle (all_cameras json_load w)), before, after.
Qed.

End Faults.

(** * The properties on the small directory *)

Module DemoFacts.

Import Demo.

(** Line 31 on two names, line 19 and line 22 on a few. *)
Example region_names :
  region_name_of (Str.lit "Camera_Database_TX.json") = Str.lit "TX"
  /\ region_name_of (Str.lit "Camera_Database_Camera_Database_TX.v2.json")
     = Str.lit "TX.v2".
Proof. split; reflexivity. Qed.

Example pattern_and_filter :
  Str.fnmatch (Str.lit "Camera_Database_*.json")
    (Str.lit "Camera_Database_.json") = true
  /\ Str.fnmatch (Str.lit "Camera_Database_*.json")
       (Str.lit "Camera_Database_TX.json.bak") = false
  /\ Str.fnmatch (Str.lit "Camera_Database_*.json")
       (Str.lit "camera_database_tx.json") = false
  /\ Str.contains (Str.lit "Bundle") sorted_bundle_path = true
  /\ Str.contains (Str.lit "Bundle") (Str.lit "Camera_Database_bundle.json")
     = false.
Proof. repeat split. Qed.

(** When the directory cannot be written to, the run ends at the first
    write, the error is printed last and the status is 1. *)
Example run_refused :
  snd (main stdout json_load json_dump_refused upper (start dir)) = 1
  /\ last (events (fst (main stdout json_load json_dump_refused upper
                          (start dir))))
          (Print RebuildComplete)
     = Print (ErrorRebuilding OSError).
Proof. split; reflexivity. Qed.

(** What the run on [dir] writes: CA before TX by file name, then the
    stable order by upper-cased key. *)
Example run_dir :
  snd (run dir) = inr 4
  /\ dumped bundle_path (events (fst (run dir)))
     = [bundle [fresno; dallas; austin; AUSTIN]]
  /\ dumped sorted_bundle_path (events (fst (run dir)))
     = [bundle_sorted [fresno; austin; AUSTIN; dallas]]
  /\ opened (events (fst (run dir)))
     = [Str.lit "Camera_Database_CA.json"; Str.lit "Camera_Database_NV.json";
        Str.lit "Camera_Database_TX.json"]
  /\ unprinted (events (fst (process dir))) = []
  /\ snd (process dir) = 0.
Proof. vm_compute. repeat split. Qed.

(** A regional file whose name is not UTF-8, on a UTF-8 console: the
    [print] of line 32 raises for that file, outside the [try].  The run
    ends in the loop after reading two files of four, nothing is handed
    to [json.dump], the directory is as it was and the status is 1. *)
Example run_unprintable :
  let m := main Demo2.stdout_utf8 json_load json_dump upper
             (start Demo2.dir_bytes) in
  snd m = 1
  /\ candidates Demo2.dir_bytes
     = [Str.lit "Camera_Database_CA.json"; Str.lit "Camera_Database_NV.json";
        Demo2.quebec_json; Str.lit "Camera_Database_TX.json"]
  /\ opened (events (fst m))
     = [Str.lit "Camera_Database_CA.json"; Str.lit "Camera_Database_NV.json"]
  /\ dumped bundle_path (events (fst m)) = []
  /\ unprinted (events (fst m))
     = [Loading (region_name_of Demo2.quebec_json)]
  /\ last (events (fst m)) (Print RebuildComplete)
     = Print (ErrorRebuilding UnicodeEncodeError)
  /\ files (fst m) = Demo2.dir_bytes.
Proof. vm_compute. repeat split. Qed.

Lemma unsorted_bundle_conservation_witness :
  exists records,
    dumped bundle_path (events (fst (run dir)))
    = [bundle [fresno; dallas; austin; AUSTIN]]
    /\ static_alerts (bundle [fresno; dallas; austin; AUSTIN]) = Some records
    /\ records
       = List.concat (List.map (contribution json_load dir)
                        (opened (events (fst (run dir)))))
    /\ List.length records
       = list_sum
           (List.map (fun f => List.length (contribution json_load dir f))
              (filter (has_alerts json_load dir)
                 (opened (events (fst (run dir))))))
    /\ match snd (run dir) with
       | inr camera_count => camera_count = List.length records
       | inl _ => True
       end
    /\ opened (events (fst (run dir))) = candidates dir.
Proof.
  apply (unsorted_bundle_conservation content stdout json_load json_dump
           upper dir (bundle [fresno; dallas; austin; AUSTIN])).
  vm_compute. left. reflexivity.
Defined.

Lemma sorted_bundle_permutation_witness :
  In (bundle_sorted [fresno; austin; AUSTIN; dallas])
     (dumped sorted_bundle_path (events (fst (run dir))))
  /\ exists doc unsorted sorted,
       dumped bundle_path (events (fst (run dir))) = [doc]
       /\ static_alerts doc = Some unsorted
       /\ static_alerts (bundle_sorted [fresno; austin; AUSTIN; dallas])
          = Some sorted
       /\ Permutation unsorted sorted.
Proof.
  split.
  - vm_compute. left. reflexivity.
  - apply (sorted_bundle_permutation content stdout json_load json_dump
             upper dir (bundle_sorted [fresno; austin; AUSTIN; dallas])).
    vm_compute. left. reflexivity.
Defined.

Lemma sorted_bundle_ordered_witness :
  sortkey_le (upper_key upper fresno) (upper_key upper austin).
Proof.
  apply (sorted_bundle_ordered content stdout json_load json_dump upper dir
           (bundle_sorted [fresno; austin; AUSTIN; dallas])
           [] [AUSTIN; dallas] fresno austin).
  - vm_compute. left. reflexivity.
  - reflexivity.
Defined.

Lemma sorted_bundle_stable_witness :
  exists doc unsorted,
    dumped bundle_path (events (fst (run dir))) = [doc]
    /\ static_alerts doc = Some unsorted
    /\ (forall k,
          filter (fun x => sortkey_eqb k (upper_key upper x))
                 [fresno; austin; AUSTIN; dallas]
          = filter (fun x => sortkey_eqb k (upper_key upper x)) unsorted)
    /\ (forall l1 l2 l3 a b,
          [fresno; austin; AUSTIN; dallas] = l1 ++ a :: l2 ++ b :: l3 ->
          upper_key upper a = upper_key upper b ->
          exists m1 m2 m3, unsorted = m1 ++ a :: m2 ++ b :: m3)
    /\ (forall m1 m2 m3 a b,
          unsorted = m1 ++ a :: m2 ++ b :: m3 ->
          upper_key upper a = upper_key upper b ->
          exists l1 l2 l3,
            [fresno; austin; AUSTIN; dallas] = l1 ++ a :: l2 ++ b :: l3).
Proof.
  apply (sorted_bundle_stable content stdout json_load json_dump upper dir
           (bundle_sorted [fresno; austin; AUSTIN; dallas])).
  - vm_compute. left. reflexivity.
  - reflexivity.
Defined.

Lemma fault_isolation_witness :
  snd (run dir) = inr 4
  /\ snd (process dir) = 0
  /\ In (Print (ErrorLoading (Str.lit "NV") JSONDecodeError))
        (events (fst (run dir))).
Proof.
  destruct (fault_isolation content stdout json_load json_dump upper dir)
    as [Hr [Hm [Hskip _]]].
  - intros f Hf. vm_compute in Hf.
    destruct Hf as [<-|[<-|[<-|[]]]].
    + right. vm_compute. discriminate.
    + left. vm_compute. reflexivity.
    + right. vm_compute. discriminate.
  - vm_compute. reflexivity.
  - intros path doc _. exists (inr doc). reflexivity.
  - split; [exact Hr|]. split; [exact Hm|].
    vm_compute. do 6 right. left. reflexivity.
Defined.

Lemma rebuild_deterministic_witness :
  same_outcome (run dir) (run dir_reversed)
  /\ same_outcome (run dir) (run (files (fst (run dir))))
  /\ files (fst (run (files (fst (run dir))))) = files (fst (run dir))
  /\ Sorted lex_le (opened (events (fst (run dir))))
  /\ opened (events (fst (run dir))) = opened (events (fst (run dir_reversed))).
Proof.
  apply (rebuild_deterministic content stdout json_load json_dump upper
           dir dir_reversed).
  - exact (Permutation_rev (regional_files dir)).
  - intros f Hf. vm_compute in Hf.
    destruct Hf as [<-|[<-|[<-|[]]]]; vm_compute; reflexivity.
Defined.

Lemma unkeyed_record_aborts_witness :
  snd (process dir_bad_city) = 1
  /\ snd (run dir_bad_city) = inl AttributeError
  /\ Fs.lookup sorted_bundle_path (files (fst (process dir_bad_city)))
     = Some (inr (bundle_sorted [fresno])).
Proof.
  pose proof
    (unkeyed_record_aborts content stdout json_load json_dump upper
       dir_bad_city
       (bundle [dallas; JObj [(Str.lit "state", JStr (Str.lit "TX"));
                              (Str.lit "city", JInt 7)]])
       [dallas; JObj [(Str.lit "state", JStr (Str.lit "TX"));
                      (Str.lit "city", JInt 7)]]
       [(Str.lit "state", JStr (Str.lit "TX")); (Str.lit "city", JInt 7)]
       (Str.lit "city") (JInt 7)) as H.
  cbv zeta in H. destruct H as [_ [_ [Hm [_ [_ [Hs Hw]]]]]].
  - vm_compute. left. reflexivity.
  - reflexivity.
  - right. left. reflexivity.
  - right. left. reflexivity.
  - reflexivity.
  - intros s. discriminate.
  - split; [exact Hm|]. cbn [json_dump] in Hw. destruct Hw as [_ Hq].
    split; [apply Hq; vm_compute; reflexivity|].
    unfold process. rewrite Hs. reflexivity.
Defined.

Lemma alerts_extended_unchecked_witness :
  extracted json_load dir_text ab_json
  = [JStr (Str.lit "a"); JStr (Str.lit "b")]
  /\ In (Str.lit "AB") (regions_processed json_load dir_text)
  /\ reached (AddedCameras 2 (Str.lit "AB")) (events (fst (run dir_text))).
Proof.
  pose proof
    (alerts_extended_unchecked content stdout json_load json_dump upper
       dir_text ab_json (inr (dataset (JStr (Str.lit "ab"))))
       (dataset (JStr (Str.lit "ab"))) (JStr (Str.lit "ab"))) as H.
  cbv zeta in H. destruct H as [_ H].
  - vm_compute. left. reflexivity.
  - reflexivity.
  - reflexivity.
  - reflexivity.
  - cbn [Py.iter] in H. destruct H as [He [Hr [Hp _]]].
    split; [exact He|]. split; [exact Hr|]. apply Hp.
    vm_compute. left. reflexivity.
Defined.

(** One malformed file among valid ones, and the run does not complete.
    With a valid regional file whose name is not UTF-8, on a UTF-8
    console, the [print] of line 32 raises outside the [try]: two files
    have been read, no bundle is written and the status is 1.  In a
    directory that cannot be written to, the first [open(..., 'w')]
    raises: every file is read and every line printed, and the status
    is 1. *)
Lemma valid_files_run_fails :
  (forall f, In f (candidates Demo2.dir_bytes) ->
             malformed json_load Demo2.dir_bytes f = true
             \/ valid_records json_load Demo2.dir_bytes f <> None)
  /\ filter (malformed json_load Demo2.dir_bytes)
       (candidates Demo2.dir_bytes)
     = [Str.lit "Camera_Database_NV.json"]
  /\ (let m := main Demo2.stdout_utf8 json_load json_dump upper
                 (start Demo2.dir_bytes) in
      snd m = 1
      /\ opened (events (fst m))
         = [Str.lit "Camera_Database_CA.json";
            Str.lit "Camera_Database_NV.json"]
      /\ unprinted (events (fst m))
         = [Loading (region_name_of Demo2.quebec_json)]
      /\ dumped bundle_path (events (fst m)) = []
      /\ files (fst m) = Demo2.dir_bytes)
  /\ (let m := main stdout json_load json_dump_refused upper
                 (start Demo2.dir_bytes) in
      snd m = 1
      /\ unprinted (events (fst m)) = []
      /\ files (fst m) = Demo2.dir_bytes)
  /\ ~ (forall (console : list event -> line -> option exn)
               (dump : pystr -> json -> write_result content)
               (w : world content),
          (forall f, In f (candidates w) ->
                     malformed json_load w f = true
                     \/ valid_records json_load w f <> None) ->
          snd (main console json_load dump upper (start w)) = 0).
Proof.
  assert (Hdir : forall f, In f (candidates Demo2.dir_bytes) ->
                           malformed json_load Demo2.dir_bytes f = true
                           \/ valid_records json_load Demo2.dir_bytes f
                              <> None).
  { intros f Hf. vm_compute in Hf.
    destruct Hf as [<-|[<-|[<-|[<-|[]]]]].
    - right. vm_compute. discriminate.
    - left. vm_compute. reflexivity.
    - right. vm_compute. discriminate.
    - right. vm_compute. discriminate. }
  split; [exact Hdir|]. split; [reflexivity|].
  split; [vm_compute; repeat split|]. split; [vm_compute; repeat split|].
  intros H.
  specialize (H Demo2.stdout_utf8 json_dump Demo2.dir_bytes Hdir).
  vm_compute in H. discriminate.
Qed.

(** [feeds[0].staticAlerts] present and a number: the file is a
    candidate, [extend] raises, the file is skipped; so not every present
    value is extended with. *)
Lemma number_alerts_skipped :
  In ab_json (candidates dir_number)
  /\ alerts_in json_load dir_number ab_json = Some (JInt 5)
  /\ extracted json_load dir_number ab_json = []
  /\ processed json_load dir_number ab_json = false
  /\ regions_processed json_load dir_number = []
  /\ In (Print (ErrorLoading (Str.lit "AB") TypeError))
        (events (fst (run dir_number)))
  /\ ~ (forall data cameras,
          alerts_of data = inr cameras ->
          exists items n, extract data = inr (Extracted items n)).
Proof.
  repeat split; try reflexivity.
  - vm_compute. left. reflexivity.
  - vm_compute. do 3 right. left. reflexivity.
  - intros H.
    destruct (H (dataset (JInt 5)) (JInt 5) eq_refl) as [items [n Hx]].
    discriminate.
Qed.

End DemoFacts.

(** * Further properties of the run *)

(** ** What a run does to the directory *)

Module DirFacts.

(** Writing [p] keeps every name and adds at most [p]. *)
Lemma names_write {content : Type} (p n : pystr) (c : content)
    (w : world content) :
  In n (names (Fs.write p c w)) <-> In n (names w) \/ n = p.
Proof.
  unfold names. induction w as [|[m c'] w IH]; cbn.
  - intuition.
  - destruct (Str.eqb p m) eqn:E; cbn.
    + apply StrFacts.str_eqb_eq in E. subst m. intuition.
    + rewrite IH. intuition.
Qed.

(** Writing keeps the names distinct. *)
Lemma NoDup_names_write {content : Type} (p : pystr) (c : content)
    (w : world content) :
  NoDup (names w) -> NoDup (names (Fs.write p c w)).
Proof.
  unfold names. induction w as [|[m c'] w IH]; cbn; intros Hnd.
  - repeat constructor. intros [].
  - inversion Hnd as [|? ? Hm Hw]; subst.
    destruct (Str.eqb p m) eqn:E; cbn.
    + now constructor.
    + constructor; [|now apply IH].
      intros Hin. apply (names_write p m c w) in Hin as [Hin | ->].
      * now apply Hm.
      * now rewrite StrFacts.str_eqb_refl in E.
Qed.

(** What one write to a bundle leaves in place. *)
Lemma write_frame {content : Type} (q : pystr) (c : content)
    (w w' : world content) :
  q = bundle_path \/ q = sorted_bundle_path ->
  ((forall p, p <> bundle_path -> p <> sorted_bundle_path ->
              Fs.lookup p w' = Fs.lookup p w)
   /\ (forall n, In n (names w) -> In n (names w'))
   /\ (forall n, In n (names w') ->
                 In n (names w) \/ n = bundle_path \/ n = sorted_bundle_path)
   /\ (NoDup (names w) -> NoDup (names w'))) ->
  (forall p, p <> bundle_path -> p <> sorted_bundle_path ->
             Fs.lookup p (Fs.write q c w') = Fs.lookup p w)
  /\ (forall n, In n (names w) -> In n (names (Fs.write q c w')))
  /\ (forall n, In n (names (Fs.write q c w')) ->
                In n (names w) \/ n = bundle_path \/ n = sorted_bundle_path)
  /\ (NoDup (names w) -> NoDup (names (Fs.write q c w'))).
Proof.
  intros Hq [H1 [H2 [H3 H4]]]. split; [|split; [|split]].
  - intros p Hb Hs. rewrite FsFacts.lookup_write_other; [now apply H1|].
    apply StrFacts.str_eqb_neq. destruct Hq; congruence.
  - intros n Hn. apply names_write. left. now apply H2.
  - intros n Hn. apply names_write in Hn as [Hn| ->]; [now apply H3|].
    destruct Hq; auto.
  - intros Hnd. now apply NoDup_names_write, H4.
Qed.

End DirFacts.

Section Directory.

Variable content : Type.
Variable stdout : list event -> line -> option exn.
Variable json_load : content -> exn + json.
Variable json_dump : pystr -> json -> write_result content.
Variable upper : pystr -> pystr.

(** The directory the process leaves is the one [rebuild_bundles]
    leaves. *)
Lemma main_files (w : world content) :
  files (fst (main stdout json_load json_dump upper (start w)))
  = left_by json_dump w
      (events (fst (run_of stdout json_load json_dump upper w))).
Proof.
  rewrite main_run.
  destruct (main_events _ stdout json_load json_dump upper w) as [-> _].
  now destruct (run_observed _ stdout json_load json_dump upper w)
    as [_ [_ [_ [_ ->]]]].
Qed.

(** What the process reads and hands over is what [rebuild_bundles]
    does. *)
Lemma main_observed (w : world content) :
  let r := run_of stdout json_load json_dump upper w in
  let m := main stdout json_load json_dump upper (start w) in
  opened (events (fst m)) = opened (events (fst r))
  /\ (forall p, dumped p (events (fst m)) = dumped p (events (fst r)))
  /\ (forall l, reached l (events (fst r)) -> reached l (events (fst m)))
  /\ (forall l, reached l (events (fst m)) ->
        reached l (events (fst r))
        \/ (exists n, l = Success n) \/ exists e, l = ErrorRebuilding e).
Proof.
  cbv zeta. rewrite main_run.
  destruct (main_events _ stdout json_load json_dump upper w)
    as [_ [tl [-> [Ho [Hd Hl]]]]].
  split; [now rewrite EventFacts.opened_app, Ho, app_nil_r|].
  split; [intros p; now rewrite EventFacts.dumped_app, Hd, app_nil_r|].
  split.
  - intros l H. apply EventFacts.reached_app. now left.
  - intros l H. apply EventFacts.reached_app in H as [H|[ev [Hin Hp]]];
      [now left|]. right. now apply (Hl l ev).
Qed.

(** When an exception leaves [rebuild_bundles], the process calls [print]
    on it, last, and ends with status 1. *)
Lemma main_raised (w : world content) (e : exn) :
  let r := run_of stdout json_load json_dump upper w in
  let m := main stdout json_load json_dump upper (start w) in
  snd r = inl e ->
  snd m = 1
  /\ exists last,
       events (fst m) = events (fst r) ++ [last]
       /\ printing (ErrorRebuilding e) last.
Proof.
  cbv zeta. rewrite main_run, main_of_run.
  destruct (run_of stdout json_load json_dump upper w) as [s [e'|n]];
    cbn [fst snd]; [|discriminate].
  intros H. inversion H; subst e'. split; [reflexivity|].
  unfold say. destruct (stdout (events s) (ErrorRebuilding e)) as [e'|];
    cbn [fst Run.log events]; eexists; (split; [reflexivity|]);
    [right; now exists e' | now left].
Qed.

(** The lines after the writes are reached only when the write was
    made. *)
Lemma run_reached (w : world content) :
  let r := run_of stdout json_load json_dump upper w in
  (reached SortingCameras (events (fst r)) ->
   exists c,
     json_dump bundle_path (bundle (all_cameras json_load w)) = Written c)
  /\ (forall n, reached (SavedSorted n) (events (fst r)) ->
      exists sorted_cameras c',
        py_sorted sortkey_ltb (sort_key upper) (all_cameras json_load w)
        = inr sorted_cameras
        /\ json_dump sorted_bundle_path (bundle_sorted sorted_cameras)
           = Written c').
Proof.
  cbv zeta.
  destruct (run_stages _ stdout json_load json_dump upper w)
    as [s1 [r1 [Hw [_ [_ [_ [Hl [_ ->]]]]]]]].
  assert (Hhead : forall l, reached l (events s1) ->
            l = FoundFiles (List.length (regional_files w)) \/ loop_line l).
  { intros l [ev [Hin Hp]]. now apply (Hl l ev). }
  destruct r1 as [e1|].
  { cbn [fst]. split; [intros H|intros n H];
      apply Hhead in H as [H|H]; discriminate || now destruct H. }
  destruct s1 as [w1 evs1 c1 r1]. cbn [files events] in *. subst w1.
  unfold tail_script.
  destruct (py_sorted sortkey_ltb (sort_key upper) (all_cameras json_load w))
    as [e1|sorted_cameras] eqn:Hsort;
    follow stdout json_dump; simpl_state;
    (split; [intros H|intros n H]);
    (apply EventFacts.reached_app in H as [H|[ev [Hin Hp]]];
     [apply Hhead in H as [H|H]; discriminate || now destruct H|]);
    cbn [In] in Hin;
    repeat match type of Hin with
           | _ \/ _ => destruct Hin as [Hin|Hin]
           | False => destruct Hin
           end;
    subst ev; (destruct Hp as [Hp|[e' Hp]]; inversion Hp); eauto.
Qed.

(** X1 (frame).  Whichever way the process ends, every file other than
    the two bundles holds afterwards the bytes it held before, no name
    leaves the directory, the only names that can be new are those of the
    two bundles, and names that were distinct stay distinct. *)
Theorem only_bundles_touched (w : world content) :
  let w' := files (fst (main stdout json_load json_dump upper (start w))) in
  (forall p, p <> bundle_path -> p <> sorted_bundle_path ->
             Fs.lookup p w' = Fs.lookup p w)
  /\ (forall n, In n (names w) -> In n (names w'))
  /\ (forall n, In n (names w') ->
                In n (names w) \/ n = bundle_path \/ n = sorted_bundle_path)
  /\ (NoDup (names w) -> NoDup (names w')).
Proof.
  cbv zeta. rewrite main_files.
  assert (H0 : (forall p, p <> bundle_path -> p <> sorted_bundle_path ->
                          Fs.lookup p w = Fs.lookup p w)
               /\ (forall n, In n (names w) -> In n (names w))
               /\ (forall n, In n (names w) ->
                     In n (names w) \/ n = bundle_path
                     \/ n = sorted_bundle_path)
               /\ (NoDup (names w) -> NoDup (names w))) by auto.
  destruct (LeftFacts.left_by_cases json_dump w
              (events (fst (run_of stdout json_load json_dump upper w))))
    as [->|[[c ->]|[[c' ->]|[c [c' ->]]]]].
  - exact H0.
  - apply DirFacts.write_frame; auto.
  - apply DirFacts.write_frame; auto.
  - apply DirFacts.write_frame; auto. apply DirFacts.write_frame; auto.
Qed.

(** X2 (the first write cannot be opened).  When [open] fails on the
    unsorted bundle, the directory is left exactly as it was, the sort is
    never reached, nothing is handed to [json.dump] for the sorted bundle,
    and the process calls [print] on that error, last, and ends with
    status 1; the error is printed if no [print] of the process raises. *)
Theorem first_write_refused (w : world content) (doc : json) (e : exn) :
  let m := main stdout json_load json_dump upper (start w) in
  In doc (dumped bundle_path (events (fst m))) ->
  json_dump bundle_path doc = Refused e ->
  files (fst m) = w
  /\ snd m = 1
  /\ ~ reached SortingCameras (events (fst m))
  /\ dumped sorted_bundle_path (events (fst m)) = []
  /\ exists before last,
       events (fst m) = before ++ [WriteJson bundle_path doc; last]
       /\ printing (ErrorRebuilding e) last
       /\ (unprinted (events (fst m)) = [] ->
           last = Print (ErrorRebuilding e)).
Proof.
  cbv zeta. intros Hdoc Href.
  destruct (main_observed w) as [_ [Hmd [_ Hmr]]].
  rewrite Hmd in Hdoc.
  destruct (handed_over _ stdout json_load json_dump upper w doc Hdoc)
    as [-> [Hd _]].
  destruct (run_observed _ stdout json_load json_dump upper w)
    as [_ [_ [Hs _]]].
  destruct (run_reached w) as [Hsorting _].
  assert (Hnone : dumped sorted_bundle_path
                    (events (fst (run_of stdout json_load json_dump upper w)))
                  = []).
  { destruct (dumped sorted_bundle_path _) as [|d l]; [reflexivity|].
    destruct (Hs d (or_introl eq_refl)) as [c [s' [Hc _]]]. congruence. }
  destruct (run_write_fails _ stdout json_load json_dump upper w
              bundle_path (bundle (all_cameras json_load w)) e)
    as [Hr [before Hev]].
  { apply EventFacts.dumped_In. rewrite Hd. now left. }
  { now left. }
  destruct (main_raised w e Hr) as [Hm [last [Hme Hp]]].
  split; [|split; [exact Hm|split; [|split]]].
  - rewrite main_files. unfold left_by. now rewrite Hd, Hnone, Href.
  - intros H. apply Hmr in H as [H|[[n H]|[e' H]]]; try discriminate.
    destruct (Hsorting H) as [c Hc]. congruence.
  - now rewrite Hmd.
  - exists before, last. split; [|split; [exact Hp|]].
    + now rewrite Hme, Hev, <- app_assoc.
    + intros Hq. apply (EventFacts.printing_quiet _ _ _ Hq); [|exact Hp].
      rewrite Hme. apply in_or_app. right. now left.
Qed.

End Directory.
(** ** What a run prints when no [print] raises *)

Section Console.

Variable content : Type.
Variable json_load : content -> exn + json.
Variable json_dump : pystr -> json -> write_result content.
Variable upper : pystr -> pystr.

(** [len(cameras)] of line 45 is the number of records appended. *)
Lemma extracted_count (data : json) (items : list json) (n : nat) :
  extract data = inr (Extracted items n) -> n = List.length items.
Proof.
  intros H. destruct (alerts_of data) as [e|cameras] eqn:Ha.
  - now destruct (ExtractFacts.extract_no_alerts _ _ Ha items n).
  - rewrite (ExtractFacts.extract_alerts _ _ Ha) in H.
    destruct (Py.iter cameras); inversion H; reflexivity.
Qed.

Lemma report_added (w : world content) (f : pystr) (evs : list event) :
  added_counts (Print (report json_load w f) :: evs)
  = (if processed json_load w f
     then [List.length (extracted json_load w f)] else [])
    ++ added_counts evs
  /\ added_regions (Print (report json_load w f) :: evs)
     = (if processed json_load w f then [region_name_of f] else [])
       ++ added_regions evs.
Proof.
  unfold report, processed, extracted, loaded, Exc.bind.
  destruct (Fs.lookup f w) as [c|]; [|split; reflexivity].
  destruct (json_load c) as [e|data]; [split; reflexivity|].
  destruct (extract data) as [e|[items n| |]] eqn:Hx; try (split; reflexivity).
  cbn. now rewrite (extracted_count _ _ _ Hx).
Qed.

Lemma added_loop_events (w : world content) (fs : list pystr) :
  added_counts (loop_events json_load w fs)
  = List.map (fun f => List.length (extracted json_load w f))
      (filter (processed json_load w) fs)
  /\ added_regions (loop_events json_load w fs)
     = List.map region_name_of (filter (processed json_load w) fs).
Proof.
  induction fs as [|f fs [IH1 IH2]]; [split; reflexivity|].
  destruct (report_added w f (loop_events json_load w fs)) as [H1 H2].
  cbn [loop_events flat_map app filter].
  fold (loop_events json_load w fs).
  change (added_counts (Print (Loading (region_name_of f)) :: ReadJson f
                        :: ?l)) with (added_counts l).
  change (added_regions (Print (Loading (region_name_of f)) :: ReadJson f
                         :: ?l)) with (added_regions l).
  rewrite H1, H2, IH1, IH2.
  destruct (processed json_load w f); split; reflexivity.
Qed.

(** The lines of line 45 of a whole run in which no [print] raises. *)
Lemma run_added (w : world content) :
  let evs := events (fst (plain_main json_load json_dump upper w)) in
  added_counts evs
  = List.map (fun f => List.length (extracted json_load w f))
      (filter (processed json_load w) (candidates w))
  /\ added_regions evs = regions_processed json_load w.
Proof.
  cbv zeta. unfold plain_main.
  destruct (added_loop_events w (candidates w)) as [A1 A2].
  assert (U : added_counts (events_unsorted json_load w)
              = List.map (fun f => List.length (extracted json_load w f))
                  (filter (processed json_load w) (candidates w))
              /\ added_regions (events_unsorted json_load w)
                 = regions_processed json_load w).
  { unfold events_unsorted, added_counts, added_regions.
    cbn [flat_map app]. rewrite !flat_map_app.
    fold (added_counts (loop_events json_load w (candidates w))).
    fold (added_regions (loop_events json_load w (candidates w))).
    rewrite A1, A2. cbn. rewrite !app_nil_r. split; reflexivity. }
  destruct U as [U1 U2].
  unfold plain_run, plain_state, Run.log.
  destruct (json_dump bundle_path _) as [c|c e|e]; cbn [fst snd events files].
  2,3: unfold added_counts, added_regions; rewrite !flat_map_app;
       fold (added_counts (events_unsorted json_load w));
       fold (added_regions (events_unsorted json_load w));
       rewrite U1, U2; cbn; rewrite !app_nil_r; split; reflexivity.
  destruct (py_sorted _ _ _) as [e|sorted_cameras];
    cbn [fst snd events files].
  - unfold events_sorting, added_counts, added_regions.
    rewrite !flat_map_app.
    fold (added_counts (events_unsorted json_load w)).
    fold (added_regions (events_unsorted json_load w)).
    rewrite U1, U2. cbn. rewrite !app_nil_r. split; reflexivity.
  - destruct (json_dump sorted_bundle_path _) as [c'|c' e|e];
      cbn [fst snd events files];
      unfold events_sorted, events_sorting, added_counts, added_regions;
      rewrite !flat_map_app;
      fold (added_counts (events_unsorted json_load w));
      fold (added_regions (events_unsorted json_load w));
      rewrite U1, U2; cbn; rewrite !app_nil_r; split; reflexivity.
Qed.

(** A line of the loop is a [Loading] line or the report on a file. *)
Lemma loop_lines (w : world content) (fs : list pystr) (l : line) :
  In (Print l) (loop_events json_load w fs) ->
  exists f, l = Loading (region_name_of f) \/ l = report json_load w f.
Proof.
  unfold loop_events. intros H. apply in_flat_map in H as [f [_ H]].
  exists f. cbn in H. destruct H as [H|[H|[H|[]]]]; inversion H; auto.
Qed.

(** Every line such a process prints, by the place that prints it. *)
Lemma main_lines (w : world content) (l : line) :
  In (Print l) (events (fst (plain_main json_load json_dump upper w))) ->
  l = FoundFiles (List.length (regional_files w))
  \/ (exists f, l = Loading (region_name_of f) \/ l = report json_load w f)
  \/ l = TotalCollected (List.length (all_cameras json_load w))
  \/ l = RegionsProcessed (regions_processed json_load w)
  \/ (exists path, l = WritingFile path)
  \/ l = SavedBundle (List.length (all_cameras json_load w))
  \/ l = SortingCameras
  \/ (exists sorted_cameras,
        py_sorted sortkey_ltb (sort_key upper) (all_cameras json_load w)
        = inr sorted_cameras
        /\ l = SavedSorted (List.length sorted_cameras))
  \/ l = RebuildComplete
  \/ l = Success (List.length (all_cameras json_load w))
  \/ exists e, l = ErrorRebuilding e.
Proof.
  unfold plain_main.
  assert (U : In (Print l) (events_unsorted json_load w) ->
              l = FoundFiles (List.length (regional_files w))
              \/ (exists f, l = Loading (region_name_of f)
                            \/ l = report json_load w f)
              \/ l = TotalCollected (List.length (all_cameras json_load w))
              \/ l = RegionsProcessed (regions_processed json_load w)
              \/ (exists path, l = WritingFile path)).
  { unfold events_unsorted. cbn [In]. rewrite in_app_iff. cbn [In].
    intros [H|[H|[H|[H|[H|[H|[]]]]]]]; try (inversion H; subst; eauto 8).
    right. left. now apply (loop_lines w (candidates w)). }
  assert (S : In (Print l) (events_sorting json_load w) ->
              In (Print l) (events_unsorted json_load w)
              \/ l = SavedBundle (List.length (all_cameras json_load w))
              \/ l = SortingCameras).
  { unfold events_sorting. rewrite in_app_iff. cbn [In].
    intros [H|[H|[H|[]]]]; try (inversion H; subst); auto. }
  unfold plain_run, plain_state, Run.log.
  destruct (json_dump bundle_path _) as [c|c e|e]; cbn [fst snd events files].
  2,3: rewrite in_app_iff; cbn [In]; intros [H|[H|[]]];
       [apply U in H; tauto | inversion H; eauto 15].
  destruct (py_sorted _ _ _) as [e|sorted_cameras] eqn:Hs;
    cbn [fst snd events files].
  - rewrite in_app_iff. cbn [In]. intros [H|[H|[]]].
    + apply S in H as [H|H]; [apply U in H|]; tauto.
    + inversion H. eauto 15.
  - assert (D : In (Print l) (events_sorted json_load w sorted_cameras) ->
                In (Print l) (events_sorting json_load w)
                \/ exists path, l = WritingFile path).
    { unfold events_sorted. rewrite in_app_iff. cbn [In].
      intros [H|[H|[H|[]]]]; try (inversion H; subst); eauto. }
    destruct (json_dump sorted_bundle_path _) as [c'|c' e|e];
      cbn [fst snd events files]; rewrite ?in_app_iff; cbn [In].
    + intros [[H|[H|[H|[]]]]|[H|[]]].
      * apply D in H as [H|H]; [|tauto].
        apply S in H as [H|H]; [apply U in H|]; tauto.
      * inversion H; subst. do 7 right. left. eauto.
      * inversion H; subst. tauto.
      * inversion H; subst. tauto.
    + intros [H|[H|[]]].
      * apply D in H as [H|H]; [|tauto].
        apply S in H as [H|H]; [apply U in H|]; tauto.
      * inversion H. eauto 15.
    + intros [H|[H|[]]].
      * apply D in H as [H|H]; [|tauto].
        apply S in H as [H|H]; [apply U in H|]; tauto.
      * inversion H. eauto 15.
Qed.

End Console.

Section ConsoleCounts.

Variable content : Type.
Variable stdout : list event -> line -> option exn.
Variable json_load : content -> exn + json.
Variable json_dump : pystr -> json -> write_result content.
Variable upper : pystr -> pystr.

(** Take a printed line back to the place that printed it. *)
Ltac line_origin H :=
  apply main_lines in H;
  repeat match type of H with
         | _ \/ _ => destruct H as [H|H]
         | exists _, _ => let x := fresh "x" in destruct H as [x H]
         | _ /\ _ => let H' := fresh "Hs" in destruct H as [H' H]
         end;
  try discriminate;
  try (unfold report in H;
       match type of H with
       | context [loaded ?jl ?w ?f] =>
           destruct (loaded jl w f) as [?|[? ?| |]]; discriminate
       end).

(** In such a process the first write is always reached. *)
Lemma main_prints_totals (w : world content) :
  let evs := events (fst (plain_main json_load json_dump upper w)) in
  In (Print (FoundFiles (List.length (regional_files w)))) evs
  /\ In (Print (TotalCollected (List.length (all_cameras json_load w)))) evs
  /\ In (Print (RegionsProcessed (regions_processed json_load w))) evs
  /\ dumped bundle_path evs = [bundle (all_cameras json_load w)]
  /\ opened evs = candidates w.
Proof.
  cbv zeta.
  assert (H : exists rest,
            events (fst (plain_main json_load json_dump upper w))
            = events_unsorted json_load w ++ rest
            /\ dumped bundle_path rest = [] /\ opened rest = []).
  { unfold plain_main, plain_run, plain_state, Run.log.
    destruct (json_dump bundle_path _) as [c|c e|e];
      cbn [fst snd events files];
      [|eexists; split; [reflexivity|split; reflexivity]..].
    destruct (py_sorted _ _ _) as [e|sorted_cameras];
      cbn [fst snd events files].
    - unfold events_sorting. rewrite <- app_assoc.
      eexists. split; [reflexivity|split; reflexivity].
    - destruct (json_dump sorted_bundle_path _) as [c'|c' e|e];
        cbn [fst snd events files]; unfold events_sorted, events_sorting;
        rewrite <- !app_assoc; eexists;
        (split; [reflexivity|split; reflexivity]). }
  destruct H as [rest [-> [Hd Ho]]].
  destruct (dumped_events_unsorted _ json_load w) as [U1 [_ U3]].
  rewrite EventFacts.dumped_app, EventFacts.opened_app, U1, U3, Hd, Ho.
  cbn [app]. rewrite app_nil_r.
  split; [|split; [|split; [|split; reflexivity]]].
  - apply in_or_app. left. unfold events_unsorted. now left.
  - apply in_or_app. left. unfold events_unsorted. right.
    apply in_or_app. right. now left.
  - apply in_or_app. left. unfold events_unsorted. right.
    apply in_or_app. right. right. now left.
Qed.

(** X3 (the counts printed).  In a process in which no [print] raises,
    the numbers printed agree with what was done: the count of the "Found"
    line is the number of files opened, the counts of the "Added" lines
    add up to the number of records of the unsorted bundle, and that
    number is the count of the "Total" line, of both "Saved" lines and of
    the final success line, whenever these are printed; the "Found" and
    the "Total" line are, in such a process. *)
Theorem printed_counts (w : world content) :
  let evs :=
    events (fst (main stdout json_load json_dump upper (start w))) in
  unprinted evs = [] ->
  exists doc records,
    dumped bundle_path evs = [doc]
    /\ static_alerts doc = Some records
    /\ list_sum (added_counts evs) = List.length records
    /\ In (Print (FoundFiles (List.length (opened evs)))) evs
    /\ In (Print (TotalCollected (List.length records))) evs
    /\ (forall n, In (Print (FoundFiles n)) evs -> n = List.length (opened evs))
    /\ (forall n, In (Print (TotalCollected n)) evs -> n = List.length records)
    /\ (forall n, In (Print (SavedBundle n)) evs -> n = List.length records)
    /\ (forall n, In (Print (SavedSorted n)) evs -> n = List.length records)
    /\ (forall n, In (Print (Success n)) evs -> n = List.length records).
Proof.
  cbv zeta. rewrite main_run. intros Hq.
  rewrite (quiet_main _ stdout json_load json_dump upper w Hq).
  destruct (main_prints_totals w) as [P1 [P2 [_ [Hd Ho]]]].
  destruct (run_added _ json_load json_dump upper w) as [A1 _].
  assert (Hlen : List.length (candidates w) = List.length (regional_files w)).
  { apply Permutation_length, py_sort_perm. }
  exists (bundle (all_cameras json_load w)), (all_cameras json_load w).
  rewrite Ho, Hlen, A1.
  split; [exact Hd|]. split; [reflexivity|]. split.
  { unfold all_cameras. symmetry.
    apply (length_flat_map_filter (extracted json_load w)).
    intros f Hf. unfold processed, extracted in *.
    destruct (loaded json_load w f) as [e|[items n| |]];
      reflexivity || discriminate. }
  split; [exact P1|]. split; [exact P2|].
  repeat split; intros n H; line_origin H;
    try (inversion H; reflexivity).
  inversion H; subst. symmetry.
  eapply Permutation_length, py_sorted_perm. eassumption.
Qed.

End ConsoleCounts.

Section ConsoleRegions.

Variable content : Type.
Variable stdout : list event -> line -> option exn.
Variable json_load : content -> exn + json.
Variable json_dump : pystr -> json -> write_result content.
Variable upper : pystr -> pystr.

(** X4 (the regions printed).  In a process in which no [print] raises,
    the "Regions processed" line is printed, once, and lists exactly the
    regions of the "Added" lines, in the order these were printed.  Every
    file read has its [Loading] line followed, the file read, by one
    line: the "Added" line with the number of records that
    [feeds[0].staticAlerts] of the file holds, or a diagnostic line, and
    then the file holds no such record. *)
Theorem printed_regions (w : world content) :
  let evs :=
    events (fst (main stdout json_load json_dump upper (start w))) in
  unprinted evs = [] ->
  In (Print (RegionsProcessed (added_regions evs))) evs
  /\ (forall regions, In (Print (RegionsProcessed regions)) evs ->
                      regions = added_regions evs)
  /\ List.length (added_regions evs) = List.length (added_counts evs)
  /\ (forall f, In f (opened evs) ->
      exists before l after,
        evs = before
              ++ [Print (Loading (region_name_of f)); ReadJson f; Print l]
              ++ after
        /\ (l = AddedCameras (List.length (contribution json_load w f))
                  (region_name_of f)
            \/ diagnostic f l /\ contribution json_load w f = [])).
Proof.
  cbv zeta. rewrite main_run. intros Hq.
  rewrite (quiet_main _ stdout json_load json_dump upper w Hq).
  destruct (main_prints_totals _ json_load json_dump upper w)
    as [_ [_ [P3 [_ Ho]]]].
  destruct (run_added _ json_load json_dump upper w) as [A1 A2].
  rewrite A1, A2, Ho. split; [exact P3|]. split; [|split].
  - intros regions H. apply main_lines in H.
    repeat match type of H with
           | _ \/ _ => destruct H as [H|H]
           | exists _, _ => let x := fresh "x" in destruct H as [x H]
           | _ /\ _ => let H' := fresh "Hs" in destruct H as [H' H]
           end;
      try discriminate; try (inversion H; reflexivity).
    unfold report in H.
    destruct (loaded json_load w x) as [?|[? ?| |]]; discriminate.
  - unfold regions_processed. now rewrite !length_map.
  - intros f Hf.
    destruct (run_reports _ json_load json_dump upper w f Hf)
      as [before [after Hev]].
    assert (Hm : exists after',
              events (fst (plain_main json_load json_dump upper w))
              = before
                ++ [Print (Loading (region_name_of f)); ReadJson f;
                    Print (report json_load w f)]
                ++ after').
    { unfold plain_main.
      destruct (plain_run json_load json_dump upper w) as [s [e|n]];
        cbn [fst events Run.log] in *; rewrite Hev; eexists;
        rewrite <- !app_assoc; reflexivity. }
    destruct Hm as [after' Hm].
    exists before, (report json_load w f), after'. split; [exact Hm|].
    rewrite <- extracted_contribution.
    unfold report, extracted, diagnostic.
    destruct (loaded json_load w f) as [e|[items n| |]] eqn:Hload.
    + right. split; [right; right; now exists e | reflexivity].
    + left. f_equal. revert Hload. unfold loaded, Exc.bind.
      destruct (Fs.lookup f w) as [c|]; [|discriminate].
      destruct (json_load c) as [e|data]; [discriminate|].
      apply extracted_count.
    + right. split; [right; now left | reflexivity].
    + right. split; [now left | reflexivity].
Qed.

(** X5 (each file read once).  In a directory whose names are distinct,
    no file is opened for reading twice in a run. *)
Theorem each_candidate_read_once (w : world content) :
  let evs :=
    events (fst (main stdout json_load json_dump upper (start w))) in
  NoDup (names w) -> NoDup (opened evs).
Proof.
  cbv zeta. intros Hnd.
  destruct (main_observed _ stdout json_load json_dump upper w) as [-> _].
  destruct (run_observed _ stdout json_load json_dump upper w)
    as [[rest Ho] _].
  assert (Hc : NoDup (candidates w)).
  { unfold candidates.
    apply (Permutation_NoDup (Permutation_sym (py_sort_perm _ _ Str.ltb _ _))).
    unfold regional_files. now do 2 apply NoDup_filter. }
  rewrite Ho in Hc. now apply NoDup_app_remove_r in Hc.
Qed.

(** X6 (no regional file).  When the directory has no regional file, no
    [print] raises and the two empty bundles can be written, the run reads
    nothing, completes with count 0 and status 0, and writes both bundles
    with an empty [staticAlerts]: bundles left by an earlier run are
    replaced by empty ones. *)
Theorem no_regional_file (w : world content) (c c' : content) :
  let m := main stdout json_load json_dump upper (start w) in
  regional_files w = [] ->
  unprinted (events (fst m)) = [] ->
  json_dump bundle_path (bundle []) = Written c ->
  json_dump sorted_bundle_path (bundle_sorted []) = Written c' ->
  snd m = 0
  /\ opened (events (fst m)) = []
  /\ In (Print (Success 0)) (events (fst m))
  /\ dumped bundle_path (events (fst m)) = [bundle []]
  /\ dumped sorted_bundle_path (events (fst m)) = [bundle_sorted []]
  /\ Fs.lookup bundle_path (files (fst m)) = Some c
  /\ Fs.lookup sorted_bundle_path (files (fst m)) = Some c'.
Proof.
  cbv zeta. rewrite main_run. intros Hnone Hq Hwc Hwc'.
  rewrite (quiet_main _ stdout json_load json_dump upper w Hq).
  assert (Hc : candidates w = []).
  { unfold candidates. now rewrite Hnone. }
  assert (Hcams : all_cameras json_load w = []).
  { unfold all_cameras. now rewrite Hc. }
  destruct (dumped_events_sorted _ json_load w []) as [D1 [D2 D3]].
  rewrite Hcams in D1.
  unfold plain_main, plain_run, plain_state.
  rewrite Hcams. change (py_sorted sortkey_ltb (sort_key upper) [])
    with (@inr exn (list json) []).
  rewrite Hwc, Hwc'. unfold Run.log. cbn [fst snd events files].
  rewrite !EventFacts.dumped_app, !EventFacts.opened_app, D1, D2, D3, Hc.
  split; [reflexivity|]. split; [reflexivity|]. split.
  { apply in_or_app. right. now left. }
  split; [reflexivity|]. split; [reflexivity|]. split.
  - rewrite FsFacts.lookup_write_other by reflexivity.
    apply FsFacts.lookup_write_same.
  - apply FsFacts.lookup_write_same.
Qed.

(** X7 (the second write cannot be opened).  When the unsorted bundle has
    been written and [open] fails on the sorted bundle, the two files are
    left out of step: the unsorted file holds the bundle of this run, the
    sorted file holds what it held before, the "Saved" line of the sorted
    bundle is not reached, and the process calls [print] on that error,
    last, and ends with status 1; the error is printed if no [print] of
    the process raises. *)
Theorem second_write_refused (w : world content) (doc doc' : json)
    (c : content) (e : exn) :
  let m := main stdout json_load json_dump upper (start w) in
  In doc (dumped bundle_path (events (fst m))) ->
  In doc' (dumped sorted_bundle_path (events (fst m))) ->
  json_dump bundle_path doc = Written c ->
  json_dump sorted_bundle_path doc' = Refused e ->
  snd m = 1
  /\ Fs.lookup bundle_path (files (fst m)) = Some c
  /\ Fs.lookup sorted_bundle_path (files (fst m))
     = Fs.lookup sorted_bundle_path w
  /\ (forall n, ~ reached (SavedSorted n) (events (fst m)))
  /\ exists before last,
       events (fst m) = before ++ [WriteJson sorted_bundle_path doc'; last]
       /\ printing (ErrorRebuilding e) last
       /\ (unprinted (events (fst m)) = [] ->
           last = Print (ErrorRebuilding e)).
Proof.
  cbv zeta. intros Hdoc Hdoc' Hw1 Hw2.
  destruct (main_observed _ stdout json_load json_dump upper w)
    as [_ [Hmd [_ Hmr]]].
  rewrite Hmd in Hdoc, Hdoc'.
  destruct (handed_over _ stdout json_load json_dump upper w doc Hdoc)
    as [-> [Hd _]].
  destruct (run_observed _ stdout json_load json_dump upper w)
    as [_ [_ [Hs _]]].
  destruct (Hs _ Hdoc') as [c0 [sorted [_ [Hsorted [_ Hd']]]]].
  rewrite Hd' in Hdoc'. destruct Hdoc' as [<-|[]].
  destruct (run_reached _ stdout json_load json_dump upper w)
    as [_ Hsaved].
  destruct (run_write_fails _ stdout json_load json_dump upper w
              sorted_bundle_path (bundle_sorted sorted) e)
    as [Hr [before Hev]].
  { apply EventFacts.dumped_In. rewrite Hd'. now left. }
  { now left. }
  destruct (main_raised _ stdout json_load json_dump upper w e Hr)
    as [Hm [last [Hme Hp]]].
  split; [exact Hm|]. rewrite main_files. unfold left_by.
  rewrite Hd, Hd', Hw1, Hw2.
  split; [apply FsFacts.lookup_write_same|].
  split; [now apply FsFacts.lookup_write_other|]. split.
  - intros n H. apply Hmr in H as [H|[[n' H]|[e' H]]]; try discriminate.
    destruct (Hsaved n H) as [s' [c' [Hs' Hc']]]. congruence.
  - exists before, last. split; [|split; [exact Hp|]].
    + now rewrite Hme, Hev, <- app_assoc.
    + intros Hq. apply (EventFacts.printing_quiet _ _ _ Hq); [|exact Hp].
      rewrite Hme. apply in_or_app. right. now left.
Qed.

End ConsoleRegions.

(** ** What is extracted from a document (lines 39-49) *)

Section Extraction.

Variable content : Type.
Variable stdout : list event -> line -> option exn.
Variable json_load : content -> exn + json.
Variable json_dump : pystr -> json -> write_result content.
Variable upper : pystr -> pystr.

(** What a process reaches about a file it read, and what the file adds,
    from what the [try] block finds in the document. *)
Lemma read_file_report (w : world content) (f : pystr) (c : content)
    (data : json) :
  let evs :=
    events (fst (main stdout json_load json_dump upper (start w))) in
  In f (opened evs) ->
  Fs.lookup f w = Some c ->
  json_load c = inr data ->
  match extract data with
  | inr (Extracted items n) =>
      logged (AddedCameras n (region_name_of f)) evs
      /\ extracted json_load w f = items
  | inr MissingStaticAlerts =>
      logged (NoStaticAlerts (region_name_of f)) evs
      /\ extracted json_load w f = []
  | inr MissingFeeds =>
      logged (NoFeeds (region_name_of f)) evs
      /\ extracted json_load w f = []
  | inl e =>
      logged (ErrorLoading (region_name_of f) e) evs
      /\ extracted json_load w f = []
  end.
Proof.
  cbv zeta. intros Hf Hl Hload.
  destruct (main_observed _ stdout json_load json_dump upper w)
    as [Ho [_ [Hr _]]].
  rewrite Ho in Hf.
  destruct (run_observed _ stdout json_load json_dump upper w)
    as [_ [_ [_ [Hrep _]]]].
  apply Hrep, Hr, EventFacts.reached_logged in Hf. revert Hf.
  unfold report, extracted, loaded, Exc.bind. rewrite Hl, Hload.
  destruct (extract data) as [e|[items n| |]]; auto.
Qed.

(** X8 (only the first feed).  Of a document whose 'feeds' is a list that
    starts with an object, only 'staticAlerts' of that first object is
    looked at: the other feeds, the other fields of the first feed and the
    other fields of the document change nothing.  When it is a list, its
    elements are what the file adds to the bundle, and the records of any
    later feed are left out. *)
Theorem only_first_feed (top top' feed feed' : list (pystr * json))
    (rest rest' : list json) :
  Py.lookup (Str.lit "feeds") top = Some (JArr (JObj feed :: rest)) ->
  Py.lookup (Str.lit "feeds") top' = Some (JArr (JObj feed' :: rest')) ->
  Py.lookup (Str.lit "staticAlerts") feed
  = Py.lookup (Str.lit "staticAlerts") feed' ->
  extract (JObj top) = extract (JObj top')
  /\ (forall records,
        Py.lookup (Str.lit "staticAlerts") feed = Some (JArr records) ->
        extract (JObj top) = inr (Extracted records (List.length records))).
Proof.
  intros Ht Ht' Hf.
  assert (H : forall t fd rs,
            Py.lookup (Str.lit "feeds") t = Some (JArr (JObj fd :: rs)) ->
            extract (JObj t)
            = match Py.lookup (Str.lit "staticAlerts") fd with
              | Some cameras =>
                  match Py.iter cameras with
                  | inr items => inr (Extracted items (List.length items))
                  | inl e => inl e
                  end
              | None => inr MissingStaticAlerts
              end).
  { intros t fd rs Hfeeds.
    destruct (Py.lookup (Str.lit "staticAlerts") fd) as [cameras|] eqn:Hc.
    - apply ExtractFacts.extract_alerts. unfold alerts_of, Exc.bind.
      cbn [Py.getitem]. rewrite Hfeeds. cbn [Py.getitem0 Py.getitem].
      now rewrite Hc.
    - unfold extract. cbn [Py.contains Py.getitem Exc.bind Exc.ret].
      rewrite Hfeeds.
      cbn [Py.len Py.getitem0 Py.contains Exc.bind Exc.ret List.length
           Nat.ltb Nat.leb].
      now rewrite Hc. }
  split.
  - rewrite (H _ _ _ Ht), (H _ _ _ Ht'), Hf. reflexivity.
  - intros records Hr. rewrite (H _ _ _ Ht), Hr. reflexivity.
Qed.

(** X9 (no feeds, no staticAlerts).  For a file that was read and holds
    an object without 'feeds', or whose 'feeds' is the empty list, the
    process calls [print] on the "No feeds" line; for one whose first feed
    is an object without 'staticAlerts', on the "No staticAlerts" line,
    whatever its other feeds hold.  The line is printed if no [print] of
    the process raises, and neither file adds a record. *)
Theorem missing_structure_reported (w : world content) (f : pystr)
    (c : content) (top : list (pystr * json)) :
  let evs :=
    events (fst (main stdout json_load json_dump upper (start w))) in
  In f (opened evs) ->
  Fs.lookup f w = Some c ->
  json_load c = inr (JObj top) ->
  match Py.lookup (Str.lit "feeds") top with
  | None | Some (JArr []) =>
      logged (NoFeeds (region_name_of f)) evs
      /\ extracted json_load w f = []
  | Some (JArr (JObj feed :: _)) =>
      Py.lookup (Str.lit "staticAlerts") feed = None ->
      logged (NoStaticAlerts (region_name_of f)) evs
      /\ extracted json_load w f = []
  | Some _ => True
  end.
Proof.
  cbv zeta. intros Hf Hl Hload.
  pose proof (read_file_report w f c (JObj top) Hf Hl Hload) as H.
  revert H. unfold extract.
  cbn [Py.contains Py.getitem Exc.bind Exc.ret].
  destruct (Py.lookup (Str.lit "feeds") top)
    as [[| | | | |[|[| | | | | |feed] rest]|]|]; auto.
  cbn [Py.len Py.getitem0 Py.contains Py.getitem Exc.bind Exc.ret
       List.length Nat.ltb Nat.leb].
  intros H Hnone. now rewrite Hnone in H.
Qed.

(** X10 (a document that is not an object).  For a file that was read
    and holds null, a boolean or a number, the handler of the file is
    reached with a [TypeError]; so it is for one that holds a list or a
    string when 'feeds' is an element of the list, or occurs in the
    string, and otherwise the "No feeds" line is reached.  In every case
    the file adds no record, and if no [print] of the process raises the
    line is printed and the run goes on. *)
Theorem non_object_document (w : world content) (f : pystr) (c : content)
    (data : json) :
  let evs :=
    events (fst (main stdout json_load json_dump upper (start w))) in
  In f (opened evs) ->
  Fs.lookup f w = Some c ->
  json_load c = inr data ->
  (forall top, data <> JObj top) ->
  extracted json_load w f = []
  /\ (unprinted evs = [] ->
      In (Print (TotalCollected (List.length (all_cameras json_load w)))) evs)
  /\ match data with
     | JArr items =>
         if existsb (Py.str_eq (Str.lit "feeds")) items
         then logged (ErrorLoading (region_name_of f) TypeError) evs
         else logged (NoFeeds (region_name_of f)) evs
     | JStr s =>
         if Str.contains (Str.lit "feeds") s
         then logged (ErrorLoading (region_name_of f) TypeError) evs
         else logged (NoFeeds (region_name_of f)) evs
     | _ => logged (ErrorLoading (region_name_of f) TypeError) evs
     end.
Proof.
  cbv zeta. intros Hf Hl Hload Hno.
  pose proof (read_file_report w f c data Hf Hl Hload) as H.
  assert (P2 : unprinted
                 (events (fst (main stdout json_load json_dump upper
                                 (start w)))) = [] ->
               In (Print (TotalCollected
                            (List.length (all_cameras json_load w))))
                  (events (fst (main stdout json_load json_dump upper
                                  (start w))))).
  { rewrite main_run. intros Hq.
    rewrite (quiet_main _ stdout json_load json_dump upper w Hq).
    now destruct (main_prints_totals _ json_load json_dump upper w)
      as [_ [P2 _]]. }
  revert H. unfold extract.
  destruct data as [| | | |s|items|top];
    cbn [Py.contains Py.getitem Exc.bind Exc.ret]; try tauto.
  - destruct (Str.contains (Str.lit "feeds") s);
      cbn [Py.contains Py.getitem Exc.bind Exc.ret]; tauto.
  - destruct (existsb (Py.str_eq (Str.lit "feeds")) items);
      cbn [Py.contains Py.getitem Exc.bind Exc.ret]; tauto.
  - now destruct (Hno top).
Qed.

End Extraction.
(** ** The region of a file (line 31) *)

Module RegionFacts.

Lemma rfind_dot_none (t : pystr) : ~ In 46%N t -> Str.rfind_dot t = None.
Proof.
  induction t as [|c t IH]; cbn; [reflexivity|]. intros H.
  rewrite IH by tauto.
  destruct (N.eqb_spec c 46) as [->|_]; [|reflexivity]. tauto.
Qed.

Lemma rfind_dot_last (s t : pystr) :
  ~ In 46%N t -> Str.rfind_dot (s ++ 46%N :: t) = Some (List.length s).
Proof.
  intros Ht. induction s as [|c s IH]; cbn.
  - now rewrite (rfind_dot_none t Ht).
  - now rewrite IH.
Qed.

(** [Path(name).stem] drops the last suffix of a name. *)
Lemma stem_json (s : pystr) :
  s <> [] -> Py.stem (s ++ Str.lit ".json") = s.
Proof.
  intros Hs. unfold Py.stem.
  change (Str.lit ".json") with (46%N :: Str.lit "json").
  rewrite rfind_dot_last by (vm_compute; intuition discriminate).
  assert (H1 : (0 <? List.length s) = true).
  { apply Nat.ltb_lt. destruct s; [congruence|cbn; lia]. }
  assert (H2 : (List.length s
                <? List.length (s ++ 46%N :: Str.lit "json") - 1) = true).
  { apply Nat.ltb_lt. rewrite length_app. cbn. lia. }
  rewrite H1, H2. cbn [andb].
  rewrite firstn_app, firstn_all, Nat.sub_diag. cbn [firstn].
  apply app_nil_r.
Qed.

(** Passing over the rest of an occurrence just replaced. *)
Lemma replace_skip (old new a rest : pystr) :
  Str.replace_from old new (List.length a) (a ++ rest)
  = Str.replace_from old new 0 rest.
Proof.
  induction a as [|c a IH]; [reflexivity|]. cbn. exact IH.
Qed.

Lemma startswith_app (p s : pystr) : Str.startswith p (p ++ s) = true.
Proof. apply StrFacts.startswith_iff. now exists s. Qed.

(** An occurrence at the front is replaced and the scan goes on after
    it. *)
Lemma replace_front (old new rest : pystr) :
  old <> [] ->
  Str.replace old new (old ++ rest) = new ++ Str.replace old new rest.
Proof.
  intros Hold. unfold Str.replace.
  destruct old as [|c old]; [congruence|].
  cbn [app Str.replace_from].
  change (c :: old ++ rest) with ((c :: old) ++ rest).
  rewrite startswith_app. cbn [List.length Nat.sub].
  rewrite Nat.sub_0_r. now rewrite replace_skip.
Qed.

(** Without an occurrence nothing is replaced. *)
Lemma replace_absent (old new s : pystr) :
  Str.contains old s = false -> Str.replace old new s = s.
Proof.
  unfold Str.replace. induction s as [|c s IH]; [reflexivity|].
  cbn [Str.contains]. intros H. apply orb_false_iff in H as [H1 H2].
  cbn [Str.replace_from]. rewrite H1. now rewrite IH.
Qed.

(** X11 (the region is read off the name).  For every file named
    [Camera_Database_<mid>.json], the region is [<mid>] with every
    occurrence of [Camera_Database_] taken out, from left to right.  So
    two different file names can give one region:
    [Camera_Database_Camera_Database_<mid>.json] has the region of
    [Camera_Database_<mid>.json]. *)
Theorem region_of_name (mid : pystr) :
  region_name_of (region_prefix ++ mid ++ Str.lit ".json")
  = Str.replace region_prefix [] mid
  /\ region_name_of
       (region_prefix ++ (region_prefix ++ mid) ++ Str.lit ".json")
     = region_name_of (region_prefix ++ mid ++ Str.lit ".json").
Proof.
  assert (H : forall m,
            region_name_of (region_prefix ++ m ++ Str.lit ".json")
            = Str.replace region_prefix [] m).
  { intros m. unfold region_name_of. rewrite app_assoc.
    rewrite stem_json by (unfold region_prefix; discriminate).
    fold region_prefix.
    rewrite replace_front by (unfold region_prefix; discriminate).
    reflexivity. }
  split; [apply H|]. rewrite !H.
  rewrite replace_front by (unfold region_prefix; discriminate).
  reflexivity.
Qed.

(** X12 (a plain region).  When [<mid>] does not contain
    [Camera_Database_], the region of [Camera_Database_<mid>.json] is
    [<mid>] itself, full stops and all. *)
Theorem region_of_plain_name (mid : pystr) :
  Str.contains region_prefix mid = false ->
  region_name_of (region_prefix ++ mid ++ Str.lit ".json") = mid.
Proof.
  intros Hmid. unfold region_name_of. rewrite app_assoc.
  rewrite stem_json by (unfold region_prefix; discriminate).
  fold region_prefix.
  rewrite replace_front by (unfold region_prefix; discriminate).
  now apply replace_absent.
Qed.

End RegionFacts.

(** ** The order of the sorted bundle, beyond neighbours *)

Module KeyOrder.

Lemma key_ltb_trans (a b c : sortkey) :
  sortkey_ltb a b = true -> sortkey_ltb b c = true -> sortkey_ltb a c = true.
Proof.
  destruct a as [[a1 a2] a3], b as [[b1 b2] b3], c as [[c1 c2] c3].
  unfold sortkey_ltb.
  assert (step : forall x y z : pystr,
            Str.ltb x y = true -> Str.eqb x y = false ->
            (Str.eqb y z = true \/ Str.ltb y z = true) ->
            Str.ltb x z = true /\ Str.eqb x z = false).
  { intros x y z Hxy Hne [Hyz|Hyz].
    - apply StrFacts.str_eqb_eq in Hyz. subst z. auto.
    - pose proof (StrFacts.str_ltb_trans _ _ _ Hxy Hyz) as Hxz.
      split; [exact Hxz|]. apply StrFacts.str_eqb_neq. intros ->.
      now rewrite StrFacts.str_ltb_irrefl in Hxz. }
  assert (lt_ne : forall x y : pystr,
            Str.ltb x y = true -> Str.eqb x y = false).
  { intros x y H. apply StrFacts.str_eqb_neq. intros ->.
    now rewrite StrFacts.str_ltb_irrefl in H. }
  destruct (Str.eqb a1 b1) eqn:E1; cbn [negb].
  - apply StrFacts.str_eqb_eq in E1. subst b1.
    destruct (Str.eqb a1 c1) eqn:F1; cbn [negb]; [|auto].
    destruct (Str.eqb a2 b2) eqn:E2; cbn [negb].
    + apply StrFacts.str_eqb_eq in E2. subst b2.
      destruct (Str.eqb a2 c2) eqn:F2; cbn [negb]; [|auto].
      destruct (Str.eqb a3 b3) eqn:E3; cbn [negb]; [discriminate|].
      destruct (Str.eqb b3 c3) eqn:F3; cbn [negb]; [discriminate|].
      intros H1 H2.
      destruct (step a3 b3 c3 H1 E3 (or_intror H2)) as [H ->]. exact H.
    + intros H1.
      destruct (Str.eqb b2 c2) eqn:F2; cbn [negb].
      * apply StrFacts.str_eqb_eq in F2. subst c2. now rewrite E2.
      * intros H2.
        destruct (step a2 b2 c2 H1 E2 (or_intror H2)) as [H ->]. exact H.
  - intros H1.
    destruct (Str.eqb b1 c1) eqn:F1; cbn [negb].
    + apply StrFacts.str_eqb_eq in F1. subst c1. now rewrite E1.
    + intros H2.
      destruct (step a1 b1 c1 H1 E1 (or_intror H2)) as [H ->]. exact H.
Qed.

Lemma key_ltb_total (a b : sortkey) :
  sortkey_ltb a b = false -> sortkey_ltb b a = false -> a = b.
Proof.
  destruct a as [[a1 a2] a3], b as [[b1 b2] b3]. unfold sortkey_ltb.
  rewrite (KeyFacts.str_eqb_sym a1 b1), (KeyFacts.str_eqb_sym a2 b2),
    (KeyFacts.str_eqb_sym a3 b3).
  destruct (Str.eqb a1 b1) eqn:E1; cbn [negb].
  2:{ intros H1 H2. rewrite (StrFacts.str_ltb_total _ _ H1 H2) in E1.
      now rewrite StrFacts.str_eqb_refl in E1. }
  destruct (Str.eqb a2 b2) eqn:E2; cbn [negb].
  2:{ intros H1 H2. rewrite (StrFacts.str_ltb_total _ _ H1 H2) in E2.
      now rewrite StrFacts.str_eqb_refl in E2. }
  destruct (Str.eqb a3 b3) eqn:E3; cbn [negb].
  2:{ intros H1 H2. rewrite (StrFacts.str_ltb_total _ _ H1 H2) in E3.
      now rewrite StrFacts.str_eqb_refl in E3. }
  apply StrFacts.str_eqb_eq in E1, E2, E3. now subst.
Qed.

(** The order of the specification, back to the comparison of the code. *)
Lemma lex_le_not_ltb (a b : pystr) : lex_le a b -> Str.ltb b a = false.
Proof.
  unfold Str.ltb. induction 1 as [b|x y a b Hxy|x a b _ IH]; cbn.
  - now destruct b.
  - apply N.compare_gt_iff in Hxy. now rewrite Hxy.
  - now rewrite N.compare_refl.
Qed.

Lemma lex_lt_ne (a b : pystr) : lex_lt a b -> Str.eqb b a = false.
Proof.
  intros [_ Hne]. apply StrFacts.str_eqb_neq. congruence.
Qed.

Lemma key_le_not_ltb (a b : sortkey) : sortkey_le a b -> sortkey_ltb b a = false.
Proof.
  destruct a as [[a1 a2] a3], b as [[b1 b2] b3]. unfold sortkey_le, sortkey_ltb.
  intros [H1|[-> [H2|[-> H3]]]].
  - rewrite (lex_lt_ne _ _ H1). cbn. apply lex_le_not_ltb, H1.
  - rewrite StrFacts.str_eqb_refl, (lex_lt_ne _ _ H2). cbn.
    apply lex_le_not_ltb, H2.
  - rewrite !StrFacts.str_eqb_refl. cbn.
    destruct (Str.eqb b3 a3); cbn; [reflexivity|]. now apply lex_le_not_ltb.
Qed.

End KeyOrder.

Section OrderedPairs.

Variables A K : Type.
Variable ltb : K -> K -> bool.
Variable f : A -> exn + K.
Variable eqk : K -> K -> bool.
Hypothesis eqk_eq : forall a b, eqk a b = true <-> a = b.
Hypothesis ltb_irrefl : forall a, ltb a a = false.
Hypothesis ltb_trans :
  forall a b c, ltb a b = true -> ltb b c = true -> ltb a c = true.
Hypothesis ltb_total : forall a b, ltb a b = false -> ltb b a = false -> a = b.

Lemma StronglySorted_after {X : Type} (R : X -> X -> Prop) (l1 l : list X)
    (a : X) :
  StronglySorted R (l1 ++ a :: l) -> Forall (R a) l.
Proof.
  induction l1 as [|x l1 IH]; cbn; intros H; inversion H; subst; auto.
Qed.

(** Any two elements of the result are in order, not only neighbours. *)
Lemma py_sorted_pairs (xs l1 l2 l3 : list A) (a b : A) :
  py_sorted ltb f xs = inr (l1 ++ a :: l2 ++ b :: l3) ->
  exists ka kb, f a = inr ka /\ f b = inr kb /\ ltb kb ka = false.
Proof.
  intros H. apply py_sorted_inv in H as [ks [Hks Hys]]. symmetry in Hys.
  apply map_eq_app in Hys as [d1 [dd [Hd [_ Hdd]]]].
  destruct dd as [|da dd]; [discriminate|]. cbn in Hdd.
  injection Hdd as <- Hdd.
  apply map_eq_app in Hdd as [d2 [dd' [-> [_ Hdd']]]].
  destruct dd' as [|db d3]; [discriminate|]. cbn in Hdd'.
  injection Hdd' as <- _.
  pose proof (py_sort_sorted _ _ ltb fst
                (ltb_asym_of_order _ ltb ltb_trans ltb_irrefl)
                (combine ks xs)) as Hs.
  apply Sorted_StronglySorted in Hs;
    [|intros x y z; apply (key_le_trans _ _ ltb fst ltb_trans ltb_total)].
  rewrite Hd in Hs. apply StronglySorted_after in Hs.
  rewrite Forall_forall in Hs.
  assert (Hin : forall d, In d (d1 ++ da :: d2 ++ db :: d3) ->
            f (snd d) = inr (fst d)).
  { intros d Hd'. rewrite <- Hd in Hd'. apply py_sort_In in Hd'.
    now apply (decorated_key _ _ ltb _ _ _ Hks). }
  exists (fst da), (fst db). repeat split.
  - apply Hin, in_elt.
  - apply Hin. apply in_or_app. right. right. apply in_elt.
  - apply Hs, in_elt.
Qed.

(** The decorated list of a list in order is in order. *)
Lemma decorated_sorted (xs : list A) (ks : list K) :
  Forall2 (fun x k => f x = inr k) xs ks ->
  Sorted (fun a b => forall ka kb, f a = inr ka -> f b = inr kb ->
                                   ltb kb ka = false) xs ->
  Sorted (key_le ltb fst) (combine ks xs).
Proof.
  induction 1 as [|x k xs ks Hx Hxs IH]; cbn; intros Hs; [constructor|].
  inversion Hs as [|? ? Hs' Hhd]; subst. constructor; [now apply IH|].
  destruct Hxs as [|y k' xs ks Hy Hxs]; cbn; constructor.
  inversion Hhd; subst. unfold key_le. cbn. auto.
Qed.

(** A list already in order comes back as it is. *)
Lemma py_sorted_of_sorted (xs ys : list A) :
  py_sorted ltb f xs = inr ys ->
  Sorted (fun a b => forall ka kb, f a = inr ka -> f b = inr kb ->
                                   ltb kb ka = false) xs ->
  ys = xs.
Proof.
  intros H Hs. apply py_sorted_inv in H as [ks [Hks ->]].
  rewrite <- (py_sort_unique _ _ ltb fst eqk eqk_eq ltb_trans ltb_total
                ltb_irrefl (combine ks xs) (combine ks xs)).
  - exact (decorated_snd _ _ f _ _ Hks).
  - now apply decorated_sorted.
  - reflexivity.
Qed.

End OrderedPairs.


Section SortedBundle.

Variable content : Type.
Variable stdout : list event -> line -> option exn.
Variable json_load : content -> exn + json.
Variable json_dump : pystr -> json -> write_result content.
Variable upper : pystr -> pystr.

(** X13 (the sorted bundle is in order throughout).  In the sorted
    bundle the key of a record is lexicographically at most the key of
    every record that comes after it, however far: the first record has
    the least key, and the records of one state, and within it of one
    city, stand in the order the specification gives. *)
Theorem sorted_bundle_ordered_pairs (w : world content) (doc' : json)
    (l1 l2 l3 : list json) (a b : json) :
  let r := rebuild_bundles stdout json_load json_dump upper (start w) in
  In doc' (dumped sorted_bundle_path (events (fst r))) ->
  static_alerts doc' = Some (l1 ++ a :: l2 ++ b :: l3) ->
  sortkey_le (upper_key upper a) (upper_key upper b).
Proof.
  cbv zeta. intros Hdoc Hrec.
  destruct (sorted_bundle_records _ stdout json_load json_dump upper w doc'
              Hdoc) as [sorted [-> [_ Hsorted]]].
  rewrite static_alerts_bundle_sorted in Hrec. inversion Hrec; subst sorted.
  apply (py_sorted_pairs _ _ sortkey_ltb (sort_key upper)
           KeyFacts.key_ltb_irrefl KeyOrder.key_ltb_trans
           KeyOrder.key_ltb_total) in Hsorted
    as [ka [kb [Ha [Hb Hle]]]].
  apply sort_key_upper_key in Ha, Hb. subst ka kb.
  now apply KeyFacts.key_not_ltb_le.
Qed.

(** X14 (records already in order).  When the records of the unsorted
    bundle are already in the order of the specification, each key at
    most the next, the sorted bundle holds them in exactly the same
    sequence: the two bundles differ in their description only. *)
Theorem sorted_input_unchanged (w : world content) (doc doc' : json)
    (unsorted sorted : list json) :
  let r := rebuild_bundles stdout json_load json_dump upper (start w) in
  In doc (dumped bundle_path (events (fst r))) ->
  In doc' (dumped sorted_bundle_path (events (fst r))) ->
  static_alerts doc = Some unsorted ->
  static_alerts doc' = Some sorted ->
  Sorted (fun a b => sortkey_le (upper_key upper a) (upper_key upper b))
         unsorted ->
  sorted = unsorted /\ doc' = bundle_sorted unsorted /\ doc = bundle unsorted.
Proof.
  cbv zeta. intros Hdoc Hdoc' Hrec Hrec' Hs.
  destruct (sorted_bundle_records _ stdout json_load json_dump upper w doc'
              Hdoc') as [sorted' [-> [Hd Hsorted]]].
  rewrite static_alerts_bundle_sorted in Hrec'.
  inversion Hrec'; subst sorted'.
  rewrite Hd in Hdoc. destruct Hdoc as [<-|[]].
  rewrite static_alerts_bundle in Hrec. inversion Hrec; subst unsorted.
  assert (Heq : sorted = all_cameras json_load w).
  { apply (py_sorted_of_sorted _ _ sortkey_ltb (sort_key upper) sortkey_eqb
             KeyFacts.key_eqb_eq KeyFacts.key_ltb_irrefl
             KeyOrder.key_ltb_trans KeyOrder.key_ltb_total _ _ Hsorted).
    refine (Sorted_weaken _ _ _ _ Hs).
    intros a b Hab ka kb Ha Hb.
    apply sort_key_upper_key in Ha, Hb. subst ka kb.
    now apply KeyOrder.key_le_not_ltb. }
  now rewrite Heq.
Qed.

(** Two occurrences survive a permutation. *)
Lemma Permutation_twice {X : Type} (x : X) (l1 l2 l3 l' : list X) :
  Permutation (l1 ++ x :: l2 ++ x :: l3) l' ->
  exists m1 m2 m3, l' = m1 ++ x :: m2 ++ x :: m3.
Proof.
  intros Hp.
  assert (Hin : In x l') by (apply (Permutation_in _ Hp), in_elt).
  apply in_split in Hin as [s1 [s2 ->]].
  apply Permutation_app_inv in Hp.
  assert (Hin : In x (s1 ++ s2)).
  { apply (Permutation_in _ Hp). apply in_or_app. right.
    apply in_elt. }
  apply in_app_or in Hin as [Hin|Hin]; apply in_split in Hin as [t1 [t2 ->]].
  - exists t1, t2, s2. now rewrite <- app_assoc.
  - now exists s1, t1, t2.
Qed.

(** X15 (no de-duplication).  A record that two files add, one file
    read before the other, stands twice in the unsorted bundle when that
    is handed over, as it is when no [print] of the run raises, and twice
    in the sorted bundle when that is: records are never merged or
    dropped as duplicates. *)
Theorem duplicates_kept (w : world content) (f g : pystr)
    (fs1 fs2 fs3 : list pystr) (x : json) :
  let r := rebuild_bundles stdout json_load json_dump upper (start w) in
  opened (events (fst r)) = fs1 ++ f :: fs2 ++ g :: fs3 ->
  In x (extracted json_load w f) ->
  In x (extracted json_load w g) ->
  (forall doc,
     In doc (dumped bundle_path (events (fst r))) ->
     exists l1 l2 l3,
       dumped bundle_path (events (fst r)) = [doc]
       /\ static_alerts doc = Some (l1 ++ x :: l2 ++ x :: l3))
  /\ (forall doc' sorted,
        In doc' (dumped sorted_bundle_path (events (fst r))) ->
        static_alerts doc' = Some sorted ->
        exists m1 m2 m3, sorted = m1 ++ x :: m2 ++ x :: m3)
  /\ (unprinted (events (fst r)) = [] ->
      exists doc l1 l2 l3,
        dumped bundle_path (events (fst r)) = [doc]
        /\ static_alerts doc = Some (l1 ++ x :: l2 ++ x :: l3)).
Proof.
  cbv zeta. intros Ho Hf Hg.
  assert (Hcams : forall doc,
            In doc (dumped bundle_path
                      (events (fst (rebuild_bundles stdout json_load
                                      json_dump upper (start w))))) ->
            exists l1 l2 l3,
              all_cameras json_load w = l1 ++ x :: l2 ++ x :: l3).
  { revert Ho. rewrite rebuild_bundles_run. intros Ho doc Hdoc.
    destruct (handed_over _ stdout json_load json_dump upper w doc Hdoc)
      as [_ [_ Hc]].
    unfold all_cameras. rewrite <- Hc, Ho.
    rewrite flat_map_app. cbn [flat_map]. rewrite flat_map_app.
    cbn [flat_map].
    apply in_split in Hf as [a1 [a2 ->]].
    apply in_split in Hg as [b1 [b2 ->]].
    exists (flat_map (extracted json_load w) fs1 ++ a1),
      (a2 ++ flat_map (extracted json_load w) fs2 ++ b1),
      (b2 ++ flat_map (extracted json_load w) fs3).
    repeat first [rewrite <- app_assoc | progress cbn [app]]. reflexivity. }
  assert (Hfirst : forall doc,
            In doc (dumped bundle_path
                      (events (fst (rebuild_bundles stdout json_load
                                      json_dump upper (start w))))) ->
            exists l1 l2 l3,
              dumped bundle_path
                (events (fst (rebuild_bundles stdout json_load json_dump
                                upper (start w)))) = [doc]
              /\ static_alerts doc = Some (l1 ++ x :: l2 ++ x :: l3)).
  { intros doc Hdoc. destruct (Hcams doc Hdoc) as [l1 [l2 [l3 Hc]]].
    exists l1, l2, l3. revert Hdoc. rewrite rebuild_bundles_run.
    intros Hdoc.
    destruct (handed_over _ stdout json_load json_dump upper w doc Hdoc)
      as [-> [Hd _]].
    split; [exact Hd|]. now rewrite static_alerts_bundle, Hc. }
  split; [exact Hfirst|]. split.
  2: { intros Hq.
       assert (Hd : In (bundle (all_cameras json_load w))
                       (dumped bundle_path
                          (events (fst (rebuild_bundles stdout json_load
                                          json_dump upper (start w)))))).
       { revert Hq. rewrite rebuild_bundles_run. intros Hq.
         destruct (quiet_hands_over _ stdout json_load json_dump upper w Hq)
           as [-> _]. now left. }
       destruct (Hfirst _ Hd) as [l1 [l2 [l3 H]]].
       now exists (bundle (all_cameras json_load w)), l1, l2, l3. }
  - intros doc' sorted Hdoc' Hrec'.
    destruct (sorted_bundle_records _ stdout json_load json_dump upper w doc'
                Hdoc') as [sorted' [-> [Hd Hsorted]]].
    rewrite static_alerts_bundle_sorted in Hrec'.
    inversion Hrec'; subst sorted'.
    destruct (Hcams (bundle (all_cameras json_load w))) as [l1 [l2 [l3 Hc]]].
    { rewrite Hd. now left. }
    apply py_sorted_perm in Hsorted. rewrite Hc in Hsorted.
    now apply Permutation_twice in Hsorted.
Qed.

End SortedBundle.

(** * The further properties on the small directories *)

Module Demo2Facts.

Import Demo Demo2.

Lemma first_write_refused_witness :
  files (fst (main stdout json_load json_dump_refused upper (start dir))) = dir
  /\ snd (main stdout json_load json_dump_refused upper (start dir)) = 1.
Proof.
  destruct (first_write_refused content stdout json_load json_dump_refused
              upper dir (bundle [fresno; dallas; austin; AUSTIN]) OSError)
    as [Hf [Hm _]].
  - vm_compute. left. reflexivity.
  - reflexivity.
  - split; [exact Hf | exact Hm].
Defined.

Lemma printed_counts_witness :
  exists doc records,
    dumped bundle_path (events (fst (process dir))) = [doc]
    /\ static_alerts doc = Some records
    /\ list_sum (added_counts (events (fst (process dir))))
       = List.length records
    /\ In (Print (FoundFiles 3)) (events (fst (process dir)))
    /\ In (Print (TotalCollected (List.length records)))
          (events (fst (process dir))).
Proof.
  destruct (printed_counts content stdout json_load json_dump upper dir)
    as [doc [records [Hd [Hs [Ha [Hf [Ht _]]]]]]].
  - vm_compute. reflexivity.
  - exists doc, records. repeat split; assumption.
Defined.

Lemma printed_regions_witness :
  In (Print (RegionsProcessed [Str.lit "CA"; Str.lit "TX"]))
     (events (fst (process dir)))
  /\ forall regions,
       In (Print (RegionsProcessed regions)) (events (fst (process dir))) ->
       regions = [Str.lit "CA"; Str.lit "TX"].
Proof.
  destruct (printed_regions content stdout json_load json_dump upper dir)
    as [Hp [Hu _]].
  - vm_compute. reflexivity.
  - split; [exact Hp | exact Hu].
Defined.

Lemma each_candidate_read_once_witness :
  NoDup (opened (events (fst (process dir)))).
Proof.
  apply (each_candidate_read_once content stdout json_load json_dump upper
           dir).
  vm_compute.
  repeat (constructor; [cbn; intuition discriminate|]). constructor.
Defined.

Lemma no_regional_file_witness :
  Fs.lookup bundle_path (files (fst (process dir_no_region)))
  = Some (inr (bundle []))
  /\ Fs.lookup sorted_bundle_path (files (fst (process dir_no_region)))
     = Some (inr (bundle_sorted []))
  /\ snd (process dir_no_region) = 0.
Proof.
  destruct (no_regional_file content stdout json_load json_dump upper
              dir_no_region (inr (bundle [])) (inr (bundle_sorted [])))
    as [Hm [_ [_ [_ [_ [Hb Hs]]]]]].
  - reflexivity.
  - vm_compute. reflexivity.
  - reflexivity.
  - reflexivity.
  - split; [exact Hb|]. split; [exact Hs | exact Hm].
Defined.

Lemma second_write_refused_witness :
  snd (main stdout json_load json_dump_sorted_refused upper (start dir)) = 1
  /\ Fs.lookup bundle_path
       (files (fst (main stdout json_load json_dump_sorted_refused upper
                      (start dir))))
     = Some (inr (bundle [fresno; dallas; austin; AUSTIN]))
  /\ Fs.lookup sorted_bundle_path
       (files (fst (main stdout json_load json_dump_sorted_refused upper
                      (start dir))))
     = None.
Proof.
  destruct (second_write_refused content stdout json_load
              json_dump_sorted_refused upper dir
              (bundle [fresno; dallas; austin; AUSTIN])
              (bundle_sorted [fresno; austin; AUSTIN; dallas])
              (inr (bundle [fresno; dallas; austin; AUSTIN])) OSError)
    as [Hm [Hb [Hs _]]].
  - vm_compute. left. reflexivity.
  - vm_compute. left. reflexivity.
  - reflexivity.
  - reflexivity.
  - split; [exact Hm|]. split; [exact Hb|]. rewrite Hs. reflexivity.
Defined.

Lemma only_first_feed_witness :
  extract (JObj two_feeds) = extract (JObj one_feed)
  /\ extract (JObj two_feeds) = inr (Extracted [fresno] 1).
Proof.
  destruct (only_first_feed two_feeds one_feed
              [(Str.lit "name", JStr (Str.lit "first"));
               (Str.lit "staticAlerts", JArr [fresno])]
              [(Str.lit "staticAlerts", JArr [fresno])]
              [JObj [(Str.lit "staticAlerts", JArr [dallas; austin])]] [])
    as [H1 H2].
  - reflexivity.
  - reflexivity.
  - reflexivity.
  - split; [exact H1|]. apply (H2 [fresno]). reflexivity.
Defined.

Lemma missing_structure_reported_witness :
  In (Print (NoStaticAlerts (Str.lit "B"))) (events (fst (process dir_odd)))
  /\ extracted json_load dir_odd (Str.lit "Camera_Database_B.json") = [].
Proof.
  pose proof
    (missing_structure_reported content stdout json_load json_dump upper
       dir_odd (Str.lit "Camera_Database_B.json")
       (inr (JObj [(Str.lit "feeds", JArr [JObj [(Str.lit "id", JInt 1)]])]))
       [(Str.lit "feeds", JArr [JObj [(Str.lit "id", JInt 1)]])]) as H.
  cbv zeta in H. destruct H as [[_ Hp] He].
  - vm_compute. right. left. reflexivity.
  - reflexivity.
  - reflexivity.
  - reflexivity.
  - split; [|exact He]. apply Hp. vm_compute. reflexivity.
Defined.

Lemma non_object_document_witness :
  extracted json_load dir_odd (Str.lit "Camera_Database_C.json") = []
  /\ In (Print (NoFeeds (Str.lit "C"))) (events (fst (process dir_odd)))
  /\ In (Print (TotalCollected 2)) (events (fst (process dir_odd))).
Proof.
  destruct (non_object_document content stdout json_load json_dump upper
              dir_odd (Str.lit "Camera_Database_C.json")
              (inr (JArr [JInt 1; JInt 2])) (JArr [JInt 1; JInt 2]))
    as [He [Ht Hp]].
  - vm_compute. do 2 right. left. reflexivity.
  - reflexivity.
  - reflexivity.
  - intros top. discriminate.
  - split; [exact He|]. cbn [existsb Py.str_eq orb] in Hp.
    destruct Hp as [_ Hp].
    split; [apply Hp | apply Ht]; vm_compute; reflexivity.
Defined.

Lemma region_of_plain_name_witness :
  region_name_of (Str.lit "Camera_Database_TX.v2.json") = Str.lit "TX.v2".
Proof.
  apply (RegionFacts.region_of_plain_name (Str.lit "TX.v2")). reflexivity.
Defined.

Lemma sorted_bundle_ordered_pairs_witness :
  sortkey_le (upper_key upper fresno) (upper_key upper dallas).
Proof.
  apply (sorted_bundle_ordered_pairs content stdout json_load json_dump upper
           dir (bundle_sorted [fresno; austin; AUSTIN; dallas])
           [] [austin; AUSTIN] [] fresno dallas).
  - vm_compute. left. reflexivity.
  - reflexivity.
Defined.

Lemma sorted_input_unchanged_witness :
  In (bundle_sorted [austin; dallas])
     (dumped sorted_bundle_path (events (fst (run dir_odd))))
  /\ ([austin; dallas] = [austin; dallas]
      /\ bundle_sorted [austin; dallas] = bundle_sorted [austin; dallas]
      /\ bundle [austin; dallas] = bundle [austin; dallas]).
Proof.
  split; [vm_compute; left; reflexivity|].
  apply (sorted_input_unchanged content stdout json_load json_dump upper
           dir_odd (bundle [austin; dallas]) (bundle_sorted [austin; dallas])
           [austin; dallas] [austin; dallas]).
  - vm_compute. left. reflexivity.
  - vm_compute. left. reflexivity.
  - reflexivity.
  - reflexivity.
  - apply Sorted_cons;
      [apply Sorted_cons; [apply Sorted_nil | apply HdRel_nil]
      |apply HdRel_cons; apply KeyFacts.key_not_ltb_le; reflexivity].
Defined.

Lemma duplicates_kept_witness :
  exists l1 l2 l3,
    dumped bundle_path (events (fst (run dir_shared)))
    = [bundle [fresno; austin; fresno]]
    /\ static_alerts (bundle [fresno; austin; fresno])
       = Some (l1 ++ fresno :: l2 ++ fresno :: l3).
Proof.
  destruct (duplicates_kept content stdout json_load json_dump upper
              dir_shared (Str.lit "Camera_Database_S1.json")
              (Str.lit "Camera_Database_S2.json") [] [] [] fresno)
    as [H _].
  - reflexivity.
  - vm_compute. left. reflexivity.
  - vm_compute. right. left. reflexivity.
  - apply H. vm_compute. left. reflexivity.
Defined.

End Demo2Facts.
